(** * AudioPlayer: the decode / render / collect pipeline of Player/AudioPlayer.cpp

    A shallow embedding of the player's shared state and of the functions that
    run on its four kinds of threads (controller, file reader, realtime render,
    collector).  Every function below is one C++ member function (or one pass
    through a loop body of one), written as a pure function on the player
    record.  In the runs considered below a thread executes such a function
    as one step, and an interleaving is a sequence of these steps.  The
    threads of the source can also meet inside a call or a pass (a reader
    that seeks updates mFramesDecoded and mFramesRendered one after the
    other, and tests the room in the ring before it adds what it decoded);
    the runs do not follow them there, and what is stated of a call or of a
    pass is stated of one that runs to its end undisturbed.

    What the source only calls (CoreAudio's AUGraph, pthreads, the decoders,
    CARingBuffer) is kept abstract behind three interfaces. *)

From Stdlib Require Import ZArith Lia Bool.
From Stdlib Require Import Strings.Byte.
From stdpp Require Import base option list.

Open Scope Z_scope.

(** ** Machine integers and constants *)

(** The 64-bit frame counters are modelled as integers: they count frames,
    signed overflow is undefined in the source language, and no wrap-around
    is attached to them.  The conversions to UInt32 that the source spells
    out are modelled by [to_UInt32]. *)
Abbreviation SInt64 := Z.
Abbreviation UInt32 := Z.
Abbreviation OSStatus := Z.
Abbreviation AUNode := Z.
Abbreviation AudioUnit := Z.
Abbreviation pthread_t := Z.

Definition to_UInt32 (z : Z) : UInt32 := z mod 2 ^ 32.

Definition RING_BUFFER_SIZE_FRAMES : Z := 16384.
Definition RING_BUFFER_WRITE_CHUNK_SIZE_FRAMES : Z := 2048.
Definition sizeof_float : Z := 4.

Definition noErr : OSStatus := 0.
Definition ioErr : OSStatus := -36.
Definition kCARingBufferError_OK : Z := 0.
Definition kAudioUnitRenderAction_PostRender : UInt32 := Z.shiftl 1 3.
Definition kAudioUnitRenderAction_OutputIsSilence : UInt32 := Z.shiftl 1 4.

(** ** Audio formats and buffers *)

(** The sample rate is a Float64 in the source, compared with [==]; the model
    keeps it as a number of Hz. *)
Record AudioStreamBasicDescription := mkASBD {
  mSampleRate : Z;
  mChannelsPerFrame : UInt32;
  mBytesPerFrame : UInt32
}.

Record AudioBuffer := mkAudioBuffer {
  mNumberChannels : UInt32;
  mDataByteSize : UInt32;
  mData : list byte
}.

(** An AudioBufferList; mNumberBuffers is the length of the list. *)
Abbreviation AudioBufferList := (list AudioBuffer).

(** [memset (data + off) c n] on the storage [data]: the bytes at offsets
    [off .. off + n - 1] that the storage has are overwritten. *)
Definition memset (data : list byte) (off : Z) (c : byte) (n : Z) : list byte :=
  imap (fun j x => if (off <=? Z.of_nat j) && (Z.of_nat j <? off + n) then c else x) data.

(** OSAtomicCompareAndSwap64Barrier(old, new, &cell): the outcome and the
    content of the cell afterwards. *)
Definition OSAtomicCompareAndSwap64Barrier (old new cell : SInt64) : bool * SInt64 :=
  if cell =? old then (true, new) else (false, cell).

(** OSAtomicAdd64Barrier(amount, &cell). *)
Definition OSAtomicAdd64Barrier (amount cell : SInt64) : SInt64 := cell + amount.

(** ** The interfaces the player is written against *)

(** AudioDecoder: the abstract class the player pulls frames from.  Methods
    that change the decoder return it together with their result.  The
    decoder's GetCurrentFrame and SeekToFrame carry a trailing underscore,
    the player has member functions of the same names. *)
Class AudioDecoder (D : Type) := {
  GetFormat : D -> AudioStreamBasicDescription;
  GetTotalFrames : D -> SInt64;
  GetCurrentFrame_ : D -> SInt64;
  SupportsSeeking : D -> bool;
  SeekToFrame_ : D -> SInt64 -> SInt64 * D;
  ReadAudio : D -> AudioBufferList -> UInt32 -> UInt32 * AudioBufferList * D
}.

(** CARingBuffer. *)
Class CARingBuffer (R : Type) := {
  Allocate : R -> UInt32 -> UInt32 -> UInt32 -> R;
  Store : R -> AudioBufferList -> UInt32 -> SInt64 -> Z * R;
  Fetch : R -> AudioBufferList -> UInt32 -> SInt64 -> bool -> Z * AudioBufferList
}.

(** The host: the AUGraph and its units, the queue mutex and thread creation.
    Every call returns its status; calls that act on the host return the new
    host as well.  [AUGraphIsRunning] returns what the call leaves in the
    out parameter, which the callers initialise to FALSE.
    [SetAUGraphFormat] stands for the member function of that name, which
    only rewires the graph. *)
Class Host (H : Type) := {
  AUGraphIsRunning : H -> OSStatus * bool;
  AUGraphStart : H -> OSStatus * H;
  AUGraphStop : H -> OSStatus * H;
  AUGraphGetNodeCount : H -> OSStatus * UInt32;
  AUGraphGetIndNode : H -> UInt32 -> OSStatus * AUNode;
  AUGraphNodeInfo : H -> AUNode -> OSStatus * AudioUnit;
  AudioUnitReset : H -> AudioUnit -> OSStatus * H;
  AudioUnitGetProperty_StreamFormat : H -> AudioUnit -> OSStatus * AudioStreamBasicDescription;
  SetAUGraphFormat : H -> AudioStreamBasicDescription -> OSStatus * H;
  pthread_mutex_lock : H -> Z * H;
  pthread_mutex_unlock : H -> Z * H;
  pthread_create : H -> Z * H;
  pthread_self : H -> pthread_t
}.

(** ** Decoder states *)

Module State.

Record DecoderStateData (D : Type) := mk {
  mDecoder : D;
  mTimeStamp : SInt64;
  mTotalFrames : SInt64;
  mFramesRendered : SInt64;
  mFrameToSeek : SInt64;
  mDecodingThread : pthread_t;
  mKeepDecoding : bool;
  mReadyForCollection : bool
}.

Arguments mk {D}.
Arguments mDecoder {D}.
Arguments mTimeStamp {D}.
Arguments mTotalFrames {D}.
Arguments mFramesRendered {D}.
Arguments mFrameToSeek {D}.
Arguments mDecodingThread {D}.
Arguments mKeepDecoding {D}.
Arguments mReadyForCollection {D}.

Section Setters.
Context {D : Type}.
Implicit Type s : DecoderStateData D.

Definition set_mDecoder (d : D) s :=
  mk d (mTimeStamp s) (mTotalFrames s) (mFramesRendered s) (mFrameToSeek s)
     (mDecodingThread s) (mKeepDecoding s) (mReadyForCollection s).
Definition set_mTimeStamp (v : SInt64) s :=
  mk (mDecoder s) v (mTotalFrames s) (mFramesRendered s) (mFrameToSeek s)
     (mDecodingThread s) (mKeepDecoding s) (mReadyForCollection s).
Definition set_mTotalFrames (v : SInt64) s :=
  mk (mDecoder s) (mTimeStamp s) v (mFramesRendered s) (mFrameToSeek s)
     (mDecodingThread s) (mKeepDecoding s) (mReadyForCollection s).
Definition set_mFramesRendered (v : SInt64) s :=
  mk (mDecoder s) (mTimeStamp s) (mTotalFrames s) v (mFrameToSeek s)
     (mDecodingThread s) (mKeepDecoding s) (mReadyForCollection s).
Definition set_mFrameToSeek (v : SInt64) s :=
  mk (mDecoder s) (mTimeStamp s) (mTotalFrames s) (mFramesRendered s) v
     (mDecodingThread s) (mKeepDecoding s) (mReadyForCollection s).
Definition set_mDecodingThread (v : pthread_t) s :=
  mk (mDecoder s) (mTimeStamp s) (mTotalFrames s) (mFramesRendered s) (mFrameToSeek s)
     v (mKeepDecoding s) (mReadyForCollection s).
Definition set_mKeepDecoding (v : bool) s :=
  mk (mDecoder s) (mTimeStamp s) (mTotalFrames s) (mFramesRendered s) (mFrameToSeek s)
     (mDecodingThread s) v (mReadyForCollection s).
Definition set_mReadyForCollection (v : bool) s :=
  mk (mDecoder s) (mTimeStamp s) (mTotalFrames s) (mFramesRendered s) (mFrameToSeek s)
     (mDecodingThread s) (mKeepDecoding s) v.
End Setters.

End State.

Abbreviation DecoderStateData := State.DecoderStateData.

(** Modelled from the spec: the constructor of DecoderStateData, declared in
    DecoderStateData.h, which is not among the sources.  The spec's data model
    has totalFrames "declared by the decoder", framesRendered counting up
    from zero, frameToSeek at the sentinel -1 for "no pending seek",
    keepDecoding set until cleared and readyForCollection flipping to true
    later.  The time stamp and the thread are assigned by the file reader
    right after construction. *)
Definition DecoderStateData_new {D} `{AudioDecoder D} (decoder : D) : DecoderStateData D :=
  State.mk decoder 0 (GetTotalFrames decoder) 0 (-1) 0 true false.

(** ** What the player does to the outside *)

(** The decoder callbacks the player performs, the semaphores it signals and
    the reader threads it starts, in the order they happen. *)
Inductive Event (D : Type) :=
| PerformDecodingStartedCallback (d : D)
| PerformDecodingFinishedCallback (d : D)
| PerformRenderingStartedCallback (d : D)
| PerformRenderingFinishedCallback (d : D)
| semaphore_signal_mDecoderSemaphore
| semaphore_signal_mCollectorSemaphore
| fileReaderEntry_started.

Arguments PerformDecodingStartedCallback {D}.
Arguments PerformDecodingFinishedCallback {D}.
Arguments PerformRenderingStartedCallback {D}.
Arguments PerformRenderingFinishedCallback {D}.
Arguments semaphore_signal_mDecoderSemaphore {D}.
Arguments semaphore_signal_mCollectorSemaphore {D}.
Arguments fileReaderEntry_started {D}.

(** ** The player *)

(** The members of AudioPlayer the pipeline uses.  [mActiveDecoders] has
    kActiveDecoderArraySize slots; that constant is declared in AudioPlayer.h
    and the functions below work for any number of slots. *)
Record AudioPlayer (H D R : Type) := mkAudioPlayer {
  host : H;
  mOutputNode : AUNode;
  mRingBuffer : R;
  mDecoderQueue : list D;
  mActiveDecoders : list (option (DecoderStateData D));
  mFramesDecoded : SInt64;
  mFramesRendered : SInt64;
  mNextDecoderStartingTimeStamp : SInt64;
  mFramesRenderedLastPass : UInt32;
  events : list (Event D)
}.

Arguments mkAudioPlayer {H D R}.
Arguments host {H D R}.
Arguments mOutputNode {H D R}.
Arguments mRingBuffer {H D R}.
Arguments mDecoderQueue {H D R}.
Arguments mActiveDecoders {H D R}.
Arguments mFramesDecoded {H D R}.
Arguments mFramesRendered {H D R}.
Arguments mNextDecoderStartingTimeStamp {H D R}.
Arguments mFramesRenderedLastPass {H D R}.
Arguments events {H D R}.

Section Player.

Context {H D R : Type} `{Host H} `{AudioDecoder D} `{CARingBuffer R}.

Local Abbreviation Player := (AudioPlayer H D R).
Local Abbreviation Slot := (option (DecoderStateData D)).

Implicit Type p : Player.

Definition set_host (h : H) p : Player :=
  mkAudioPlayer h (mOutputNode p) (mRingBuffer p) (mDecoderQueue p) (mActiveDecoders p)
    (mFramesDecoded p) (mFramesRendered p) (mNextDecoderStartingTimeStamp p)
    (mFramesRenderedLastPass p) (events p).
Definition set_mRingBuffer (r : R) p : Player :=
  mkAudioPlayer (host p) (mOutputNode p) r (mDecoderQueue p) (mActiveDecoders p)
    (mFramesDecoded p) (mFramesRendered p) (mNextDecoderStartingTimeStamp p)
    (mFramesRenderedLastPass p) (events p).
Definition set_mDecoderQueue (q : list D) p : Player :=
  mkAudioPlayer (host p) (mOutputNode p) (mRingBuffer p) q (mActiveDecoders p)
    (mFramesDecoded p) (mFramesRendered p) (mNextDecoderStartingTimeStamp p)
    (mFramesRenderedLastPass p) (events p).
Definition set_mActiveDecoders (a : list Slot) p : Player :=
  mkAudioPlayer (host p) (mOutputNode p) (mRingBuffer p) (mDecoderQueue p) a
    (mFramesDecoded p) (mFramesRendered p) (mNextDecoderStartingTimeStamp p)
    (mFramesRenderedLastPass p) (events p).
Definition set_mFramesDecoded (v : SInt64) p : Player :=
  mkAudioPlayer (host p) (mOutputNode p) (mRingBuffer p) (mDecoderQueue p) (mActiveDecoders p)
    v (mFramesRendered p) (mNextDecoderStartingTimeStamp p)
    (mFramesRenderedLastPass p) (events p).
Definition set_mFramesRendered (v : SInt64) p : Player :=
  mkAudioPlayer (host p) (mOutputNode p) (mRingBuffer p) (mDecoderQueue p) (mActiveDecoders p)
    (mFramesDecoded p) v (mNextDecoderStartingTimeStamp p)
    (mFramesRenderedLastPass p) (events p).
Definition set_mNextDecoderStartingTimeStamp (v : SInt64) p : Player :=
  mkAudioPlayer (host p) (mOutputNode p) (mRingBuffer p) (mDecoderQueue p) (mActiveDecoders p)
    (mFramesDecoded p) (mFramesRendered p) v
    (mFramesRenderedLastPass p) (events p).
Definition set_mFramesRenderedLastPass (v : UInt32) p : Player :=
  mkAudioPlayer (host p) (mOutputNode p) (mRingBuffer p) (mDecoderQueue p) (mActiveDecoders p)
    (mFramesDecoded p) (mFramesRendered p) (mNextDecoderStartingTimeStamp p)
    v (events p).
Definition emit (es : list (Event D)) p : Player :=
  mkAudioPlayer (host p) (mOutputNode p) (mRingBuffer p) (mDecoderQueue p) (mActiveDecoders p)
    (mFramesDecoded p) (mFramesRendered p) (mNextDecoderStartingTimeStamp p)
    (mFramesRenderedLastPass p) (events p ++ es).

(** *** Other utilities (end of the source file) *)

(** GetCurrentDecoderState: the scan keeps the slot and the state of the
    earliest time stamp met so far; the pointer it returns is the slot. *)
Fixpoint GetCurrentDecoderState_scan (i : nat) (result : option (nat * DecoderStateData D))
    (slots : list Slot) : option (nat * DecoderStateData D) :=
  match slots with
  | [] => result
  | None :: rest => GetCurrentDecoderState_scan (S i) result rest
  | Some decoderState :: rest =>
      if State.mReadyForCollection decoderState
      then GetCurrentDecoderState_scan (S i) result rest
      else match result with
           | None => GetCurrentDecoderState_scan (S i) (Some (i, decoderState)) rest
           | Some (_, r) =>
               if State.mTimeStamp decoderState <? State.mTimeStamp r
               then GetCurrentDecoderState_scan (S i) (Some (i, decoderState)) rest
               else GetCurrentDecoderState_scan (S i) result rest
           end
  end.

Definition GetCurrentDecoderState p : option (nat * DecoderStateData D) :=
  GetCurrentDecoderState_scan 0%nat None (mActiveDecoders p).

(** StopActiveDecoders. *)
Definition StopActiveDecoders_slot (slot : Slot) : Slot :=
  match slot with
  | None => None
  | Some decoderState =>
      Some (State.set_mReadyForCollection true (State.set_mKeepDecoding false decoderState))
  end.

Definition StopActiveDecoders p : Player :=
  emit [semaphore_signal_mDecoderSemaphore; semaphore_signal_mCollectorSemaphore]
    (set_mActiveDecoders (map StopActiveDecoders_slot (mActiveDecoders p)) p).

(** ResetAUGraph: every unit of the graph is reset, stopping at the first
    call that fails. *)
Fixpoint ResetAUGraph_nodes (count : nat) (i : UInt32) (h : H) : OSStatus * H :=
  match count with
  | O => (noErr, h)
  | S count' =>
      let '(result, node) := AUGraphGetIndNode h i in
      if negb (result =? noErr) then (result, h) else
      let '(result, au) := AUGraphNodeInfo h node in
      if negb (result =? noErr) then (result, h) else
      let '(result, h') := AudioUnitReset h au in
      if negb (result =? noErr) then (result, h') else
      ResetAUGraph_nodes count' (i + 1) h'
  end.

Definition ResetAUGraph_host (h : H) : OSStatus * H :=
  let '(result, nodeCount) := AUGraphGetNodeCount h in
  if negb (result =? noErr) then (result, h) else
  ResetAUGraph_nodes (Z.to_nat nodeCount) 0 h.

Definition ResetAUGraph p : Player := set_host (snd (ResetAUGraph_host (host p))) p.

(** *** Playback control *)

Definition IsPlaying p : bool := snd (AUGraphIsRunning (host p)).

Definition Play p : Player :=
  if IsPlaying p then p else set_host (snd (AUGraphStart (host p))) p.

Definition Pause p : Player :=
  if negb (IsPlaying p) then p else set_host (snd (AUGraphStop (host p))) p.

Definition zero_counters p : Player :=
  set_mNextDecoderStartingTimeStamp 0 (set_mFramesRendered 0 (set_mFramesDecoded 0 p)).

Definition Stop p : Player :=
  if negb (IsPlaying p) then p else
  zero_counters (ResetAUGraph (StopActiveDecoders (Pause p))).

(** *** Playback properties *)

Definition GetCurrentFrame p : SInt64 :=
  match GetCurrentDecoderState p with
  | None => -1
  | Some (_, currentDecoderState) =>
      if -1 =? State.mFrameToSeek currentDecoderState
      then State.mFramesRendered currentDecoderState
      else State.mFrameToSeek currentDecoderState
  end.

(** *** Seeking *)

(** SeekToFrame, which asserts 0 <= frame: the request is left in the current
    decoder's state for its file reader to pick up. *)
Definition SeekToFrame p (frame : SInt64) : bool * Player :=
  match GetCurrentDecoderState p with
  | None => (false, p)
  | Some (slot, currentDecoderState) =>
      if negb (SupportsSeeking (State.mDecoder currentDecoderState)) then (false, p) else
      let '(swapped, frameToSeek) :=
        OSAtomicCompareAndSwap64Barrier (State.mFrameToSeek currentDecoderState) frame
          (State.mFrameToSeek currentDecoderState) in
      if negb swapped then (false, p) else
      (true,
       emit [semaphore_signal_mDecoderSemaphore]
         (set_mActiveDecoders
            (<[slot := Some (State.set_mFrameToSeek frameToSeek currentDecoderState)]>
               (mActiveDecoders p)) p))
  end.

(** *** Playlist management *)

(** Play(AudioDecoder * ).  SetAUGraphChannelLayout, called after
    SetAUGraphFormat, has an empty body that returns noErr and is left out. *)
Definition PlayDecoder p (decoder : D) : bool * Player :=
  let wasPlaying := IsPlaying p in
  let p := if wasPlaying then Pause p else p in
  let p := StopActiveDecoders p in
  let p := ResetAUGraph p in
  let p := zero_counters p in
  let '(lockResult, h) := pthread_mutex_lock (host p) in
  let p := set_host h p in
  if negb (lockResult =? 0) then (false, p) else
  let p := set_mDecoderQueue (decoder :: mDecoderQueue p) p in
  let p := set_host (snd (pthread_mutex_unlock (host p))) p in
  let '(result, h) := SetAUGraphFormat (host p) (GetFormat decoder) in
  let p := set_host h p in
  if negb (result =? noErr) then (false, p) else
  let p := set_mRingBuffer
             (Allocate (mRingBuffer p) (mChannelsPerFrame (GetFormat decoder))
                (mBytesPerFrame (GetFormat decoder)) RING_BUFFER_SIZE_FRAMES) p in
  let '(creationResult, h) := pthread_create (host p) in
  let p := set_host h p in
  if negb (creationResult =? 0) then (false, p) else
  let p := emit [fileReaderEntry_started] p in
  let p := if wasPlaying then Play p else p in
  (true, p).

(** Enqueue(AudioDecoder * ). *)
Definition Enqueue p (decoder : D) : bool * Player :=
  let '(lockResult, h) := pthread_mutex_lock (host p) in
  let p := set_host h p in
  if negb (lockResult =? 0) then (false, p) else
  let decoderQueueSize := length (mDecoderQueue p) in
  let p := set_host (snd (pthread_mutex_unlock (host p))) p in
  if bool_decide (GetCurrentDecoderState p = None) && bool_decide (decoderQueueSize = 0%nat)
  then PlayDecoder p decoder else
  let '(auResult, au) := AUGraphNodeInfo (host p) (mOutputNode p) in
  if negb (auResult =? noErr) then (false, p) else
  let '(result, format) := AudioUnitGetProperty_StreamFormat (host p) au in
  if negb (result =? noErr) then (false, p) else
  let nextFormat := GetFormat decoder in
  let formatsMatch :=
    (mSampleRate nextFormat =? mSampleRate format)
    && (mChannelsPerFrame nextFormat =? mChannelsPerFrame format) in
  if negb formatsMatch then (false, p) else
  let '(lockResult, h) := pthread_mutex_lock (host p) in
  let p := set_host h p in
  if negb (lockResult =? 0) then (false, p) else
  let p := set_mDecoderQueue (mDecoderQueue p ++ [decoder]) p in
  let p := set_host (snd (pthread_mutex_unlock (host p))) p in
  (true, p).

(** ClearQueuedDecoders. *)
Definition ClearQueuedDecoders p : bool * Player :=
  let '(lockResult, h) := pthread_mutex_lock (host p) in
  let p := set_host h p in
  if negb (lockResult =? 0) then (false, p) else
  let p := set_mDecoderQueue [] p in
  (true, set_host (snd (pthread_mutex_unlock (host p))) p).

(** *** Callbacks *)

(** The silence written when the ring holds nothing. *)
Definition Render_silence (inNumberFrames : UInt32) (b : AudioBuffer) : AudioBuffer :=
  let byteCountToZero := inNumberFrames * sizeof_float in
  mkAudioBuffer (mNumberChannels b) (to_UInt32 byteCountToZero)
    (memset (mData b) 0 x00 byteCountToZero).

(** The silence written behind [framesToRead] fetched frames. *)
Definition Render_tail (inNumberFrames framesToRead : UInt32) (b : AudioBuffer) : AudioBuffer :=
  let framesOfSilence := to_UInt32 (inNumberFrames - framesToRead) in
  let byteCountToZero := framesOfSilence * sizeof_float in
  mkAudioBuffer (mNumberChannels b)
    (to_UInt32 (mDataByteSize b + to_UInt32 byteCountToZero))
    (memset (mData b) (framesToRead * sizeof_float) x00 byteCountToZero).

(** Render: status, action flags, output buffers and player afterwards. *)
Definition Render p (ioActionFlags inNumberFrames : UInt32) (ioData : AudioBufferList)
    : OSStatus * UInt32 * AudioBufferList * Player :=
  let framesAvailableToRead := to_UInt32 (mFramesDecoded p - mFramesRendered p) in
  if 0 =? framesAvailableToRead then
    (noErr, Z.lor ioActionFlags kAudioUnitRenderAction_OutputIsSilence,
     map (Render_silence inNumberFrames) ioData, p)
  else
    let framesToRead := Z.min framesAvailableToRead inNumberFrames in
    let '(result, ioData) := Fetch (mRingBuffer p) ioData framesToRead (mFramesRendered p) false in
    if negb (result =? kCARingBufferError_OK) then (ioErr, ioActionFlags, ioData, p) else
    let p := set_mFramesRenderedLastPass framesToRead p in
    let p := set_mFramesRendered (OSAtomicAdd64Barrier framesToRead (mFramesRendered p)) p in
    let ioData :=
      if negb (framesToRead =? inNumberFrames)
      then map (Render_tail inNumberFrames framesToRead) ioData else ioData in
    let framesAvailableToWrite :=
      to_UInt32 (RING_BUFFER_SIZE_FRAMES - (mFramesDecoded p - mFramesRendered p)) in
    let p := if RING_BUFFER_WRITE_CHUNK_SIZE_FRAMES <=? framesAvailableToWrite
             then emit [semaphore_signal_mDecoderSemaphore] p else p in
    (noErr, ioActionFlags, ioData, p).

(** DidRender, the body of the loop for one decoder state that is neither
    NULL nor ready for collection: the state afterwards, the callbacks made
    and framesFromThisDecoder. *)
Definition DidRender_visit (framesRenderedLastPass : UInt32) (decoderState : DecoderStateData D)
    : DecoderStateData D * list (Event D) * SInt64 :=
  let decoderFramesRemaining :=
    State.mTotalFrames decoderState - State.mFramesRendered decoderState in
  let framesFromThisDecoder := Z.min decoderFramesRemaining framesRenderedLastPass in
  let started :=
    if 0 =? State.mFramesRendered decoderState
    then [PerformRenderingStartedCallback (State.mDecoder decoderState)] else [] in
  let decoderState :=
    State.set_mFramesRendered
      (OSAtomicAdd64Barrier framesFromThisDecoder (State.mFramesRendered decoderState))
      decoderState in
  if State.mFramesRendered decoderState =? State.mTotalFrames decoderState
  then (State.set_mReadyForCollection true decoderState,
        started ++ [PerformRenderingFinishedCallback (State.mDecoder decoderState);
                    semaphore_signal_mCollectorSemaphore],
        framesFromThisDecoder)
  else (decoderState, started, framesFromThisDecoder).

(** DidRender, the loop over mActiveDecoders from some slot on. *)
Fixpoint DidRender_scan (framesRenderedLastPass : UInt32) (framesRemainingToDistribute : SInt64)
    (slots : list Slot) : list Slot * list (Event D) :=
  match slots with
  | [] => ([], [])
  | None :: rest =>
      let '(rest', es) := DidRender_scan framesRenderedLastPass framesRemainingToDistribute rest in
      (None :: rest', es)
  | Some decoderState :: rest =>
      if State.mReadyForCollection decoderState then
        let '(rest', es) :=
          DidRender_scan framesRenderedLastPass framesRemainingToDistribute rest in
        (Some decoderState :: rest', es)
      else
        let '(decoderState', es, framesFromThisDecoder) :=
          DidRender_visit framesRenderedLastPass decoderState in
        let framesRemainingToDistribute := framesRemainingToDistribute - framesFromThisDecoder in
        if 0 =? framesRemainingToDistribute then (Some decoderState' :: rest, es)
        else
          let '(rest', es') :=
            DidRender_scan framesRenderedLastPass framesRemainingToDistribute rest in
          (Some decoderState' :: rest', es ++ es')
  end.

Definition DidRender p (ioActionFlags : UInt32) : OSStatus * Player :=
  if negb (Z.land kAudioUnitRenderAction_PostRender ioActionFlags =? 0) then
    if 0 =? mFramesRenderedLastPass p then (noErr, p) else
    let '(slots, es) :=
      DidRender_scan (mFramesRenderedLastPass p) (mFramesRenderedLastPass p)
        (mActiveDecoders p) in
    let p := emit es (set_mActiveDecoders slots p) in
    let p := match GetCurrentDecoderState p with
             | None => Stop p
             | Some _ => p
             end in
    (noErr, p)
  else (noErr, p).

(** *** The file reader thread *)

(** FileReaderThreadEntry up to its decoding loop: the head of the queue is
    taken and its state is put in the first empty slot.  (setThreadPolicy
    before that only changes how the thread is scheduled.)  The state of a
    reader that finds no empty slot is in no slot; the steps of such a reader
    are not followed any further. *)
Fixpoint FileReader_install (decoderStateData : DecoderStateData D) (slots : list Slot)
    : list Slot :=
  match slots with
  | [] => []
  | None :: rest => Some decoderStateData :: rest
  | Some other :: rest => Some other :: FileReader_install decoderStateData rest
  end.

Definition FileReaderThreadEntry_enter p : Player :=
  let '(lockResult, h) := pthread_mutex_lock (host p) in
  let p := set_host h p in
  if negb (lockResult =? 0) then p else
  match mDecoderQueue p with
  | [] => set_host (snd (pthread_mutex_unlock (host p))) p
  | decoder :: queue =>
      let p := set_mDecoderQueue queue p in
      let p := set_host (snd (pthread_mutex_unlock (host p))) p in
      let decoderStateData := DecoderStateData_new decoder in
      let decoderStateData := State.set_mDecodingThread (pthread_self (host p)) decoderStateData in
      let decoderStateData :=
        State.set_mTimeStamp (mNextDecoderStartingTimeStamp p) decoderStateData in
      set_mActiveDecoders (FileReader_install decoderStateData (mActiveDecoders p)) p
  end.

(** The seek a reader performs before it reads, when one is requested. *)
Definition FileReader_seek p (decoderStateData : DecoderStateData D)
    : Player * DecoderStateData D :=
  if negb (-1 =? State.mFrameToSeek decoderStateData) then
    let currentFrameBeforeSeeking := GetCurrentFrame_ (State.mDecoder decoderStateData) in
    let '(newFrame, decoder) :=
      SeekToFrame_ (State.mDecoder decoderStateData) (State.mFrameToSeek decoderStateData) in
    let decoderStateData := State.set_mDecoder decoder decoderStateData in
    let decoderStateData :=
      State.set_mFrameToSeek
        (snd (OSAtomicCompareAndSwap64Barrier (State.mFrameToSeek decoderStateData) (-1)
                (State.mFrameToSeek decoderStateData)))
        decoderStateData in
    if negb (-1 =? newFrame) then
      let framesSkipped := newFrame - currentFrameBeforeSeeking in
      let decoderStateData :=
        State.set_mFramesRendered
          (snd (OSAtomicCompareAndSwap64Barrier (State.mFramesRendered decoderStateData)
                  newFrame (State.mFramesRendered decoderStateData)))
          decoderStateData in
      let p := set_mFramesDecoded (OSAtomicAdd64Barrier framesSkipped (mFramesDecoded p)) p in
      let p :=
        set_mFramesRendered
          (snd (OSAtomicCompareAndSwap64Barrier (mFramesRendered p) (mFramesDecoded p)
                  (mFramesRendered p))) p in
      (ResetAUGraph p, decoderStateData)
    else (p, decoderStateData)
  else (p, decoderStateData).

(** How one pass through the reader's inner loop ends. *)
Inductive ReaderOutcome :=
| NoSpace
| DecodedChunk (framesDecoded : UInt32)
| EndOfStream (startingFrameNumber : SInt64).

(** What the reader does at the end of its stream. *)
Definition FileReader_finish p (decoderStateData : DecoderStateData D)
    (startingFrameNumber : SInt64) : Player * DecoderStateData D :=
  let p := emit [PerformDecodingFinishedCallback (State.mDecoder decoderStateData)] p in
  let decoderStateData := State.set_mDecodingThread 0 decoderStateData in
  let decoderStateData := State.set_mKeepDecoding false decoderStateData in
  let decoderStateData := State.set_mTotalFrames startingFrameNumber decoderStateData in
  let p :=
    set_mNextDecoderStartingTimeStamp
      (OSAtomicAdd64Barrier startingFrameNumber (mNextDecoderStartingTimeStamp p)) p in
  let '(lockResult, h) := pthread_mutex_lock (host p) in
  let p := set_host h p in
  if lockResult =? 0 then
    let decoderQueueSize := length (mDecoderQueue p) in
    let p := set_host (snd (pthread_mutex_unlock (host p))) p in
    if (0 <? decoderQueueSize)%nat then
      let '(creationResult, h) := pthread_create (host p) in
      let p := set_host h p in
      (if creationResult =? 0 then emit [fileReaderEntry_started] p else p, decoderStateData)
    else (p, decoderStateData)
  else (p, decoderStateData).

(** One pass through the inner loop of FileReaderThreadEntry for the reader
    of [decoderStateData], with [bufferList] as its transfer buffers. *)
Definition FileReader_iteration p (decoderStateData : DecoderStateData D)
    (bufferList : AudioBufferList)
    : Player * DecoderStateData D * AudioBufferList * ReaderOutcome :=
  let startTime := State.mTimeStamp decoderStateData in
  let framesAvailableToWrite :=
    to_UInt32 (RING_BUFFER_SIZE_FRAMES - (mFramesDecoded p - mFramesRendered p)) in
  if RING_BUFFER_WRITE_CHUNK_SIZE_FRAMES <=? framesAvailableToWrite then
    let '(p, decoderStateData) := FileReader_seek p decoderStateData in
    let startingFrameNumber := GetCurrentFrame_ (State.mDecoder decoderStateData) in
    let '(framesDecoded, bufferList, decoder) :=
      ReadAudio (State.mDecoder decoderStateData) bufferList
        RING_BUFFER_WRITE_CHUNK_SIZE_FRAMES in
    let decoderStateData := State.set_mDecoder decoder decoderStateData in
    let p := if 0 =? startingFrameNumber
             then emit [PerformDecodingStartedCallback decoder] p else p in
    let p :=
      if negb (0 =? framesDecoded) then
        let '(result, ring) :=
          Store (mRingBuffer p) bufferList framesDecoded (startingFrameNumber + startTime) in
        set_mFramesDecoded (OSAtomicAdd64Barrier framesDecoded (mFramesDecoded p))
          (set_mRingBuffer ring p)
      else p in
    if 0 =? framesDecoded then
      let '(p, decoderStateData) := FileReader_finish p decoderStateData startingFrameNumber in
      (p, decoderStateData, bufferList, EndOfStream startingFrameNumber)
    else (p, decoderStateData, bufferList, DecodedChunk framesDecoded)
  else (p, decoderStateData, bufferList, NoSpace).

(** The same pass for the reader whose state is in [slot].  A reader that
    met the end of its stream has left its loops (the inner one by its break,
    the outer one on the mKeepDecoding it cleared) and has zeroed
    mDecodingThread on its way; no pass of it follows. *)
Definition FileReader_step p (slot : nat) (bufferList : AudioBufferList)
    : Player * option ReaderOutcome :=
  match mActiveDecoders p !! slot with
  | Some (Some decoderStateData) =>
      if State.mDecodingThread decoderStateData =? 0 then (p, None) else
      let '(p, decoderStateData, _, outcome) :=
        FileReader_iteration p decoderStateData bufferList in
      (set_mActiveDecoders (<[slot := Some decoderStateData]> (mActiveDecoders p)) p,
       Some outcome)
  | _ => (p, None)
  end.

(** *** The collector thread *)

(** One sweep of CollectorThreadEntry. *)
Definition Collector_slot (slot : Slot) : Slot :=
  match slot with
  | None => None
  | Some decoderState =>
      if negb (State.mReadyForCollection decoderState) then Some decoderState else None
  end.

Definition CollectorThreadEntry_sweep p : Player :=
  set_mActiveDecoders (map Collector_slot (mActiveDecoders p)) p.

(** ** Interleavings *)

(** What a thread may do next: a call from the controller, a pass of a file
    reader, a callback of the realtime thread or a sweep of the collector,
    each taken as a whole. *)
Inductive Action :=
| CallPlay
| CallPause
| CallStop
| CallPlayDecoder (decoder : D)
| CallEnqueue (decoder : D)
| CallClearQueuedDecoders
| CallSeekToFrame (frame : SInt64)
| ReaderEnters
| ReaderIterates (slot : nat) (bufferList : AudioBufferList)
| HostRenders (ioActionFlags inNumberFrames : UInt32) (ioData : AudioBufferList)
| HostDidRender (ioActionFlags : UInt32)
| CollectorSweeps.

Definition step p (a : Action) : Player :=
  match a with
  | CallPlay => Play p
  | CallPause => Pause p
  | CallStop => Stop p
  | CallPlayDecoder decoder => snd (PlayDecoder p decoder)
  | CallEnqueue decoder => snd (Enqueue p decoder)
  | CallClearQueuedDecoders => snd (ClearQueuedDecoders p)
  | CallSeekToFrame frame => snd (SeekToFrame p frame)
  | ReaderEnters => FileReaderThreadEntry_enter p
  | ReaderIterates slot bufferList => fst (FileReader_step p slot bufferList)
  | HostRenders ioActionFlags inNumberFrames ioData =>
      snd (Render p ioActionFlags inNumberFrames ioData)
  | HostDidRender ioActionFlags => snd (DidRender p ioActionFlags)
  | CollectorSweeps => CollectorThreadEntry_sweep p
  end.

Definition run p (actions : list Action) : Player := fold_left step actions p.

End Player.

Arguments Action : clear implicits.

(** ** The rest of the controller's interface *)

(** AudioPlayer::GetTotalFrames.  The decoder interface has a method of the
    same name, so the player's lives in a module of the player's name. *)
Module AudioPlayer.
Section Members.

Context {H D R : Type} `{AudioDecoder D}.

Definition GetTotalFrames (p : AudioPlayer H D R) : SInt64 :=
  match GetCurrentDecoderState p with
  | None => -1
  | Some (_, currentDecoderState) => State.mTotalFrames currentDecoderState
  end.

End Members.
End AudioPlayer.

(** SInt64 arithmetic on what a caller passes in.  Signed overflow is
    undefined in the source language: a sum or a difference that is not an
    SInt64 has no value. *)
Definition SInt64_MIN : Z := - 2 ^ 63.
Definition SInt64_MAX : Z := 2 ^ 63 - 1.

Definition is_SInt64 (z : Z) : bool := (SInt64_MIN <=? z) && (z <=? SInt64_MAX).

Definition SInt64_add (a b : SInt64) : option SInt64 :=
  if is_SInt64 a && is_SInt64 b && is_SInt64 (a + b) then Some (a + b) else None.

Definition SInt64_sub (a b : SInt64) : option SInt64 :=
  if is_SInt64 a && is_SInt64 b && is_SInt64 (a - b) then Some (a - b) else None.

(** CFTimeInterval: seconds as a Float64.  The seeks by time use it in one
    expression, static_cast<SInt64>(seconds * sampleRate), which is kept
    behind this interface: the SInt64 it yields, and nothing where the
    product is outside the SInt64 range, for which the conversion is
    undefined. *)
Class CFTimeInterval (T : Type) := {
  to_frames : T -> Z -> option SInt64
}.

Section SeekingByTime.

Context {H D R T : Type} `{Host H} `{AudioDecoder D} `{CARingBuffer R} `{CFTimeInterval T}.

Implicit Type p : AudioPlayer H D R.

(** The seeks by time answer nothing where the source has no defined
    behaviour: the conversion of the time, or the SInt64 sum or difference
    with the current frame, is out of range. *)
Definition SeekForward p (secondsToSkip : T) : option (bool * AudioPlayer H D R) :=
  match GetCurrentDecoderState p with
  | None => Some (false, p)
  | Some (_, currentDecoderState) =>
      match to_frames secondsToSkip
              (mSampleRate (GetFormat (State.mDecoder currentDecoderState))) with
      | None => None
      | Some frameCount =>
          match SInt64_add (GetCurrentFrame p) frameCount with
          | None => None
          | Some desiredFrame =>
              let totalFrames := State.mTotalFrames currentDecoderState in
              Some (SeekToFrame p (Z.min desiredFrame totalFrames))
          end
      end
  end.

Definition SeekBackward p (secondsToSkip : T) : option (bool * AudioPlayer H D R) :=
  match GetCurrentDecoderState p with
  | None => Some (false, p)
  | Some (_, currentDecoderState) =>
      match to_frames secondsToSkip
              (mSampleRate (GetFormat (State.mDecoder currentDecoderState))) with
      | None => None
      | Some frameCount =>
          let currentFrame := GetCurrentFrame p in
          match SInt64_sub currentFrame frameCount with
          | None => None
          | Some desiredFrame => Some (SeekToFrame p (Z.max 0 desiredFrame))
          end
      end
  end.

Definition SeekToTime p (timeInSeconds : T) : option (bool * AudioPlayer H D R) :=
  match GetCurrentDecoderState p with
  | None => Some (false, p)
  | Some (_, currentDecoderState) =>
      match to_frames timeInSeconds
              (mSampleRate (GetFormat (State.mDecoder currentDecoderState))) with
      | None => None
      | Some desiredFrame =>
          let totalFrames := State.mTotalFrames currentDecoderState in
          Some (SeekToFrame p (Z.max 0 (Z.min desiredFrame totalFrames)))
      end
  end.

End SeekingByTime.

(** ** Channel layouts *)

(** AudioChannelLayout of CoreAudioTypes.h: the tag, the bitmap, the number
    of channel descriptions and the bytes of the descriptions that follow,
    sizeof(AudioChannelDescription) = 20 bytes each. *)
Definition kAudioChannelLayoutTag_UseChannelDescriptions : UInt32 := Z.lor (Z.shiftl 0 16) 0.
Definition kAudioChannelLayoutTag_UseChannelBitmap : UInt32 := Z.lor (Z.shiftl 1 16) 0.
Definition sizeof_AudioChannelDescription : Z := 20.

Record AudioChannelLayout := mkAudioChannelLayout {
  mChannelLayoutTag : UInt32;
  mChannelBitmap : UInt32;
  mNumberChannelDescriptions : UInt32;
  mChannelDescriptions : list byte
}.

(** [memcmp s1 s2 n] on the bytes the two storages have: the sign of the
    first difference among the first [n] bytes, a storage that ends first
    counting as the smaller one. *)
Fixpoint memcmp (s1 s2 : list byte) (n : nat) {struct n} : Z :=
  match n with
  | O => 0
  | S n' =>
      match s1, s2 with
      | x :: r1, y :: r2 =>
          if (Byte.to_N x <? Byte.to_N y)%N then -1
          else if (Byte.to_N y <? Byte.to_N x)%N then 1
          else memcmp r1 r2 n'
      | [], [] => 0
      | [], _ :: _ => -1
      | _ :: _, [] => 1
      end
  end.

Definition channelLayoutsAreEqual (lhs rhs : AudioChannelLayout) : bool :=
  if negb (mChannelLayoutTag lhs =? mChannelLayoutTag rhs) then false else
  if kAudioChannelLayoutTag_UseChannelBitmap =? mChannelLayoutTag lhs
  then mChannelBitmap lhs =? mChannelBitmap rhs else
  if kAudioChannelLayoutTag_UseChannelDescriptions =? mChannelLayoutTag lhs then
    if negb (mNumberChannelDescriptions lhs =? mNumberChannelDescriptions rhs) then false else
    let bytesToCompare := mNumberChannelDescriptions lhs * sizeof_AudioChannelDescription in
    0 =? memcmp (mChannelDescriptions lhs) (mChannelDescriptions rhs) (Z.to_nat bytesToCompare)
  else true.

(** ** What the properties below speak about *)

Section Observations.

Context {H D R : Type} `{Host H} `{AudioDecoder D} `{CARingBuffer R}.

Local Abbreviation Player := (AudioPlayer H D R).
Local Abbreviation Slot := (option (DecoderStateData D)).

(** Slot [i] holds the state [s], which is not ready for collection: the
    entries that DidRender and GetCurrentDecoderState look at. *)
Definition live (slots : list Slot) (i : nat) (s : DecoderStateData D) : Prop :=
  slots !! i = Some (Some s) /\ State.mReadyForCollection s = false.

(** [r] is what GetCurrentDecoderState has to return on [slots]: nothing when
    no state is live, else a live state of the smallest time stamp, the one
    in the lowest slot among those. *)
Definition earliest_live (slots : list Slot) (r : option (nat * DecoderStateData D)) : Prop :=
  match r with
  | None => forall j s', ~ live slots j s'
  | Some (i, s) =>
      live slots i s /\
      forall j s', live slots j s' ->
        State.mTimeStamp s < State.mTimeStamp s'
        \/ (State.mTimeStamp s = State.mTimeStamp s' /\ (i <= j)%nat)
  end.

(** The first such state in slot order. *)
Fixpoint first_live (slots : list Slot) : option (DecoderStateData D) :=
  match slots with
  | [] => None
  | None :: rest => first_live rest
  | Some s :: rest => if State.mReadyForCollection s then first_live rest else Some s
  end.

(** The frames rendered by the states that are not ready for collection,
    and by all the states the table holds. *)
Fixpoint live_framesRendered (slots : list Slot) : Z :=
  match slots with
  | [] => 0
  | None :: rest => live_framesRendered rest
  | Some s :: rest =>
      (if State.mReadyForCollection s then 0 else State.mFramesRendered s)
      + live_framesRendered rest
  end.

Fixpoint held_framesRendered (slots : list Slot) : Z :=
  match slots with
  | [] => 0
  | None :: rest => held_framesRendered rest
  | Some s :: rest => State.mFramesRendered s + held_framesRendered rest
  end.

(** The per-decoder counters add up to the player's. *)
Definition frames_accounted (p : Player) : Prop :=
  live_framesRendered (mActiveDecoders p) = mFramesRendered p.

(** The reader of [slot] has a seek to perform. *)
Definition seek_pending (slots : list Slot) (slot : nat) : bool :=
  match slots !! slot with
  | Some (Some s) => negb (-1 =? State.mFrameToSeek s)
  | _ => false
  end.

(** The steps that are neither a callback of the realtime thread nor a pass
    of a reader that has a seek to perform. *)
Definition quiet (p : Player) (a : Action D) : bool :=
  match a with
  | HostRenders _ _ _ => false
  | HostDidRender _ => false
  | ReaderIterates slot _ => negb (seek_pending (mActiveDecoders p) slot)
  | _ => true
  end.

(** The frames decoded and not yet rendered fit the ring. *)
Definition ring_within_capacity (p : Player) : Prop :=
  0 <= mFramesDecoded p - mFramesRendered p <= RING_BUFFER_SIZE_FRAMES.

(** Decoders that read no more frames than they are asked for. *)
Definition reads_within_request : Prop :=
  forall (decoder : D) (bufferList : AudioBufferList) (frameCount : UInt32),
    0 <= frameCount ->
    0 <= fst (fst (ReadAudio decoder bufferList frameCount)) <= frameCount.

(** Steps whose frame count is the UInt32 the host passes. *)
Definition well_typed (a : Action D) : Prop :=
  match a with
  | HostRenders _ inNumberFrames _ => 0 <= inNumberFrames < 2 ^ 32
  | _ => True
  end.

(** The frames that one run of DidRender's loop adds to the states. *)
Definition frames_attributed (before after : list Slot) : Z :=
  held_framesRendered after - held_framesRendered before.

(** The queue mutex taken and released, as every controller call that reads
    the queue starts. *)
Definition queue_inspected (p : Player) : Player :=
  set_host (snd (pthread_mutex_unlock (snd (pthread_mutex_lock (host p))))) p.

(** The stream format of the output unit as Enqueue reads it. *)
Definition graph_format (p : Player) : option AudioStreamBasicDescription :=
  let '(auResult, au) := AUGraphNodeInfo (host p) (mOutputNode p) in
  if negb (auResult =? noErr) then None else
  let '(result, format) := AudioUnitGetProperty_StreamFormat (host p) au in
  if negb (result =? noErr) then None else Some format.

(** Play sessions.  A session ends with a step that runs the counter reset
    of Stop or of Play(decoder): a Stop while the graph runs, a Play(decoder),
    an Enqueue that turns into one, a DidRender that finds no current decoder
    left while the graph runs. *)
Definition ends_session (p : Player) (a : Action D) : bool :=
  match a with
  | CallStop => IsPlaying p
  | CallPlayDecoder _ => true
  | CallEnqueue _ =>
      (fst (pthread_mutex_lock (host p)) =? 0)
      && bool_decide (GetCurrentDecoderState p = None)
      && bool_decide (mDecoderQueue p = [])
  | HostDidRender ioActionFlags =>
      negb (Z.land kAudioUnitRenderAction_PostRender ioActionFlags =? 0)
      && negb (0 =? mFramesRenderedLastPass p)
      && bool_decide
           (GetCurrentDecoderState
              (set_mActiveDecoders
                 (fst (DidRender_scan (mFramesRenderedLastPass p) (mFramesRenderedLastPass p)
                         (mActiveDecoders p))) p) = None)
      && IsPlaying p
  | _ => false
  end.

(** The total frames of the decoder whose reader meets the end of its stream
    in this step, if one does. *)
Definition reached_end_of_stream (p : Player) (a : Action D) : list SInt64 :=
  match a with
  | ReaderIterates slot bufferList =>
      match FileReader_step p slot bufferList with
      | (p', Some (EndOfStream _)) =>
          match mActiveDecoders p' !! slot with
          | Some (Some decoderStateData) => [State.mTotalFrames decoderStateData]
          | _ => []
          end
      | _ => []
      end
  | _ => []
  end.

(** A run together with the total frames of the decoders that reached the
    end of their stream in the session in progress. *)
Fixpoint session_run (p : Player) (reached : list SInt64) (actions : list (Action D))
    : Player * list SInt64 :=
  match actions with
  | [] => (p, reached)
  | a :: rest =>
      session_run (step p a)
        (if ends_session p a then [] else reached ++ reached_end_of_stream p a) rest
  end.

Definition sum_frames (l : list SInt64) : Z := fold_right Z.add 0 l.

(** Two tables that GetCurrentDecoderState cannot tell apart: the same slots
    are taken, by states of the same time stamp and readiness. *)
Definition same_key (x y : Slot) : Prop :=
  match x, y with
  | None, None => True
  | Some s, Some s' =>
      State.mTimeStamp s = State.mTimeStamp s'
      /\ State.mReadyForCollection s = State.mReadyForCollection s'
  | _, _ => False
  end.

(** What a step may do to a slot.  An empty slot is only taken when a reader
    enters; a state is only dropped by the collector, and only when it is
    ready for collection; a state that stays keeps its time stamp, stays
    ready for collection once it is, and does not go back to decoding. *)
Definition slot_evolves (a : Action D) (before after : Slot) : Prop :=
  match before, after with
  | None, None => True
  | None, Some _ => a = ReaderEnters
  | Some s, None => a = CollectorSweeps /\ State.mReadyForCollection s = true
  | Some s, Some s' =>
      State.mTimeStamp s' = State.mTimeStamp s
      /\ (State.mReadyForCollection s = true -> State.mReadyForCollection s' = true)
      /\ (State.mKeepDecoding s = false -> State.mKeepDecoding s' = false)
  end.

(** What DidRender's loop may do to a slot: only mFramesRendered and
    mReadyForCollection of a state change. *)
Definition accounted (before after : Slot) : Prop :=
  match before, after with
  | None, None => True
  | Some s, Some s' =>
      s' = State.set_mReadyForCollection (State.mReadyForCollection s')
             (State.set_mFramesRendered (State.mFramesRendered s') s)
  | _, _ => False
  end.

(** The room in the ring suffices for a chunk, as the reader tests it. *)
Definition room_for_a_chunk (p : Player) : bool :=
  RING_BUFFER_WRITE_CHUNK_SIZE_FRAMES
  <=? to_UInt32 (RING_BUFFER_SIZE_FRAMES - (mFramesDecoded p - mFramesRendered p)).

(** The player as Play(decoder) has it when it takes the queue mutex: paused
    if it was playing, its active decoders stopped, the graph reset and the
    counters zero. *)
Definition stopped_for_Play (p : Player) : Player :=
  zero_counters (ResetAUGraph (StopActiveDecoders (if IsPlaying p then Pause p else p))).

(** The state a reader puts in the table for [decoder]. *)
Definition entering_state (p : Player) (decoder : D) : DecoderStateData D :=
  State.mk decoder (mNextDecoderStartingTimeStamp p) (GetTotalFrames decoder) 0 (-1)
    (pthread_self (snd (pthread_mutex_unlock (snd (pthread_mutex_lock (host p))))))
    true false.

End Observations.

(** ** A host, a decoder and a ring to run the player on *)

Module Sample.

(** A host whose calls all succeed: the graph runs or not, holds a format
    and [units] units, and counts the resets of its units. *)
Record SimpleHost := mkHost {
  running : bool;
  format : AudioStreamBasicDescription;
  units : Z;
  unit_resets : Z
}.

#[export] Instance SimpleHost_Host : Host SimpleHost := {|
  AUGraphIsRunning h := (noErr, running h);
  AUGraphStart h := (noErr, mkHost true (format h) (units h) (unit_resets h));
  AUGraphStop h := (noErr, mkHost false (format h) (units h) (unit_resets h));
  AUGraphGetNodeCount h := (noErr, units h);
  AUGraphGetIndNode h i := (noErr, i);
  AUGraphNodeInfo h node := (noErr, node);
  AudioUnitReset h au := (noErr, mkHost (running h) (format h) (units h) (unit_resets h + 1));
  AudioUnitGetProperty_StreamFormat h au := (noErr, format h);
  SetAUGraphFormat h f := (noErr, mkHost (running h) f (units h) (unit_resets h));
  pthread_mutex_lock h := (0, h);
  pthread_mutex_unlock h := (0, h);
  pthread_create h := (0, h);
  pthread_self h := 1
|}.

(** A decoder of [frames] frames read in order from [position]; a seek
    outside the stream, or on a stream that cannot seek, answers
    [seek_failure]. *)
Record Track := mkTrack {
  track_format : AudioStreamBasicDescription;
  frames : SInt64;
  position : SInt64;
  seekable : bool;
  seek_failure : SInt64
}.

#[export] Instance Track_AudioDecoder : AudioDecoder Track := {|
  GetFormat := track_format;
  GetTotalFrames := frames;
  GetCurrentFrame_ := position;
  SupportsSeeking := seekable;
  SeekToFrame_ t frame :=
    if seekable t && (0 <=? frame) && (frame <=? frames t)
    then (frame, mkTrack (track_format t) (frames t) frame (seekable t) (seek_failure t))
    else (seek_failure t, t);
  ReadAudio t bufferList frameCount :=
    let n := Z.max 0 (Z.min frameCount (frames t - position t)) in
    (n, bufferList,
     mkTrack (track_format t) (frames t) (position t + n) (seekable t) (seek_failure t))
|}.

(** A ring that only tracks the span of frames it holds; a fetch outside
    that span fails, a fetch inside it sets the byte sizes of the buffers. *)
Record Ring := mkRing {
  bytesPerFrame : UInt32;
  capacityFrames : UInt32;
  startFrame : SInt64;
  endFrame : SInt64
}.

#[export] Instance Ring_CARingBuffer : CARingBuffer Ring := {|
  Allocate r nChannels bytes capacity := mkRing bytes capacity 0 0;
  Store r bufferList nFrames startWrite :=
    if capacityFrames r <? nFrames then (3, r)
    else (kCARingBufferError_OK,
          mkRing (bytesPerFrame r) (capacityFrames r)
            (Z.max (startFrame r) (startWrite + nFrames - capacityFrames r))
            (startWrite + nFrames));
  Fetch r bufferList nFrames startRead wrap :=
    if (startRead <? startFrame r) || (endFrame r <? startRead + nFrames)
    then (4, bufferList)
    else (kCARingBufferError_OK,
          map (fun b => mkAudioBuffer (mNumberChannels b) (to_UInt32 (nFrames * bytesPerFrame r))
                          (mData b)) bufferList)
|}.

Definition stereo_44100 : AudioStreamBasicDescription := mkASBD 44100 2 4.
Definition stereo_48000 : AudioStreamBasicDescription := mkASBD 48000 2 4.

Definition track (fmt : AudioStreamBasicDescription) (n : SInt64) : Track :=
  mkTrack fmt n 0 true (-1).

(** The player as its constructor leaves it, with eight decoder slots. *)
Definition new_player : AudioPlayer SimpleHost Track Ring :=
  mkAudioPlayer (mkHost false stereo_44100 2 0) 0 (mkRing 0 0 0 0) []
    (replicate 8 None) 0 0 0 0 [].

(** A host buffer of [bytes] bytes, none of them zero. *)
Definition host_buffer (bytes : Z) : AudioBuffer :=
  mkAudioBuffer 1 bytes (replicate (Z.to_nat bytes) xff).

(** The transfer buffers of a reader and the output buffers the host passes
    to Render, for two channels. *)
Definition transfer_buffers : AudioBufferList := [host_buffer 8192; host_buffer 8192].

Definition output_buffers (inNumberFrames : UInt32) : AudioBufferList :=
  [host_buffer (inNumberFrames * sizeof_float); host_buffer (inNumberFrames * sizeof_float)].

(** One decoder of 1000 frames is played and decoded into the ring. *)
Definition one_track_decoded : list (Action Track) :=
  [CallPlayDecoder (track stereo_44100 1000); CallPlay; ReaderEnters;
   ReaderIterates 0 transfer_buffers].

(** The same with a decoder of 3 frames. *)
Definition three_frames_decoded : list (Action Track) :=
  [CallPlayDecoder (track stereo_44100 3); CallPlay; ReaderEnters;
   ReaderIterates 0 transfer_buffers].

(** The same without starting the graph. *)
Definition decoded_while_paused : list (Action Track) :=
  [CallPlayDecoder (track stereo_44100 1000); ReaderEnters;
   ReaderIterates 0 transfer_buffers].

(** A decoder of 100 frames is played and one of [n] frames enqueued behind
    it; both are decoded to their end. *)
Definition two_tracks_decoded (n : SInt64) : list (Action Track) :=
  [CallPlayDecoder (track stereo_44100 100); CallPlay; CallEnqueue (track stereo_44100 n);
   ReaderEnters; ReaderIterates 0 transfer_buffers; ReaderIterates 0 transfer_buffers;
   ReaderEnters; ReaderIterates 1 transfer_buffers].

(** After that the host renders 512 frames. *)
Definition handoff_within_a_pass : list (Action Track) :=
  two_tracks_decoded 1000 ++ [HostRenders 0 512 (output_buffers 512)].

(** Or it renders the 100 frames of the first decoder, accounts for them,
    and the collector sweeps. *)
Definition first_track_rendered : list (Action Track) :=
  two_tracks_decoded 500
  ++ [HostRenders 0 100 (output_buffers 100);
      HostDidRender kAudioUnitRenderAction_PostRender; CollectorSweeps].

(** A decoder of 1000 frames whose failing seeks answer -2 is decoded, then
    asked for frame 5000. *)
Definition seek_beyond_the_end : list (Action Track) :=
  [CallPlayDecoder (mkTrack stereo_44100 1000 0 true (-2)); CallPlay; ReaderEnters;
   ReaderIterates 0 transfer_buffers; CallSeekToFrame 5000].

(** A decoder of 1000 frames, decoded, is asked for frame 500. *)
Definition seek_backwards : list (Action Track) :=
  one_track_decoded ++ [CallSeekToFrame 500].

(** The first of two decoders has been decoded, the second waits in the
    queue. *)
Definition first_of_two_decoded : list (Action Track) :=
  [CallPlayDecoder (track stereo_44100 100); CallPlay; CallEnqueue (track stereo_44100 1000);
   ReaderEnters; ReaderIterates 0 transfer_buffers].

(** The state of a decoder without frames that no pass has visited yet. *)
Definition empty_track_state : DecoderStateData Track :=
  State.mk (track stereo_44100 0) 110 0 0 (-1) 0 false false.

(** The state in slot [slot], for the scenarios above where there is one. *)
Definition state_in (slot : nat) (p : AudioPlayer SimpleHost Track Ring)
    : DecoderStateData Track :=
  match mActiveDecoders p !! slot with
  | Some (Some s) => s
  | _ => empty_track_state
  end.

(** The players these runs end in. *)
Definition playing : AudioPlayer SimpleHost Track Ring :=
  Eval vm_compute in run new_player one_track_decoded.

Definition playing_three_frames : AudioPlayer SimpleHost Track Ring :=
  Eval vm_compute in run new_player three_frames_decoded.

Definition paused : AudioPlayer SimpleHost Track Ring :=
  Eval vm_compute in run new_player decoded_while_paused.

Definition first_decoded : AudioPlayer SimpleHost Track Ring :=
  Eval vm_compute in run new_player first_of_two_decoded.

Definition handoff : AudioPlayer SimpleHost Track Ring :=
  Eval vm_compute in run new_player handoff_within_a_pass.

Definition first_rendered : AudioPlayer SimpleHost Track Ring :=
  Eval vm_compute in run new_player first_track_rendered.

Definition seeking_beyond : AudioPlayer SimpleHost Track Ring :=
  Eval vm_compute in run new_player seek_beyond_the_end.

Definition seeking_back : AudioPlayer SimpleHost Track Ring :=
  Eval vm_compute in run new_player seek_backwards.

(** The run in which both decoders of a session are decoded to their end. *)
Definition both_to_their_end : list (Action Track) :=
  two_tracks_decoded 1000 ++ [ReaderIterates 1 transfer_buffers].

(** Whole seconds as time intervals: their product with a sample rate in Hz
    is a number of frames, where it is an SInt64. *)
#[export] Instance seconds_CFTimeInterval : CFTimeInterval Z := {|
  to_frames seconds sampleRate :=
    if is_SInt64 (seconds * sampleRate) then Some (seconds * sampleRate) else None
|}.

(** A decoder of 1000 frames has been handed to Play(decoder); then its
    reader has entered. *)
Definition one_track_queued : list (Action Track) :=
  [CallPlayDecoder (track stereo_44100 1000)].

Definition one_track_entered : list (Action Track) :=
  [CallPlayDecoder (track stereo_44100 1000); CallPlay; ReaderEnters].

(** A decoder of 100000 frames fills the ring in eight passes of its
    reader. *)
Definition ring_filled : list (Action Track) :=
  [CallPlayDecoder (track stereo_44100 100000); CallPlay; ReaderEnters]
  ++ replicate 8 (ReaderIterates 0 transfer_buffers).

(** The first of two decoders has met the end of its stream, the second
    waits in the queue. *)
Definition first_of_two_ended : list (Action Track) :=
  first_of_two_decoded ++ [ReaderIterates 0 transfer_buffers].

(** The three frames of a decoder are rendered in a pass of 5 frames. *)
Definition three_frames_rendered : list (Action Track) :=
  three_frames_decoded ++ [HostRenders 0 5 (output_buffers 5)].

(** A decoder of 10000 frames of which the first chunk is decoded, rendered
    and accounted for: the ring is empty again. *)
Definition first_chunk_played : list (Action Track) :=
  [CallPlayDecoder (track stereo_44100 10000); CallPlay; ReaderEnters;
   ReaderIterates 0 transfer_buffers; HostRenders 0 2048 (output_buffers 2048);
   HostDidRender kAudioUnitRenderAction_PostRender].

Definition queued : AudioPlayer SimpleHost Track Ring :=
  Eval vm_compute in run new_player one_track_queued.

Definition entered : AudioPlayer SimpleHost Track Ring :=
  Eval vm_compute in run new_player one_track_entered.

Definition full : AudioPlayer SimpleHost Track Ring :=
  Eval vm_compute in run new_player ring_filled.

Definition first_ended : AudioPlayer SimpleHost Track Ring :=
  Eval vm_compute in run new_player first_of_two_ended.

Definition three_rendered : AudioPlayer SimpleHost Track Ring :=
  Eval vm_compute in run new_player three_frames_rendered.

Definition starved : AudioPlayer SimpleHost Track Ring :=
  Eval vm_compute in run new_player first_chunk_played.

(** A host whose graph takes no format: SetAUGraphFormat fails with
    kAudioUnitErr_FormatNotSupported, every other call succeeds. *)
Inductive RefusingHost := refusing_host.

#[export] Instance RefusingHost_Host : Host RefusingHost := {|
  AUGraphIsRunning h := (noErr, false);
  AUGraphStart h := (noErr, h);
  AUGraphStop h := (noErr, h);
  AUGraphGetNodeCount h := (noErr, 0);
  AUGraphGetIndNode h i := (noErr, i);
  AUGraphNodeInfo h node := (noErr, node);
  AudioUnitReset h au := (noErr, h);
  AudioUnitGetProperty_StreamFormat h au := (noErr, stereo_44100);
  SetAUGraphFormat h f := (-10868, h);
  pthread_mutex_lock h := (0, h);
  pthread_mutex_unlock h := (0, h);
  pthread_create h := (0, h);
  pthread_self h := 1
|}.

Definition refused_player : AudioPlayer RefusingHost Track Ring :=
  mkAudioPlayer refusing_host 0 (mkRing 0 0 0 0) [] (replicate 8 None) 0 0 0 0 [].

End Sample.

(** * Properties of the pipeline *)

(** Case analysis along the branches of a function body. *)
Ltac branches := repeat (case_match; simpl in *; simplify_eq); simpl; try done.

(** ** Buffers and 32-bit arithmetic *)

Section Buffers.

#[local] Arguments Z.eqb : simpl never.
#[local] Arguments Z.ltb : simpl never.
#[local] Arguments Z.leb : simpl never.
#[local] Arguments Z.min : simpl never.
#[local] Arguments Z.mul : simpl never.
#[local] Arguments Z.add : simpl never.
#[local] Arguments Z.sub : simpl never.
#[local] Arguments Z.pow : simpl never.
#[local] Arguments Z.modulo : simpl never.
#[local] Arguments Z.lor : simpl never.
#[local] Arguments Z.land : simpl never.
#[local] Arguments OSAtomicCompareAndSwap64Barrier : simpl never.

Lemma length_memset data off c n : length (memset data off c n) = length data.
Proof. unfold memset. by rewrite length_imap. Qed.

Lemma memset_lookup_inside data off c n (j : nat) :
  (j < length data)%nat -> off <= Z.of_nat j < off + n ->
  memset data off c n !! j = Some c.
Proof.
  intros Hj Hin. unfold memset. rewrite list_lookup_imap.
  destruct (lookup_lt_is_Some_2 data j Hj) as [x ->]. simpl.
  destruct (Z.leb_spec off (Z.of_nat j)); [|lia].
  destruct (Z.ltb_spec (Z.of_nat j) (off + n)); [done|lia].
Qed.

Lemma memset_lookup_outside data off c n (j : nat) :
  Z.of_nat j < off \/ off + n <= Z.of_nat j ->
  memset data off c n !! j = data !! j.
Proof.
  intros Hout. unfold memset. rewrite list_lookup_imap.
  destruct (data !! j) as [x|]; [|done]. simpl.
  destruct (Z.leb_spec off (Z.of_nat j)); [|done].
  destruct (Z.ltb_spec (Z.of_nat j) (off + n)); [lia|done].
Qed.

Lemma lookup_map {A B} (f : A -> B) (l : list A) (i : nat) : map f l !! i = f <$> l !! i.
Proof. exact (list_lookup_fmap f l i). Qed.

Lemma to_UInt32_small z : 0 <= z < 2 ^ 32 -> to_UInt32 z = z.
Proof. intros Hz. unfold to_UInt32. by apply Z.mod_small. Qed.

Lemma to_UInt32_add_r a b : to_UInt32 (a + to_UInt32 b) = to_UInt32 (a + b).
Proof. unfold to_UInt32. by rewrite Zplus_mod_idemp_r. Qed.



End Buffers.

Section Properties.

Context {H D R : Type} `{Host H} `{AudioDecoder D} `{CARingBuffer R}.

#[local] Arguments Z.eqb : simpl never.
#[local] Arguments Z.ltb : simpl never.
#[local] Arguments Z.leb : simpl never.
#[local] Arguments Z.min : simpl never.
#[local] Arguments Z.mul : simpl never.
#[local] Arguments Z.add : simpl never.
#[local] Arguments Z.sub : simpl never.
#[local] Arguments Z.pow : simpl never.
#[local] Arguments Z.modulo : simpl never.
#[local] Arguments Z.lor : simpl never.
#[local] Arguments Z.land : simpl never.
#[local] Arguments OSAtomicCompareAndSwap64Barrier : simpl never.

Local Abbreviation Player := (AudioPlayer H D R).
Local Abbreviation Slot := (option (DecoderStateData D)).

Implicit Type p : Player.

(** ** The current decoder *)

(** [live] and [earliest_live] when a slot is added behind the ones scanned. *)
Lemma live_snoc (pre : list Slot) x j s' :
  live (pre ++ [x]) j s' <->
  live pre j s' \/ (j = length pre /\ x = Some s' /\ State.mReadyForCollection s' = false).
Proof.
  unfold live. rewrite lookup_app_Some. split.
  - intros [[Hl | [Hge Hl]] Hr]; [left; done|].
    right. destruct (j - length pre)%nat as [|k] eqn:E; simpl in Hl; [|done].
    split; [lia|]. split; congruence.
  - intros [[Hl Hr] | (-> & -> & Hr)]; [split; [left|]; done|].
    split; [|done]. right. split; [lia|]. by rewrite Nat.sub_diag.
Qed.

Lemma live_lt_length (slots : list Slot) j s' : live slots j s' -> (j < length slots)%nat.
Proof. intros [Hl _]. by apply lookup_lt_Some in Hl. Qed.

Lemma earliest_live_snoc (pre : list Slot) r x :
  earliest_live pre r ->
  earliest_live (pre ++ [x])
    (match x with
     | None => r
     | Some decoderState =>
         if State.mReadyForCollection decoderState then r
         else match r with
              | None => Some (length pre, decoderState)
              | Some (_, r') =>
                  if State.mTimeStamp decoderState <? State.mTimeStamp r'
                  then Some (length pre, decoderState) else r
              end
     end).
Proof.
  intros He.
  assert (Hkeep : (forall s', x = Some s' -> State.mReadyForCollection s' = true) ->
                  earliest_live (pre ++ [x]) r).
  { intros Hx. destruct r as [[i s]|]; simpl in *.
    - destruct He as [Hl Hmin]. split; [apply live_snoc; by left|].
      intros j s' [Hj | (_ & Hs & Hr)]%live_snoc; [by apply Hmin|].
      apply Hx in Hs. congruence.
    - intros j s' [Hj | (_ & Hs & Hr)]%live_snoc; [by eapply He|].
      apply Hx in Hs. congruence. }
  destruct x as [d|]; [|apply Hkeep; done].
  destruct (State.mReadyForCollection d) eqn:Hr; [apply Hkeep; congruence|].
  destruct r as [[i s]|]; simpl in *.
  - destruct He as [Hl Hmin].
    destruct (Z.ltb_spec (State.mTimeStamp d) (State.mTimeStamp s)) as [Hlt | Hge]; simpl.
    + split; [apply live_snoc; right; done|].
      intros j s' [Hj | (-> & Hs & _)]%live_snoc.
      * destruct (Hmin _ _ Hj) as [? | [? ?]]; left; lia.
      * injection Hs as <-. right. done.
    + split; [apply live_snoc; by left|].
      intros j s' [Hj | (-> & Hs & _)]%live_snoc; [by apply Hmin|].
      injection Hs as <-. apply live_lt_length in Hl. lia.
  - split; [apply live_snoc; right; done|].
    intros j s' [Hj | (-> & Hs & _)]%live_snoc; [by apply He in Hj|].
    injection Hs as <-. right. done.
Qed.

Lemma GetCurrentDecoderState_scan_earliest_live (suf pre : list Slot) r :
  earliest_live pre r ->
  earliest_live (pre ++ suf) (GetCurrentDecoderState_scan (length pre) r suf).
Proof.
  revert pre r. induction suf as [|x rest IH]; intros pre r He; simpl.
  - by rewrite app_nil_r.
  - pose proof (earliest_live_snoc pre r x He) as Hs.
    replace (pre ++ x :: rest) with ((pre ++ [x]) ++ rest) by (by rewrite <- app_assoc).
    replace (S (length pre)) with (length (pre ++ [x])) by (rewrite length_app; simpl; lia).
    destruct x as [d|]; [|by apply IH].
    destruct (State.mReadyForCollection d); [by apply IH|].
    destruct r as [[i s]|]; [|by apply IH].
    destruct (State.mTimeStamp d <? State.mTimeStamp s); by apply IH.
Qed.

Lemma GetCurrentDecoderState_earliest_live (p : Player) :
  earliest_live (mActiveDecoders p) (GetCurrentDecoderState p).
Proof.
  apply (GetCurrentDecoderState_scan_earliest_live (mActiveDecoders p) [] None).
  intros j s' [Hl _]. done.
Qed.

(** C10. GetCurrentDecoderState returns the live (non-NULL, not ready for
    collection) state of the smallest time stamp, and none when no state is
    live.  On that state GetCurrentFrame returns the pending seek target when
    mFrameToSeek is not -1 and mFramesRendered when it is -1; with no live
    state it returns -1. *)
Theorem GetCurrentFrame_of_current_decoder (p : Player) :
  match GetCurrentDecoderState p with
  | Some (i, s) =>
      earliest_live (mActiveDecoders p) (Some (i, s)) /\
      GetCurrentFrame p =
        (if bool_decide (State.mFrameToSeek s = -1)
         then State.mFramesRendered s else State.mFrameToSeek s)
  | None =>
      (forall j s', ~ live (mActiveDecoders p) j s') /\ GetCurrentFrame p = -1
  end.
Proof.
  pose proof (GetCurrentDecoderState_earliest_live p) as He.
  unfold GetCurrentFrame.
  destruct (GetCurrentDecoderState p) as [[i s]|]; [|done].
  split; [done|].
  case_bool_decide as Hs.
  - rewrite Hs. done.
  - destruct (Z.eqb_spec (-1) (State.mFrameToSeek s)); [congruence|done].
Qed.


(** ** What each function leaves alone *)

(** Play and Pause only act on the host; the other functions are described
    by the members they leave as they were. *)
Lemma Stop_next_time_stamp p :
  mNextDecoderStartingTimeStamp (Stop p)
  = if IsPlaying p then 0 else mNextDecoderStartingTimeStamp p.
Proof. unfold Stop. branches. Qed.



Lemma Pause_only_host p : Pause p = set_host (host (Pause p)) p.
Proof. unfold Pause. destruct (negb _); by destruct p. Qed.

Lemma Play_only_host p : Play p = set_host (host (Play p)) p.
Proof. unfold Play. destruct (IsPlaying p); by destruct p. Qed.

Lemma Stop_members p :
  Stop p = (if IsPlaying p
            then zero_counters (ResetAUGraph (StopActiveDecoders (set_host (host (Pause p)) p)))
            else p).
Proof. unfold Stop. destruct (IsPlaying p); simpl; [|done]. by rewrite <- Pause_only_host. Qed.

Lemma PlayDecoder_members p decoder :
  let p' := snd (PlayDecoder p decoder) in
  mActiveDecoders p' = map StopActiveDecoders_slot (mActiveDecoders p)
  /\ mFramesDecoded p' = 0 /\ mFramesRendered p' = 0
  /\ mNextDecoderStartingTimeStamp p' = 0.
Proof.
  unfold PlayDecoder.
  destruct (IsPlaying p); [rewrite (Pause_only_host p)|]; branches;
    try rewrite Play_only_host; done.
Qed.

Lemma ClearQueuedDecoders_members p :
  let p' := snd (ClearQueuedDecoders p) in
  mActiveDecoders p' = mActiveDecoders p
  /\ mFramesDecoded p' = mFramesDecoded p /\ mFramesRendered p' = mFramesRendered p
  /\ mNextDecoderStartingTimeStamp p' = mNextDecoderStartingTimeStamp p.
Proof. unfold ClearQueuedDecoders. branches. Qed.

Lemma Enqueue_members p decoder :
  (ends_session p (CallEnqueue decoder) = true
   /\ Enqueue p decoder = PlayDecoder (queue_inspected p) decoder)
  \/ (ends_session p (CallEnqueue decoder) = false
      /\ let p' := snd (Enqueue p decoder) in
         mActiveDecoders p' = mActiveDecoders p
         /\ mFramesDecoded p' = mFramesDecoded p /\ mFramesRendered p' = mFramesRendered p
         /\ mNextDecoderStartingTimeStamp p' = mNextDecoderStartingTimeStamp p).
Proof.
  unfold Enqueue, ends_session, queue_inspected.
  destruct (pthread_mutex_lock (host p)) as [lockResult h]. simpl.
  change (GetCurrentDecoderState (set_host _ (set_host h p)))
    with (GetCurrentDecoderState p).
  assert (Hq : bool_decide (length (mDecoderQueue p) = 0%nat)
               = bool_decide (mDecoderQueue p = [])).
  { apply bool_decide_ext. by destruct (mDecoderQueue p). }
  rewrite Hq.
  destruct (lockResult =? 0); simpl; [|by right].
  destruct (bool_decide (GetCurrentDecoderState p = None)); simpl; [|right; branches].
  destruct (bool_decide (mDecoderQueue p = [])); simpl; [by left|right; branches].
Qed.

Lemma SeekToFrame_members p frame :
  let p' := snd (SeekToFrame p frame) in
  mFramesDecoded p' = mFramesDecoded p /\ mFramesRendered p' = mFramesRendered p
  /\ mNextDecoderStartingTimeStamp p' = mNextDecoderStartingTimeStamp p.
Proof. unfold SeekToFrame. branches. Qed.

Lemma FileReaderThreadEntry_enter_members p :
  let p' := FileReaderThreadEntry_enter p in
  mFramesDecoded p' = mFramesDecoded p /\ mFramesRendered p' = mFramesRendered p
  /\ mNextDecoderStartingTimeStamp p' = mNextDecoderStartingTimeStamp p.
Proof. unfold FileReaderThreadEntry_enter. branches. Qed.

Lemma Render_members p ioActionFlags inNumberFrames ioData :
  let p' := snd (Render p ioActionFlags inNumberFrames ioData) in
  mActiveDecoders p' = mActiveDecoders p
  /\ mFramesDecoded p' = mFramesDecoded p
  /\ mNextDecoderStartingTimeStamp p' = mNextDecoderStartingTimeStamp p.
Proof. unfold Render. branches. Qed.

Lemma DidRender_next_time_stamp p ioActionFlags :
  mNextDecoderStartingTimeStamp (snd (DidRender p ioActionFlags))
  = if ends_session p (HostDidRender ioActionFlags) then 0
    else mNextDecoderStartingTimeStamp p.
Proof.
  unfold DidRender, ends_session.
  destruct (negb (Z.land _ _ =? 0)); simpl; [|done].
  destruct (0 =? mFramesRenderedLastPass p); simpl; [done|].
  destruct (DidRender_scan _ _ _) as [slots es]. simpl.
  change (GetCurrentDecoderState (emit es (set_mActiveDecoders slots p)))
    with (GetCurrentDecoderState (set_mActiveDecoders slots p)).
  destruct (GetCurrentDecoderState (set_mActiveDecoders slots p)) as [[i s]|]; simpl; [done|].
  rewrite Stop_next_time_stamp.
  change (IsPlaying (emit es (set_mActiveDecoders slots p))) with (IsPlaying p).
  by destruct (IsPlaying p).
Qed.

Lemma FileReader_seek_members p s :
  let '(p', s') := FileReader_seek p s in
  mActiveDecoders p' = mActiveDecoders p
  /\ mNextDecoderStartingTimeStamp p' = mNextDecoderStartingTimeStamp p
  /\ mDecoderQueue p' = mDecoderQueue p
  /\ events p' = events p
  /\ State.mReadyForCollection s' = State.mReadyForCollection s
  /\ (State.mFrameToSeek s = -1 -> p' = p /\ s' = s).
Proof.
  unfold FileReader_seek.
  destruct (Z.eqb_spec (-1) (State.mFrameToSeek s)) as [Heq|Hne]; simpl; [done|].
  destruct (SeekToFrame_ _ _) as [newFrame decoder]. simpl.
  destruct (negb (-1 =? newFrame)); simpl; repeat split; congruence.
Qed.

Lemma FileReader_finish_members p s startingFrameNumber :
  let '(p', s') := FileReader_finish p s startingFrameNumber in
  mActiveDecoders p' = mActiveDecoders p
  /\ mNextDecoderStartingTimeStamp p'
     = mNextDecoderStartingTimeStamp p + startingFrameNumber
  /\ mFramesRendered p' = mFramesRendered p
  /\ mFramesDecoded p' = mFramesDecoded p
  /\ s' = State.set_mTotalFrames startingFrameNumber
            (State.set_mKeepDecoding false (State.set_mDecodingThread 0 s)).
Proof. unfold FileReader_finish, OSAtomicAdd64Barrier. branches. Qed.

Lemma FileReader_iteration_members p s bufferList :
  let '(p', s', _, outcome) := FileReader_iteration p s bufferList in
  mActiveDecoders p' = mActiveDecoders p
  /\ State.mReadyForCollection s' = State.mReadyForCollection s
  /\ match outcome with
     | EndOfStream n =>
         mNextDecoderStartingTimeStamp p' = mNextDecoderStartingTimeStamp p + n
         /\ State.mTotalFrames s' = n
     | _ => mNextDecoderStartingTimeStamp p' = mNextDecoderStartingTimeStamp p
     end
  /\ (State.mFrameToSeek s = -1 ->
      mFramesRendered p' = mFramesRendered p
      /\ State.mFramesRendered s' = State.mFramesRendered s).
Proof.
  unfold FileReader_iteration.
  destruct (_ <=? _); [|done].
  pose proof (FileReader_seek_members p s) as Hseek.
  destruct (FileReader_seek p s) as [p1 s1].
  destruct Hseek as (Ha & Hn & _ & _ & Hr & Hid).
  destruct (ReadAudio _ _ _) as [[framesDecoded bufferList'] decoder].
  set (start := GetCurrentFrame_ (State.mDecoder s1)).
  destruct (0 =? framesDecoded) eqn:Hz; simpl.
  - match goal with
    | |- context [FileReader_finish ?q ?t ?n] =>
        pose proof (FileReader_finish_members q t n) as Hfin;
        destruct (FileReader_finish q t n) as [p2 s2]
    end.
    destruct Hfin as (Ha2 & Hn2 & Hfr2 & _ & ->).
    destruct (0 =? start); simpl in *;
      (split; [congruence|]; split; [done|]; split; [split; [congruence|done]|]);
      intros Hno; destruct (Hid Hno) as [-> ->]; done.
  - destruct (Store _ _ _ _) as [result ring].
    destruct (0 =? start); simpl in *;
      (split; [congruence|]; split; [done|]; split; [congruence|]);
      intros Hno; destruct (Hid Hno) as [-> ->]; done.
Qed.


(** ** Stop *)

(** Every state the table holds is flagged. *)
Lemma StopActiveDecoders_slot_lookup (slots : list Slot) i s :
  slots !! i = Some (Some s) ->
  map StopActiveDecoders_slot slots !! i
  = Some (Some (State.set_mReadyForCollection true (State.set_mKeepDecoding false s))).
Proof. intros Hs. change (map ?f ?l) with (f <$> l). by rewrite list_lookup_fmap, Hs. Qed.

(** C3, as the code has it.  While the graph is running, Stop zeroes
    mFramesDecoded, mFramesRendered and mNextDecoderStartingTimeStamp and
    leaves every state of the table with mKeepDecoding false and
    mReadyForCollection true.  While the graph is not running, Stop returns
    at once and the player is unchanged. *)
Theorem Stop_effect (p : Player) :
  if IsPlaying p then
    mFramesDecoded (Stop p) = 0 /\ mFramesRendered (Stop p) = 0
    /\ mNextDecoderStartingTimeStamp (Stop p) = 0
    /\ length (mActiveDecoders (Stop p)) = length (mActiveDecoders p)
    /\ forall i s, mActiveDecoders p !! i = Some (Some s) ->
         exists s', mActiveDecoders (Stop p) !! i = Some (Some s')
           /\ State.mKeepDecoding s' = false /\ State.mReadyForCollection s' = true
  else Stop p = p.
Proof.
  unfold Stop. destruct (IsPlaying p) eqn:Hp; simpl; [|done].
  repeat split; [by rewrite length_map; unfold Pause; destruct (negb _)|].
  intros i s Hs. eexists. split.
  - apply StopActiveDecoders_slot_lookup. unfold Pause. destruct (negb _); exact Hs.
  - done.
Qed.


(** ** Enqueue *)

(** C8. Enqueue with a decoder active or the queue not empty: when the sample
    rate or the channel count of the decoder differs from the stream format of
    the output unit, Enqueue returns false and the queue, the active decoders,
    the counters and the events are as before (the host has only seen the
    queue mutex taken and released); when both match and the mutex can be
    taken, the decoder is appended at the back of the queue and Enqueue
    returns true.  With no decoder active and an empty queue, Enqueue is
    Play(decoder). *)
Theorem Enqueue_effect (p : Player) (decoder : D) :
  let q := queue_inspected p in
  let idle := bool_decide (GetCurrentDecoderState p = None)
              && bool_decide (mDecoderQueue p = []) in
  (forall format,
     idle = false ->
     graph_format q = Some format ->
     mSampleRate (GetFormat decoder) <> mSampleRate format
     \/ mChannelsPerFrame (GetFormat decoder) <> mChannelsPerFrame format ->
     exists p', Enqueue p decoder = (false, p')
       /\ mDecoderQueue p' = mDecoderQueue p
       /\ mActiveDecoders p' = mActiveDecoders p
       /\ mFramesDecoded p' = mFramesDecoded p
       /\ mFramesRendered p' = mFramesRendered p
       /\ mNextDecoderStartingTimeStamp p' = mNextDecoderStartingTimeStamp p
       /\ events p' = events p
       /\ (host p' = host q \/ host p' = snd (pthread_mutex_lock (host p))))
  /\ (forall format,
     idle = false ->
     fst (pthread_mutex_lock (host p)) = 0 ->
     fst (pthread_mutex_lock (host q)) = 0 ->
     graph_format q = Some format ->
     mSampleRate (GetFormat decoder) = mSampleRate format ->
     mChannelsPerFrame (GetFormat decoder) = mChannelsPerFrame format ->
     exists p', Enqueue p decoder = (true, p')
       /\ mDecoderQueue p' = mDecoderQueue p ++ [decoder]
       /\ mActiveDecoders p' = mActiveDecoders p
       /\ mFramesDecoded p' = mFramesDecoded p
       /\ mFramesRendered p' = mFramesRendered p
       /\ mNextDecoderStartingTimeStamp p' = mNextDecoderStartingTimeStamp p
       /\ events p' = events p)
  /\ (idle = true ->
      fst (pthread_mutex_lock (host p)) = 0 ->
      Enqueue p decoder = PlayDecoder q decoder).
Proof.
  intros q idle. unfold Enqueue, graph_format, queue_inspected in *.
  destruct (pthread_mutex_lock (host p)) as [lockResult h] eqn:Hlock. simpl.
  change (GetCurrentDecoderState (set_host _ (set_host h p)))
    with (GetCurrentDecoderState p).
  assert (Hq : bool_decide (length (mDecoderQueue p) = 0%nat) = bool_decide (mDecoderQueue p = [])).
  { apply bool_decide_ext. by destruct (mDecoderQueue p). }
  rewrite Hq. fold idle.
  split; [|split].
  - intros format Hidle Hfmt Hdiff. rewrite Hidle.
    destruct (Z.eqb_spec lockResult 0) as [->|Hl]; simpl; [|by eexists; repeat split; eauto].
    destruct (AUGraphNodeInfo _ _) as [auResult au].
    destruct (negb (auResult =? noErr)); [done|].
    destruct (AudioUnitGetProperty_StreamFormat _ _) as [result format'].
    destruct (negb (result =? noErr)); [done|]. injection Hfmt as ->.
    assert (Hm : (mSampleRate (GetFormat decoder) =? mSampleRate format)
                 && (mChannelsPerFrame (GetFormat decoder) =? mChannelsPerFrame format) = false).
    { apply andb_false_iff. rewrite !Z.eqb_neq. done. }
    rewrite Hm. simpl. eexists. repeat split; eauto.
  - intros format Hidle Hl1 Hl2 Hfmt Hrate Hchan. rewrite Hidle. simpl in Hl1. subst lockResult.
    simpl in *.
    destruct (AUGraphNodeInfo _ _) as [auResult au].
    destruct (negb (auResult =? noErr)); [done|].
    destruct (AudioUnitGetProperty_StreamFormat _ _) as [result format'].
    destruct (negb (result =? noErr)); [done|]. injection Hfmt as ->.
    rewrite Hrate, Hchan, !Z.eqb_refl. simpl.
    destruct (pthread_mutex_lock (snd (pthread_mutex_unlock h))) as [lockResult2 h2].
    simpl in Hl2. subst lockResult2. simpl. eexists. repeat split; eauto.
  - intros Hidle Hl1. rewrite Hidle. simpl in Hl1. subst lockResult. done.
Qed.


(** ** Render *)

(** C4. Render with mFramesDecoded - mFramesRendered = 0, for a request whose
    byte count fits the 32-bit size field of a buffer: the OutputIsSilence
    flag is set, in every output buffer the first inNumberFrames *
    sizeof(float) bytes are zero and mDataByteSize is that count, the player
    (mFramesRendered with it) is unchanged, and the status is noErr. *)
Theorem Render_nothing_decoded (p : Player) (ioActionFlags inNumberFrames : UInt32)
    (ioData : AudioBufferList) :
  mFramesDecoded p - mFramesRendered p = 0 ->
  0 <= inNumberFrames * sizeof_float < 2 ^ 32 ->
  exists out,
    Render p ioActionFlags inNumberFrames ioData
    = (noErr, Z.lor ioActionFlags kAudioUnitRenderAction_OutputIsSilence, out, p)
    /\ Z.land (Z.lor ioActionFlags kAudioUnitRenderAction_OutputIsSilence)
         kAudioUnitRenderAction_OutputIsSilence = kAudioUnitRenderAction_OutputIsSilence
    /\ length out = length ioData
    /\ forall i b, ioData !! i = Some b ->
         exists b', out !! i = Some b'
           /\ mDataByteSize b' = inNumberFrames * sizeof_float
           /\ length (mData b') = length (mData b)
           /\ (forall j : nat, (j < length (mData b))%nat ->
                 Z.of_nat j < inNumberFrames * sizeof_float -> mData b' !! j = Some x00)
           /\ (forall j : nat, inNumberFrames * sizeof_float <= Z.of_nat j ->
                 mData b' !! j = mData b !! j).
Proof.
  intros Hempty Hn. exists (map (Render_silence inNumberFrames) ioData).
  split; [|split; [|split]].
  - unfold Render. rewrite Hempty. done.
  - apply Z.bits_inj'. intros k _. rewrite Z.land_spec, Z.lor_spec.
    destruct (Z.testbit ioActionFlags k), (Z.testbit _ k); done.
  - by rewrite length_map.
  - intros i b Hb. exists (Render_silence inNumberFrames b). split.
    { by rewrite lookup_map, Hb. }
    unfold Render_silence; simpl. split; [by apply to_UInt32_small|].
    split; [apply length_memset|]. split.
    + intros j Hj Hlt. apply memset_lookup_inside; [done | lia].
    + intros j Hge. apply memset_lookup_outside. lia.
Qed.

(** C5. Render with available = mFramesDecoded - mFramesRendered > 0 (a
    UInt32, as the capacity of the ring keeps it): take = min(available,
    inNumberFrames) frames are fetched from the ring at index
    mFramesRendered.  When the fetch succeeds, mFramesRendered grows by
    exactly take, and if take < inNumberFrames every buffer has the bytes of
    the frames from take on zeroed and its 32-bit mDataByteSize grown by
    (inNumberFrames - take) * sizeof(float).  When the fetch fails, the status
    is ioErr and the player is unchanged. *)
Theorem Render_fetches_what_is_available (p : Player) (ioActionFlags inNumberFrames : UInt32)
    (ioData : AudioBufferList) :
  0 < mFramesDecoded p - mFramesRendered p < 2 ^ 32 ->
  0 <= inNumberFrames < 2 ^ 32 ->
  let take := Z.min (mFramesDecoded p - mFramesRendered p) inNumberFrames in
  let '(result, fetched) := Fetch (mRingBuffer p) ioData take (mFramesRendered p) false in
  if result =? kCARingBufferError_OK then
    exists out p',
      Render p ioActionFlags inNumberFrames ioData = (noErr, ioActionFlags, out, p')
      /\ mFramesRendered p' = mFramesRendered p + take
      /\ mFramesRenderedLastPass p' = take
      /\ mFramesDecoded p' = mFramesDecoded p
      /\ mActiveDecoders p' = mActiveDecoders p
      /\ (take = inNumberFrames -> out = fetched)
      /\ (take < inNumberFrames ->
          length out = length fetched
          /\ forall i b, fetched !! i = Some b ->
               exists b', out !! i = Some b'
                 /\ mDataByteSize b'
                    = to_UInt32 (mDataByteSize b + (inNumberFrames - take) * sizeof_float)
                 /\ length (mData b') = length (mData b)
                 /\ (forall j : nat, (j < length (mData b))%nat ->
                       take * sizeof_float <= Z.of_nat j < inNumberFrames * sizeof_float ->
                       mData b' !! j = Some x00)
                 /\ (forall j : nat, Z.of_nat j < take * sizeof_float ->
                       mData b' !! j = mData b !! j))
  else Render p ioActionFlags inNumberFrames ioData = (ioErr, ioActionFlags, fetched, p).
Proof.
  intros Havail Hn take.
  destruct (Fetch _ _ _ _ _) as [result fetched] eqn:Hf.
  unfold Render. rewrite (to_UInt32_small (mFramesDecoded p - mFramesRendered p)) by lia.
  destruct (Z.eqb_spec 0 (mFramesDecoded p - mFramesRendered p)) as [Hz|_]; [lia|].
  fold take. rewrite Hf.
  destruct (result =? kCARingBufferError_OK); simpl; [|done].
  destruct (Z.eqb_spec take inNumberFrames) as [He|Hne]; simpl.
  - eexists _, _. split; [reflexivity|].
    repeat split; try (by destruct (_ <=? _)); lia.
  - eexists _, _. split; [reflexivity|].
    split; [by destruct (_ <=? _)|]. split; [by destruct (_ <=? _)|].
    split; [by destruct (_ <=? _)|]. split; [by destruct (_ <=? _)|].
    split; [done|]. intros Hlt. split; [by rewrite length_map|].
    intros i b Hb. exists (Render_tail inNumberFrames take b). split.
    { by rewrite lookup_map, Hb. }
    assert (Hd : to_UInt32 (inNumberFrames - take) = inNumberFrames - take).
    { apply to_UInt32_small. unfold take in *. lia. }
    unfold Render_tail; simpl. rewrite Hd. split; [apply to_UInt32_add_r|].
    split; [apply length_memset|]. split.
    + intros j Hj Hin. apply memset_lookup_inside; [done|]. unfold sizeof_float in *. lia.
    + intros j Hlow. apply memset_lookup_outside. lia.
Qed.


(** ** DidRender *)

(** The loop at a live state: the visit, then the rest unless nothing remains. *)
Lemma DidRender_scan_live (framesRenderedLastPass remaining : Z) (s : DecoderStateData D)
    (rest : list Slot) :
  State.mReadyForCollection s = false ->
  DidRender_scan framesRenderedLastPass remaining (Some s :: rest)
  = let '(s', es, give) := DidRender_visit framesRenderedLastPass s in
    if 0 =? remaining - give then (Some s' :: rest, es)
    else let '(rest', es') := DidRender_scan framesRenderedLastPass (remaining - give) rest in
         (Some s' :: rest', es ++ es').
Proof. intros Hr. cbn [DidRender_scan]. by rewrite Hr. Qed.

(** C9, as the code has it.  When DidRender's loop visits a state that is
    not ready for collection, the rendering-started callback of its decoder
    is among the callbacks of that visit if and only if mFramesRendered was 0
    at that time.  Nothing else is tested: not whether the pass attributes
    any frame to the state. *)
Theorem DidRender_rendering_started (framesRenderedLastPass remaining : Z)
    (s : DecoderStateData D) (rest : list Slot) :
  State.mReadyForCollection s = false ->
  let '(s', es, give) := DidRender_visit framesRenderedLastPass s in
  (exists slots' later,
     DidRender_scan framesRenderedLastPass remaining (Some s :: rest)
     = (Some s' :: slots', es ++ later))
  /\ (In (PerformRenderingStartedCallback (State.mDecoder s)) es <-> State.mFramesRendered s = 0).
Proof.
  intros Hr. destruct (DidRender_visit framesRenderedLastPass s) as [[s' es] give] eqn:Hv.
  split.
  - rewrite (DidRender_scan_live _ _ _ _ Hr), Hv.
    destruct (0 =? remaining - give).
    + exists rest, []. by rewrite app_nil_r.
    + destruct (DidRender_scan _ _ rest) as [rest' es']. by exists rest', es'.
  - unfold DidRender_visit in Hv. simpl in Hv.
    destruct (Z.eqb_spec 0 (State.mFramesRendered s)) as [Hz|Hz];
      destruct (_ =? State.mTotalFrames s); simplify_eq; simpl;
      intuition (try discriminate; try lia; auto).
Qed.


(** ** The occupancy of the ring *)

(** What is decoded and not yet rendered stays between nothing and the
    capacity of the ring over a pass of a reader, and over every other
    step, for decoders that read no more than they are asked for. *)
Lemma FileReader_iteration_within_capacity p (s : DecoderStateData D) bufferList :
  reads_within_request ->
  ring_within_capacity p ->
  ring_within_capacity (fst (fst (fst (FileReader_iteration p s bufferList)))).
Proof.
  unfold ring_within_capacity, RING_BUFFER_SIZE_FRAMES. intros Hread Hp.
  unfold FileReader_iteration.
  rewrite to_UInt32_small by (unfold RING_BUFFER_SIZE_FRAMES; lia).
  destruct (Z.leb_spec RING_BUFFER_WRITE_CHUNK_SIZE_FRAMES
              (RING_BUFFER_SIZE_FRAMES - (mFramesDecoded p - mFramesRendered p)))
    as [Hroom|_]; [|done].
  unfold RING_BUFFER_SIZE_FRAMES, RING_BUFFER_WRITE_CHUNK_SIZE_FRAMES in Hroom.
  assert (Hseek : let '(p1, _) := FileReader_seek p s in
                  0 <= mFramesDecoded p1 - mFramesRendered p1 <= 14336).
  { unfold FileReader_seek, OSAtomicCompareAndSwap64Barrier, OSAtomicAdd64Barrier.
    destruct (negb (-1 =? State.mFrameToSeek s)); [|lia].
    destruct (SeekToFrame_ _ _) as [newFrame decoder]. rewrite !Z.eqb_refl. simpl.
    destruct (negb (-1 =? newFrame)); simpl; lia. }
  destruct (FileReader_seek p s) as [p1 s1].
  assert (Hchunk : 0 <= RING_BUFFER_WRITE_CHUNK_SIZE_FRAMES) by done.
  pose proof (Hread (State.mDecoder s1) bufferList RING_BUFFER_WRITE_CHUNK_SIZE_FRAMES Hchunk)
    as Hk.
  destruct (ReadAudio _ _ _) as [[framesDecoded bufferList'] decoder].
  simpl in Hk. unfold RING_BUFFER_WRITE_CHUNK_SIZE_FRAMES in Hk.
  destruct (Z.eqb_spec 0 framesDecoded) as [Hz|Hz]; simpl.
  - destruct (0 =? GetCurrentFrame_ _); simpl;
      match goal with
      | |- context [FileReader_finish ?q ?t ?n] =>
          pose proof (FileReader_finish_members q t n) as Hfin;
          destruct (FileReader_finish q t n) as [p2 s2]
      end;
      destruct Hfin as (_ & _ & Hr & Hd & _); simpl in *; lia.
  - destruct (Store _ _ _ _) as [result ring]. unfold OSAtomicAdd64Barrier.
    destruct (0 =? GetCurrentFrame_ _); simpl; lia.
Qed.

Lemma ring_within_capacity_step p (a : Action D) :
  reads_within_request -> well_typed a ->
  ring_within_capacity p -> ring_within_capacity (step p a).
Proof.
  unfold ring_within_capacity. intros Hread Ha Hp.
  destruct a as [| | |decoder|decoder| |frame| |slot bufferList|flags n ioData|flags|];
    simpl in *; try done.
  - by rewrite (Play_only_host p).
  - by rewrite (Pause_only_host p).
  - rewrite Stop_members. destruct (IsPlaying p); [|done].
    simpl. unfold RING_BUFFER_SIZE_FRAMES. lia.
  - destruct (PlayDecoder_members p decoder) as (_ & -> & -> & _).
    unfold RING_BUFFER_SIZE_FRAMES. lia.
  - destruct (Enqueue_members p decoder) as [[_ ->] | [_ (_ & -> & -> & _)]]; [|done].
    destruct (PlayDecoder_members (queue_inspected p) decoder) as (_ & -> & -> & _).
    unfold RING_BUFFER_SIZE_FRAMES. lia.
  - by destruct (ClearQueuedDecoders_members p) as (_ & -> & -> & _).
  - by destruct (SeekToFrame_members p frame) as (-> & -> & _).
  - by destruct (FileReaderThreadEntry_enter_members p) as (-> & -> & _).
  - unfold FileReader_step.
    destruct (mActiveDecoders p !! slot) as [[s|]|]; simpl; try done.
    destruct (State.mDecodingThread s =? 0); simpl; [done|].
    pose proof (FileReader_iteration_within_capacity p s bufferList Hread Hp) as Hit.
    destruct (FileReader_iteration p s bufferList) as [[[p' s'] b'] outcome]. done.
  - unfold Render, RING_BUFFER_SIZE_FRAMES in *.
    rewrite to_UInt32_small by lia.
    destruct (0 =? mFramesDecoded p - mFramesRendered p); simpl; [done|].
    destruct (Fetch _ _ _ _ _) as [result fetched].
    destruct (negb (result =? kCARingBufferError_OK)); simpl; [done|].
    unfold OSAtomicAdd64Barrier. destruct (_ <=? _); simpl; lia.
  - unfold DidRender.
    destruct (negb (Z.land _ _ =? 0)); simpl; [|done].
    destruct (0 =? mFramesRenderedLastPass p); simpl; [done|].
    destruct (DidRender_scan _ _ _) as [slots es]. simpl.
    destruct (GetCurrentDecoderState _); simpl; [done|].
    rewrite Stop_members. destruct (IsPlaying _); simpl; [|done].
    unfold RING_BUFFER_SIZE_FRAMES. lia.
Qed.

(** ** The per-decoder counters against the player's *)

(** The sum over the live states under the ways the table is rewritten. *)
Lemma live_framesRendered_stopped (slots : list Slot) :
  live_framesRendered (map StopActiveDecoders_slot slots) = 0.
Proof. induction slots as [|[s|] rest IH]; simpl; [done| |done]. rewrite IH. done. Qed.

Lemma live_framesRendered_collected (slots : list Slot) :
  live_framesRendered (map Collector_slot slots) = live_framesRendered slots.
Proof.
  induction slots as [|[s|] rest IH]; simpl; [done| |done].
  destruct (State.mReadyForCollection s) eqn:Hr; simpl; [lia|]. rewrite Hr. lia.
Qed.

Lemma live_framesRendered_install (s : DecoderStateData D) (slots : list Slot) :
  State.mFramesRendered s = 0 ->
  live_framesRendered (FileReader_install s slots) = live_framesRendered slots.
Proof.
  intros Hs. induction slots as [|[s0|] rest IH]; simpl; [done| |].
  - by rewrite IH.
  - rewrite Hs. destruct (State.mReadyForCollection s); lia.
Qed.

Lemma live_framesRendered_insert (slots : list Slot) (i : nat) (s s' : DecoderStateData D) :
  slots !! i = Some (Some s) ->
  State.mFramesRendered s' = State.mFramesRendered s ->
  State.mReadyForCollection s' = State.mReadyForCollection s ->
  live_framesRendered (<[i := Some s']> slots) = live_framesRendered slots.
Proof.
  revert i. induction slots as [|x rest IH]; intros i Hi Hf Hr; [done|].
  destruct i as [|i]; simpl in *.
  - injection Hi as ->. by rewrite Hf, Hr.
  - rewrite (IH i Hi Hf Hr). done.
Qed.

Lemma frames_accounted_quiet_step p (a : Action D) :
  frames_accounted p -> quiet p a = true -> frames_accounted (step p a).
Proof.
  unfold frames_accounted. intros Hp Hq.
  destruct a as [| | |decoder|decoder| |frame| |slot bufferList|flags n ioData|flags|];
    simpl in *; try done.
  - by rewrite (Play_only_host p).
  - by rewrite (Pause_only_host p).
  - rewrite Stop_members. destruct (IsPlaying p); [|done]. simpl.
    apply live_framesRendered_stopped.
  - destruct (PlayDecoder_members p decoder) as (-> & _ & -> & _).
    apply live_framesRendered_stopped.
  - destruct (Enqueue_members p decoder) as [[_ ->] | [_ (-> & _ & -> & _)]]; [|done].
    destruct (PlayDecoder_members (queue_inspected p) decoder) as (-> & _ & -> & _).
    apply live_framesRendered_stopped.
  - by destruct (ClearQueuedDecoders_members p) as (-> & _ & -> & _).
  - destruct (SeekToFrame_members p frame) as (_ & -> & _). unfold SeekToFrame.
    pose proof (GetCurrentDecoderState_earliest_live p) as He.
    destruct (GetCurrentDecoderState p) as [[i s]|]; [|done].
    destruct He as [[Hi _] _]. branches.
    erewrite live_framesRendered_insert; eauto.
  - destruct (FileReaderThreadEntry_enter_members p) as (_ & -> & _).
    unfold FileReaderThreadEntry_enter. branches.
    by rewrite live_framesRendered_install.
  - unfold FileReader_step, seek_pending in *.
    destruct (mActiveDecoders p !! slot) as [[s|]|] eqn:Hs; simpl; try done.
    destruct (State.mDecodingThread s =? 0); simpl; [done|].
    pose proof (FileReader_iteration_members p s bufferList) as Hit.
    destruct (FileReader_iteration p s bufferList) as [[[p' s'] b'] outcome].
    destruct Hit as (Ha & Hr & _ & Hno). simpl.
    destruct (Z.eqb_spec (-1) (State.mFrameToSeek s)) as [Heq|]; [|done].
    destruct (Hno (eq_sym Heq)) as [-> Hf]. rewrite Ha.
    erewrite live_framesRendered_insert; eauto.
  - by rewrite live_framesRendered_collected.
Qed.

(** A pass whose frames all go to the first live state. *)
Lemma Render_fetched_members p ioActionFlags inNumberFrames ioData :
  0 < mFramesDecoded p - mFramesRendered p < 2 ^ 32 ->
  let take := Z.min (mFramesDecoded p - mFramesRendered p) inNumberFrames in
  fst (Fetch (mRingBuffer p) ioData take (mFramesRendered p) false) = kCARingBufferError_OK ->
  let p' := snd (Render p ioActionFlags inNumberFrames ioData) in
  mActiveDecoders p' = mActiveDecoders p
  /\ mFramesRendered p' = mFramesRendered p + take
  /\ mFramesRenderedLastPass p' = take
  /\ IsPlaying p' = IsPlaying p.
Proof.
  intros Havail take Hfetch. unfold Render.
  rewrite (to_UInt32_small (mFramesDecoded p - mFramesRendered p)) by lia.
  destruct (Z.eqb_spec 0 (mFramesDecoded p - mFramesRendered p)) as [Hz|_]; [lia|].
  fold take. destruct (Fetch _ _ _ _ _) as [result fetched]. simpl in Hfetch. subst result.
  simpl. by destruct (_ <=? _).
Qed.

Lemma DidRender_scan_single (take : Z) (slots : list Slot) (s : DecoderStateData D) :
  first_live slots = Some s ->
  take < State.mTotalFrames s - State.mFramesRendered s ->
  exists slots' es i s',
    DidRender_scan take take slots = (slots', es)
    /\ live_framesRendered slots' = live_framesRendered slots + take
    /\ live slots' i s'.
Proof.
  intros Hfirst Hneed.
  induction slots as [|[s0|] rest IH]; simpl in *; [done| |].
  - destruct (State.mReadyForCollection s0) eqn:Hr.
    + destruct (IH Hfirst) as (slots' & es & i & s' & -> & Hsum & Hlive).
      exists (Some s0 :: slots'), es, (S i), s'. simpl. rewrite Hr. done.
    + injection Hfirst as ->. unfold DidRender_visit, OSAtomicAdd64Barrier. simpl.
      rewrite Z.min_r by lia.
      destruct (Z.eqb_spec (State.mFramesRendered s + take) (State.mTotalFrames s)); [lia|].
      rewrite Z.sub_diag. simpl.
      eexists _, _, 0%nat, _. split; [done|]. simpl. rewrite Hr. split; [lia|].
      split; done.
  - destruct (IH Hfirst) as (slots' & es & i & s' & -> & Hsum & Hlive).
    exists (None :: slots'), es, (S i), s'. done.
Qed.

Lemma frames_accounted_single_pass p ioActionFlags inNumberFrames ioData postFlags
    (s : DecoderStateData D) :
  frames_accounted p ->
  0 < mFramesDecoded p - mFramesRendered p < 2 ^ 32 ->
  let take := Z.min (mFramesDecoded p - mFramesRendered p) inNumberFrames in
  fst (Fetch (mRingBuffer p) ioData take (mFramesRendered p) false) = kCARingBufferError_OK ->
  first_live (mActiveDecoders p) = Some s ->
  take < State.mTotalFrames s - State.mFramesRendered s ->
  let p' := snd (DidRender (snd (Render p ioActionFlags inNumberFrames ioData)) postFlags) in
  Z.land kAudioUnitRenderAction_PostRender postFlags <> 0 ->
  frames_accounted p' /\ mFramesRendered p' = mFramesRendered p + take.
Proof.
  intros Hp Havail take Hfetch Hfirst Hneed p' Hpost. unfold frames_accounted in *.
  destruct (Render_fetched_members p ioActionFlags inNumberFrames ioData Havail Hfetch)
    as (Ha & Hf & Hl & _).
  fold take in Hf, Hl.
  set (p1 := snd (Render p ioActionFlags inNumberFrames ioData)) in *.
  subst p'. unfold DidRender.
  destruct (Z.eqb_spec (Z.land kAudioUnitRenderAction_PostRender postFlags) 0); [done|].
  simpl. rewrite Hl.
  destruct (Z.eqb_spec 0 take) as [Hz|Hnz]; simpl.
  - rewrite Ha, Hf. lia.
  - rewrite Ha.
    destruct (DidRender_scan_single take (mActiveDecoders p) s Hfirst Hneed)
      as (slots' & es & i & s' & -> & Hsum & Hlive).
    pose proof (GetCurrentDecoderState_earliest_live (emit es (set_mActiveDecoders slots' p1)))
      as He.
    destruct (GetCurrentDecoderState _) as [[j c]|]; simpl in *.
    + rewrite Hsum, Hf. lia.
    + by apply He in Hlive.
Qed.

(** C2, as the code has it.  The frames rendered by the states that are not
    ready for collection add up to mFramesRendered after Play(decoder); the
    equality is kept by every controller call, collector sweep and pass of a
    reader without a seek to perform, and by a Render that fetches its
    frames followed by its DidRender when the first live state in slot order
    has more frames left than the pass rendered. *)
Theorem frames_accounted_preserved :
  (forall p decoder, frames_accounted (snd (PlayDecoder p decoder)))
  /\ (forall p (a : Action D),
       frames_accounted p -> quiet p a = true -> frames_accounted (step p a))
  /\ (forall p ioActionFlags inNumberFrames ioData postFlags (s : DecoderStateData D),
       frames_accounted p ->
       0 < mFramesDecoded p - mFramesRendered p < 2 ^ 32 ->
       let take := Z.min (mFramesDecoded p - mFramesRendered p) inNumberFrames in
       fst (Fetch (mRingBuffer p) ioData take (mFramesRendered p) false)
       = kCARingBufferError_OK ->
       first_live (mActiveDecoders p) = Some s ->
       take < State.mTotalFrames s - State.mFramesRendered s ->
       let p' := snd (DidRender (snd (Render p ioActionFlags inNumberFrames ioData))
                        postFlags) in
       Z.land kAudioUnitRenderAction_PostRender postFlags <> 0 ->
       frames_accounted p' /\ mFramesRendered p' = mFramesRendered p + take).
Proof.
  split; [|split].
  - intros p decoder. unfold frames_accounted.
    destruct (PlayDecoder_members p decoder) as (-> & _ & -> & _).
    apply live_framesRendered_stopped.
  - apply frames_accounted_quiet_step.
  - apply frames_accounted_single_pass.
Qed.

(** ** The file reader *)

(** C7, as the code has it.  A reader that finds a seek requested resets
    mFrameToSeek to -1 whatever the decoder answers.  If the decoder answers
    anything but -1, say new, while it was at cur: the state's mFramesRendered
    becomes new, new - cur is added to mFramesDecoded, mFramesRendered is set
    to mFramesDecoded, and the graph is reset.  If it answers -1, the player
    and the state's mFramesRendered are unchanged. *)
Theorem FileReader_seek_effect (p : Player) (s : DecoderStateData D) :
  State.mFrameToSeek s <> -1 ->
  let cur := GetCurrentFrame_ (State.mDecoder s) in
  let '(new, decoder) := SeekToFrame_ (State.mDecoder s) (State.mFrameToSeek s) in
  let '(p', s') := FileReader_seek p s in
  State.mFrameToSeek s' = -1
  /\ State.mDecoder s' = decoder
  /\ if bool_decide (new = -1)
     then p' = p /\ State.mFramesRendered s' = State.mFramesRendered s
     else State.mFramesRendered s' = new
          /\ mFramesDecoded p' = mFramesDecoded p + (new - cur)
          /\ mFramesRendered p' = mFramesDecoded p'
          /\ host p' = snd (ResetAUGraph_host (host p)).
Proof.
  intros Hpending cur. unfold FileReader_seek.
  destruct (Z.eqb_spec (-1) (State.mFrameToSeek s)) as [Heq|_]; [congruence|].
  destruct (SeekToFrame_ _ _) as [new decoder]. unfold OSAtomicCompareAndSwap64Barrier. rewrite !Z.eqb_refl. simpl.
  case_bool_decide as Hnew.
  - subst new. done.
  - destruct (Z.eqb_spec (-1) new) as [Heq|_]; [congruence|]. simpl.
    done.
Qed.

(** The callbacks and the thread started at the end of a stream. *)
Lemma FileReader_finish_events p s startingFrameNumber :
  let lock := pthread_mutex_lock (host p) in
  let creation := pthread_create (snd (pthread_mutex_unlock (snd lock))) in
  let '(p', s') := FileReader_finish p s startingFrameNumber in
  exists es,
    events p' = events p ++ PerformDecodingFinishedCallback (State.mDecoder s) :: es
    /\ (In fileReaderEntry_started es
        <-> mDecoderQueue p <> [] /\ fst lock = 0 /\ fst creation = 0)
    /\ State.mDecoder s' = State.mDecoder s.
Proof.
  unfold FileReader_finish. simpl.
  destruct (pthread_mutex_lock (host p)) as [lockResult h]. simpl.
  destruct (Z.eqb_spec lockResult 0) as [->|Hl]; simpl.
  - destruct (mDecoderQueue p) as [|d q] eqn:Hq; simpl.
    + exists []. split; [done|]. split; [|done]. split; [intros []|]. intros [? _]. done.
    + destruct (pthread_create _) as [creationResult h']. simpl.
      destruct (Z.eqb_spec creationResult 0) as [->|Hc]; simpl.
      * exists [fileReaderEntry_started]. rewrite <- app_assoc. split; [done|].
        split; [|done]. split; [done|]. intros _. by left.
      * exists []. split; [done|]. split; [|done]. split; [intros []|]. intros (_ & _ & ?). done.
  - exists []. split; [done|]. split; [|done]. split; [intros []|]. intros (_ & ? & _). done.
Qed.

(** *** Play sessions *)

(** A step either resets the time stamp with the session or adds to it the
    total frames of the decoder that reached its end. *)
Lemma step_next_time_stamp p (a : Action D) :
  mNextDecoderStartingTimeStamp (step p a)
  = if ends_session p a then 0
    else mNextDecoderStartingTimeStamp p + sum_frames (reached_end_of_stream p a).
Proof.
  destruct a as [| | |decoder|decoder| |frame| |slot bufferList|flags n ioData|flags|];
    unfold sum_frames; simpl.
  - rewrite (Play_only_host p). simpl. lia.
  - rewrite (Pause_only_host p). simpl. lia.
  - rewrite Stop_next_time_stamp. destruct (IsPlaying p); lia.
  - apply PlayDecoder_members.
  - destruct (Enqueue_members p decoder) as [[He Hp] | [He Hm]]; fold (ends_session p (CallEnqueue decoder)); rewrite He.
    + rewrite Hp. apply PlayDecoder_members.
    + destruct Hm as (_ & _ & _ & ->). lia.
  - destruct (ClearQueuedDecoders_members p) as (_ & _ & _ & ->). lia.
  - destruct (SeekToFrame_members p frame) as (_ & _ & ->). lia.
  - destruct (FileReaderThreadEntry_enter_members p) as (_ & _ & ->). lia.
  - unfold FileReader_step.
    destruct (mActiveDecoders p !! slot) as [[s|]|] eqn:Hs; simpl; try lia.
    destruct (State.mDecodingThread s =? 0); simpl; [lia|].
    pose proof (FileReader_iteration_members p s bufferList) as Hit.
    destruct (FileReader_iteration p s bufferList) as [[[p' s'] b'] outcome].
    destruct Hit as (Ha & _ & Hn & _). simpl.
    destruct outcome as [| |n]; simpl; try lia.
    rewrite list_lookup_insert_eq.
    + destruct Hn as [-> ->]. simpl. lia.
    + rewrite Ha. by apply lookup_lt_Some in Hs.
  - destruct (Render_members p flags n ioData) as (_ & _ & ->). lia.
  - rewrite DidRender_next_time_stamp. fold (ends_session p (HostDidRender flags)).
    destruct (ends_session p (HostDidRender flags)); lia.
  - lia.
Qed.

Lemma session_run_next_time_stamp (actions : list (Action D)) p reached :
  mNextDecoderStartingTimeStamp p = sum_frames reached ->
  let '(p', reached') := session_run p reached actions in
  mNextDecoderStartingTimeStamp p' = sum_frames reached'.
Proof.
  revert p reached. induction actions as [|a rest IH]; intros p reached Hp; simpl; [done|].
  apply IH. rewrite step_next_time_stamp.
  destruct (ends_session p a); [done|].
  unfold sum_frames in *. rewrite foldr_app.
  generalize (reached_end_of_stream p a). intros l. rewrite Hp. clear.
  induction reached as [|x r IHr]; simpl; [induction l; simpl; lia|lia].
Qed.


(** C6. A reader with room to write whose read returns 0 frames at position
    startFrame: the pass ends the stream, the decoding-finished callback is
    performed, the state's mTotalFrames is startFrame and its mKeepDecoding
    false, startFrame is added to mNextDecoderStartingTimeStamp, and a
    further reader is started exactly when the queue is not empty (and the
    mutex and the thread creation succeed).  Hence along every run
    mNextDecoderStartingTimeStamp is the sum of the total frames of the
    decoders that reached the end of their stream in the session in
    progress. *)
Theorem FileReader_end_of_stream :
  (forall p (s : DecoderStateData D) (bufferList : AudioBufferList),
     RING_BUFFER_WRITE_CHUNK_SIZE_FRAMES
     <= to_UInt32 (RING_BUFFER_SIZE_FRAMES - (mFramesDecoded p - mFramesRendered p)) ->
     let '(p1, s1) := FileReader_seek p s in
     let startFrame := GetCurrentFrame_ (State.mDecoder s1) in
     let lock := pthread_mutex_lock (host p1) in
     let creation := pthread_create (snd (pthread_mutex_unlock (snd lock))) in
     fst (fst (ReadAudio (State.mDecoder s1) bufferList
                 RING_BUFFER_WRITE_CHUNK_SIZE_FRAMES)) = 0 ->
     let '(p', s', _, outcome) := FileReader_iteration p s bufferList in
     outcome = EndOfStream startFrame
     /\ (exists es,
           events p' = events p ++ es
           /\ In (PerformDecodingFinishedCallback (State.mDecoder s')) es
           /\ (In fileReaderEntry_started es
               <-> mDecoderQueue p <> [] /\ fst lock = 0 /\ fst creation = 0))
     /\ State.mTotalFrames s' = startFrame
     /\ State.mKeepDecoding s' = false
     /\ mNextDecoderStartingTimeStamp p' = mNextDecoderStartingTimeStamp p + startFrame)
  /\ (forall p (actions : list (Action D)),
       mNextDecoderStartingTimeStamp p = 0 ->
       let '(p', reached) := session_run p [] actions in
       mNextDecoderStartingTimeStamp p' = sum_frames reached).
Proof.
  split.
  - intros p s bufferList Hroom. unfold FileReader_iteration.
    apply Z.leb_le in Hroom. rewrite Hroom.
    pose proof (FileReader_seek_members p s) as Hseek.
    destruct (FileReader_seek p s) as [p1 s1].
    destruct Hseek as (_ & Hn & Hq & He & _ & _).
    cbv beta iota zeta. set (startFrame := GetCurrentFrame_ (State.mDecoder s1)).
    destruct (ReadAudio _ _ _) as [[framesDecoded bufferList'] decoder]. simpl.
    intros ->. rewrite Z.eqb_refl. simpl.
    match goal with
    | |- context [FileReader_finish ?q ?t ?n] =>
        pose proof (FileReader_finish_members q t n) as Hfin;
        pose proof (FileReader_finish_events q t n) as Hev;
        destruct (FileReader_finish q t n) as [p2 s2]
    end.
    destruct Hfin as (_ & Hn2 & _ & _ & Hs2).
    cbv zeta in Hev. destruct Hev as (es & Hes & Hspawn & Hd).
    split; [done|]. split; [|subst s2; split; [done|]; split; [done|]].
    + destruct (0 =? startFrame); simpl in *.
      * exists (PerformDecodingStartedCallback decoder
                :: PerformDecodingFinishedCallback decoder :: es).
        rewrite Hes, He, <- app_assoc. split; [done|]. rewrite Hd. split; [right; by left|].
        rewrite <- Hq, <- Hspawn. split; [intros [?|[?|?]]; done|]. intros ?. right. by right.
      * exists (PerformDecodingFinishedCallback decoder :: es).
        rewrite Hes, He. split; [done|]. rewrite Hd. split; [by left|].
        rewrite <- Hq, <- Hspawn. split; [intros [?|?]; done|]. intros ?. by right.
    + destruct (0 =? startFrame); simpl in *; lia.
  - intros p actions Hp. by apply session_run_next_time_stamp.
Qed.

(** ** Which state is current *)

(** GetCurrentDecoderState looks at the time stamps and at the readiness of
    the states only. *)
Lemma same_key_refl (x : Slot) : same_key x x.
Proof. by destruct x. Qed.

Lemma same_keys_refl (slots : list Slot) : Forall2 same_key slots slots.
Proof. apply Forall_Forall2_diag, Forall_forall. intros x _. apply same_key_refl. Qed.

Lemma same_keys_insert (slots : list Slot) i s s' :
  slots !! i = Some (Some s) ->
  State.mTimeStamp s = State.mTimeStamp s' ->
  State.mReadyForCollection s = State.mReadyForCollection s' ->
  Forall2 same_key slots (<[i := Some s']> slots).
Proof.
  intros Hi Ht Hr. rewrite <- (list_insert_id slots i (Some s)) at 1 by done.
  apply Forall2_insert; [apply same_keys_refl|done].
Qed.

Lemma GetCurrentDecoderState_scan_same_keys (slots slots' : list Slot) i
    (r r' : option (nat * DecoderStateData D)) :
  Forall2 same_key slots slots' ->
  fst <$> r = fst <$> r' ->
  (fun c => State.mTimeStamp (snd c)) <$> r = (fun c => State.mTimeStamp (snd c)) <$> r' ->
  fst <$> GetCurrentDecoderState_scan i r slots
  = fst <$> GetCurrentDecoderState_scan i r' slots'.
Proof.
  intros Hall. revert i r r'.
  induction Hall as [|x y slots slots' Hxy _ IH]; intros i r r' Hi Ht; simpl; [done|].
  destruct x as [s|], y as [s'|]; simpl in Hxy; try done; [|by apply IH].
  destruct Hxy as [Hts Hrd]. rewrite <- Hrd.
  destruct (State.mReadyForCollection s); [by apply IH|].
  destruct r as [[j c]|], r' as [[j' c']|]; simpl in *; simplify_eq.
  - rewrite <- Hts. replace (State.mTimeStamp c') with (State.mTimeStamp c) by congruence.
    destruct (State.mTimeStamp s <? State.mTimeStamp c); apply IH; simpl; congruence.
  - apply IH; simpl; congruence.
Qed.

Lemma GetCurrentDecoderState_same_keys p p' :
  Forall2 same_key (mActiveDecoders p) (mActiveDecoders p') ->
  match GetCurrentDecoderState p with
  | Some (i, _) =>
      exists s', GetCurrentDecoderState p' = Some (i, s')
                 /\ mActiveDecoders p' !! i = Some (Some s')
  | None => GetCurrentDecoderState p' = None
  end.
Proof.
  intros Hall.
  pose proof (GetCurrentDecoderState_scan_same_keys _ _ 0%nat None None Hall eq_refl eq_refl)
    as Hscan.
  pose proof (GetCurrentDecoderState_earliest_live p') as He.
  unfold GetCurrentDecoderState in *.
  destruct (GetCurrentDecoderState_scan 0 None (mActiveDecoders p)) as [[i s]|];
    destruct (GetCurrentDecoderState_scan 0 None (mActiveDecoders p')) as [[i' s']|];
    simpl in *; simplify_eq; [|done].
  exists s'. split; [done|]. by destruct He as [[Hl _] _].
Qed.

(** No state is current once all are stopped. *)
Lemma GetCurrentDecoderState_scan_stopped (slots : list Slot) i r :
  GetCurrentDecoderState_scan i r (map StopActiveDecoders_slot slots) = r.
Proof. revert i. induction slots as [|[s|] rest IH]; intros i; simpl; done. Qed.

Lemma GetCurrentDecoderState_scan_collected (slots : list Slot) i r :
  GetCurrentDecoderState_scan i r (map Collector_slot slots)
  = GetCurrentDecoderState_scan i r slots.
Proof.
  revert i r. induction slots as [|[s|] rest IH]; intros i r; simpl; [done| |done].
  destruct (State.mReadyForCollection s) eqn:Hr; simpl; [done|]. rewrite Hr.
  destruct r as [[j c]|]; [|done]. by destruct (_ <? _).
Qed.

(** ** Seeking *)

(** SeekToFrame with a current decoder that supports seeking. *)
Lemma SeekToFrame_current (p : Player) (frame : SInt64) i s :
  GetCurrentDecoderState p = Some (i, s) ->
  SupportsSeeking (State.mDecoder s) = true ->
  SeekToFrame p frame
  = (true, emit [semaphore_signal_mDecoderSemaphore]
             (set_mActiveDecoders
                (<[i := Some (State.set_mFrameToSeek frame s)]> (mActiveDecoders p)) p))
  /\ mActiveDecoders p !! i = Some (Some s)
  /\ State.mReadyForCollection s = false.
Proof.
  intros Hcur Hseek.
  pose proof (GetCurrentDecoderState_earliest_live p) as He.
  unfold SeekToFrame. rewrite Hcur in *. destruct He as [[Hi Hr] _].
  rewrite Hseek. simpl.
  unfold OSAtomicCompareAndSwap64Barrier. rewrite Z.eqb_refl. done.
Qed.

(** The state in the current slot may change; while it keeps its time stamp
    and is not ready for collection it stays the current one. *)
Lemma GetCurrentDecoderState_insert (p p' : Player) i s s' :
  GetCurrentDecoderState p = Some (i, s) ->
  mActiveDecoders p' = <[i := Some s']> (mActiveDecoders p) ->
  State.mTimeStamp s' = State.mTimeStamp s ->
  State.mReadyForCollection s' = State.mReadyForCollection s ->
  GetCurrentDecoderState p' = Some (i, s').
Proof.
  intros Hcur Ha Hts Hrd.
  pose proof (GetCurrentDecoderState_earliest_live p) as He.
  rewrite Hcur in He. destruct He as [[Hi Hr] _].
  assert (Hkeys : Forall2 same_key (mActiveDecoders p) (mActiveDecoders p')).
  { rewrite Ha. by eapply same_keys_insert. }
  pose proof (GetCurrentDecoderState_same_keys p p' Hkeys) as Hsame.
  rewrite Hcur in Hsame. destruct Hsame as (s'' & Hcur' & Hs').
  rewrite Ha, list_lookup_insert_eq in Hs' by (by eapply lookup_lt_Some).
  by simplify_eq.
Qed.

(** X1. SeekToFrame with a frame that satisfies its assertion 0 <= frame.
    With a current decoder that supports seeking the call succeeds: the
    request is left in mFrameToSeek of the current state, which stays the
    current one, GetCurrentFrame asked right after the call returns the
    requested frame, and the decoder semaphore is signalled.  With no
    current decoder, or one that does not support seeking, the call returns
    false and the player is as before. *)
Theorem SeekToFrame_then_GetCurrentFrame (p : Player) (frame : SInt64) :
  0 <= frame ->
  match GetCurrentDecoderState p with
  | Some (i, s) =>
      if SupportsSeeking (State.mDecoder s) then
        exists p',
          SeekToFrame p frame = (true, p')
          /\ GetCurrentDecoderState p' = Some (i, State.set_mFrameToSeek frame s)
          /\ GetCurrentFrame p' = frame
          /\ mActiveDecoders p' = <[i := Some (State.set_mFrameToSeek frame s)]> (mActiveDecoders p)
          /\ events p' = events p ++ [semaphore_signal_mDecoderSemaphore]
      else SeekToFrame p frame = (false, p)
  | None => SeekToFrame p frame = (false, p)
  end.
Proof.
  intros Hframe.
  destruct (GetCurrentDecoderState p) as [[i s]|] eqn:Hcur;
    [|by unfold SeekToFrame; rewrite Hcur].
  destruct (SupportsSeeking (State.mDecoder s)) eqn:Hseek;
    [|by unfold SeekToFrame; rewrite Hcur, Hseek].
  destruct (SeekToFrame_current p frame i s Hcur Hseek) as (Hcall & Hi & Hr).
  eexists. split; [exact Hcall|].
  assert (Hcur' : GetCurrentDecoderState
                    (emit [semaphore_signal_mDecoderSemaphore]
                       (set_mActiveDecoders
                          (<[i := Some (State.set_mFrameToSeek frame s)]> (mActiveDecoders p)) p))
                  = Some (i, State.set_mFrameToSeek frame s)).
  { by eapply GetCurrentDecoderState_insert. }
  split; [done|]. split; [|done].
  unfold GetCurrentFrame. rewrite Hcur'. simpl.
  destruct (Z.eqb_spec (-1) frame); [lia|done].
Qed.

(** ** The collector *)

(** X2. A sweep of the collector empties exactly the slots whose state is
    ready for collection: afterwards no slot holds such a state, the states
    that are not ready are where they were, GetCurrentDecoderState answers
    as before, and a second sweep changes nothing. *)
Theorem CollectorThreadEntry_sweep_effect (p : Player) :
  length (mActiveDecoders (CollectorThreadEntry_sweep p)) = length (mActiveDecoders p)
  /\ (forall i s, mActiveDecoders (CollectorThreadEntry_sweep p) !! i = Some (Some s) <->
                  live (mActiveDecoders p) i s)
  /\ (forall i s, mActiveDecoders p !! i = Some (Some s) ->
                  State.mReadyForCollection s = true ->
                  mActiveDecoders (CollectorThreadEntry_sweep p) !! i = Some None)
  /\ GetCurrentDecoderState (CollectorThreadEntry_sweep p) = GetCurrentDecoderState p
  /\ GetCurrentFrame (CollectorThreadEntry_sweep p) = GetCurrentFrame p
  /\ CollectorThreadEntry_sweep (CollectorThreadEntry_sweep p) = CollectorThreadEntry_sweep p.
Proof.
  assert (Hcur : GetCurrentDecoderState (CollectorThreadEntry_sweep p)
                 = GetCurrentDecoderState p).
  { apply GetCurrentDecoderState_scan_collected. }
  split; [apply length_map|]. split; [|split; [|split; [done|split]]].
  - intros i s. unfold live. simpl. rewrite lookup_map.
    destruct (mActiveDecoders p !! i) as [[s0|]|]; simpl; [| |].
    + destruct (State.mReadyForCollection s0) eqn:Hr; simpl.
      * split; [done|]. intros [? ?]. congruence.
      * split; [intros ?; simplify_eq; done|]. intros [? _]. done.
    + split; [done|]. intros [? _]. done.
    + split; [done|]. intros [? _]. done.
  - intros i s Hi Hr. simpl. rewrite lookup_map, Hi. simpl. by rewrite Hr.
  - unfold GetCurrentFrame. by rewrite Hcur.
  - unfold CollectorThreadEntry_sweep, set_mActiveDecoders. simpl. f_equal.
    rewrite map_map. apply map_ext. intros [s|]; simpl; [|done].
    destruct (State.mReadyForCollection s) eqn:Hr; simpl; [done|]. by rewrite Hr.
Qed.

(** ** Nothing is current after a stop *)

(** X3. After a Stop while the graph runs, and after every Play(decoder)
    whatever it returns, no decoder is current: GetCurrentDecoderState finds
    none, GetCurrentFrame and GetTotalFrames return -1, SeekToFrame fails
    without effect, and the next sweep of the collector leaves every slot
    empty. *)
Theorem no_current_decoder_after_a_stop (p : Player) (decoder : D) :
  forall p', (IsPlaying p = true /\ p' = Stop p) \/ p' = snd (PlayDecoder p decoder) ->
    GetCurrentDecoderState p' = None
    /\ GetCurrentFrame p' = -1
    /\ AudioPlayer.GetTotalFrames p' = -1
    /\ (forall frame, SeekToFrame p' frame = (false, p'))
    /\ (forall i, (i < length (mActiveDecoders p))%nat ->
          mActiveDecoders (CollectorThreadEntry_sweep p') !! i = Some None).
Proof.
  intros p' Hp'.
  assert (Ha : mActiveDecoders p' = map StopActiveDecoders_slot (mActiveDecoders p)).
  { destruct Hp' as [[Hplaying ->] | ->].
    - rewrite Stop_members, Hplaying. done.
    - apply PlayDecoder_members. }
  assert (Hcur : GetCurrentDecoderState p' = None).
  { unfold GetCurrentDecoderState. rewrite Ha. apply GetCurrentDecoderState_scan_stopped. }
  unfold GetCurrentFrame, AudioPlayer.GetTotalFrames, SeekToFrame. rewrite Hcur.
  repeat split. intros i Hi. simpl. rewrite Ha, !lookup_map.
  destruct (lookup_lt_is_Some_2 _ _ Hi) as [[s|] ->]; done.
Qed.

(** ** A pass of a reader, in full *)

Lemma FileReader_seek_state p (s : DecoderStateData D) :
  let '(p', s') := FileReader_seek p s in
  State.mTimeStamp s' = State.mTimeStamp s
  /\ State.mReadyForCollection s' = State.mReadyForCollection s
  /\ State.mKeepDecoding s' = State.mKeepDecoding s
  /\ State.mDecodingThread s' = State.mDecodingThread s
  /\ State.mTotalFrames s' = State.mTotalFrames s
  /\ State.mFrameToSeek s' = -1
  /\ mRingBuffer p' = mRingBuffer p.
Proof.
  unfold FileReader_seek.
  destruct (Z.eqb_spec (-1) (State.mFrameToSeek s)) as [Heq|Hne]; simpl; [done|].
  destruct (SeekToFrame_ _ _) as [newFrame decoder].
  unfold OSAtomicCompareAndSwap64Barrier. rewrite !Z.eqb_refl. simpl.
  destruct (negb (-1 =? newFrame)); done.
Qed.

Lemma FileReader_finish_state p (s : DecoderStateData D) n :
  let '(p', s') := FileReader_finish p s n in
  mRingBuffer p' = mRingBuffer p
  /\ mDecoderQueue p' = mDecoderQueue p
  /\ exists es, events p' = events p ++ PerformDecodingFinishedCallback (State.mDecoder s) :: es
                /\ (es = [] \/ es = [fileReaderEntry_started]).
Proof.
  unfold FileReader_finish. simpl.
  destruct (pthread_mutex_lock (host p)) as [lockResult h]. simpl.
  destruct (lockResult =? 0); simpl; [|by repeat split; exists []; split; [|left]].
  destruct (0 <? length (mDecoderQueue p))%nat; simpl;
    [|by repeat split; exists []; split; [|left]].
  destruct (pthread_create _) as [creationResult h']. simpl.
  destruct (creationResult =? 0); simpl.
  - repeat split. exists [fileReaderEntry_started]. rewrite <- app_assoc. split; [done|by right].
  - repeat split. exists []. split; [done|by left].
Qed.

(** What a pass with room for a chunk does, read along FileReader_seek and
    the decoder's ReadAudio. *)
Lemma FileReader_iteration_state p (s : DecoderStateData D) bufferList :
  room_for_a_chunk p = true ->
  let '(p1, s1) := FileReader_seek p s in
  let startingFrameNumber := GetCurrentFrame_ (State.mDecoder s1) in
  let '(framesDecoded, bufferList', decoder) :=
    ReadAudio (State.mDecoder s1) bufferList RING_BUFFER_WRITE_CHUNK_SIZE_FRAMES in
  let '(p', s', _, outcome) := FileReader_iteration p s bufferList in
  State.mTimeStamp s' = State.mTimeStamp s
  /\ State.mReadyForCollection s' = State.mReadyForCollection s
  /\ State.mFrameToSeek s' = -1
  /\ State.mFramesRendered s' = State.mFramesRendered s1
  /\ State.mDecoder s' = decoder
  /\ mFramesRendered p' = mFramesRendered p1
  /\ mFramesDecoded p' = mFramesDecoded p1 + framesDecoded
  /\ mActiveDecoders p' = mActiveDecoders p
  /\ (if 0 =? framesDecoded
      then outcome = EndOfStream startingFrameNumber
           /\ s' = State.set_mTotalFrames startingFrameNumber
                     (State.set_mKeepDecoding false
                        (State.set_mDecodingThread 0 (State.set_mDecoder decoder s1)))
           /\ mRingBuffer p' = mRingBuffer p
      else outcome = DecodedChunk framesDecoded
           /\ s' = State.set_mDecoder decoder s1
           /\ State.mKeepDecoding s' = State.mKeepDecoding s
           /\ State.mDecodingThread s' = State.mDecodingThread s
           /\ mRingBuffer p'
              = snd (Store (mRingBuffer p) bufferList' framesDecoded
                       (startingFrameNumber + State.mTimeStamp s))
           /\ mDecoderQueue p' = mDecoderQueue p1
           /\ mNextDecoderStartingTimeStamp p' = mNextDecoderStartingTimeStamp p)
  /\ exists es,
       events p' = events p1 ++ es
       /\ (In (PerformDecodingStartedCallback decoder) es <-> startingFrameNumber = 0).
Proof.
  unfold room_for_a_chunk, FileReader_iteration. intros ->.
  pose proof (FileReader_seek_state p s) as Hseek.
  pose proof (FileReader_seek_members p s) as Hmem.
  destruct (FileReader_seek p s) as [p1 s1].
  destruct Hseek as (Hts & Hrd & Hkeep & Hthread & Htotal & Hnone & Hring).
  destruct Hmem as (Ha & Hn & _).
  cbv beta iota zeta. set (start := GetCurrentFrame_ (State.mDecoder s1)).
  destruct (ReadAudio _ _ _) as [[framesDecoded bufferList'] decoder].
  destruct (Z.eqb_spec 0 framesDecoded) as [<-|Hnz]; simpl.
  - match goal with
    | |- context [FileReader_finish ?q ?t ?n] =>
        pose proof (FileReader_finish_members q t n) as Hfin;
        pose proof (FileReader_finish_state q t n) as Hev;
        destruct (FileReader_finish q t n) as [p2 s2]
    end.
    destruct Hfin as (Ha2 & _ & Hfr2 & Hfd2 & ->).
    destruct Hev as (Hring2 & _ & es & Hes & Hshape). simpl in *.
    destruct (Z.eqb_spec 0 start) as [Hz|Hz]; simpl in *.
    + repeat split; try congruence; try lia.
      exists (PerformDecodingStartedCallback decoder
              :: PerformDecodingFinishedCallback decoder :: es).
      rewrite Hes, <- app_assoc. split; [done|]. split; [done|]. intros _. by left.
    + repeat split; try congruence; try lia.
      exists (PerformDecodingFinishedCallback decoder :: es).
      split; [done|]. split; [|done].
      intros [?|Hin]; [done|]. destruct Hshape as [-> | ->]; [done|].
      destruct Hin as [?|[]]. done.
  - destruct (Store _ _ _ _) as [result ring] eqn:Hstore. unfold OSAtomicAdd64Barrier.
    destruct (Z.eqb_spec 0 start) as [Hz|Hz]; simpl in *.
    + repeat split; try congruence; try lia.
      * by rewrite <- Hring, Hstore.
      * exists [PerformDecodingStartedCallback decoder]. split; [done|].
        split; [done|]. intros _. by left.
    + repeat split; try congruence; try lia.
      * by rewrite <- Hring, Hstore.
      * exists []. rewrite app_nil_r. split; [done|]. split; [intros []|done].
Qed.

Lemma FileReader_step_live p slot (s : DecoderStateData D) bufferList :
  mActiveDecoders p !! slot = Some (Some s) ->
  State.mDecodingThread s <> 0 ->
  FileReader_step p slot bufferList
  = let '(p', s', _, outcome) := FileReader_iteration p s bufferList in
    (set_mActiveDecoders (<[slot := Some s']> (mActiveDecoders p')) p', Some outcome).
Proof.
  intros Hs Ht. unfold FileReader_step. rewrite Hs.
  destruct (Z.eqb_spec (State.mDecodingThread s) 0); done.
Qed.

(** The seek of a reader that finds one requested. *)
Lemma FileReader_seek_pending p (s : DecoderStateData D) :
  State.mFrameToSeek s <> -1 ->
  let '(newFrame, decoder) := SeekToFrame_ (State.mDecoder s) (State.mFrameToSeek s) in
  let '(p', s') := FileReader_seek p s in
  State.mDecoder s' = decoder
  /\ if bool_decide (newFrame = -1)
     then p' = p /\ State.mFramesRendered s' = State.mFramesRendered s
     else State.mFramesRendered s' = newFrame
          /\ mFramesDecoded p'
             = mFramesDecoded p + (newFrame - GetCurrentFrame_ (State.mDecoder s))
          /\ mFramesRendered p' = mFramesDecoded p'.
Proof.
  intros Hpending. unfold FileReader_seek.
  destruct (Z.eqb_spec (-1) (State.mFrameToSeek s)) as [Heq|_]; [congruence|].
  destruct (SeekToFrame_ _ _) as [new decoder].
  unfold OSAtomicCompareAndSwap64Barrier. rewrite !Z.eqb_refl. simpl.
  case_bool_decide as Hnew.
  - subst new. done.
  - destruct (Z.eqb_spec (-1) new) as [Heq|_]; [congruence|]. done.
Qed.

(** X4. A seek request is served by the next pass of the current decoder's
    reader that finds room for a chunk.  After SeekToFrame(frame) and that
    pass no seek is pending any more; if the decoder's seek answered a frame
    other than -1, GetCurrentFrame returns the frame it landed on and the
    ring holds exactly the frames read in this pass (what was buffered
    before is dropped); if it answered -1, GetCurrentFrame is the state's
    mFramesRendered as it was before the request. *)
Theorem seek_request_served (p : Player) (frame : SInt64) i (s : DecoderStateData D)
    bufferList :
  0 <= frame ->
  GetCurrentDecoderState p = Some (i, s) ->
  SupportsSeeking (State.mDecoder s) = true ->
  State.mDecodingThread s <> 0 ->
  room_for_a_chunk p = true ->
  forall landed decoder p',
    SeekToFrame_ (State.mDecoder s) frame = (landed, decoder) ->
    p' = fst (FileReader_step (snd (SeekToFrame p frame)) i bufferList) ->
    GetCurrentFrame p' = (if bool_decide (landed = -1) then State.mFramesRendered s else landed)
    /\ seek_pending (mActiveDecoders p') i = false
    /\ (landed <> -1 ->
        mFramesDecoded p' - mFramesRendered p'
        = fst (fst (ReadAudio decoder bufferList RING_BUFFER_WRITE_CHUNK_SIZE_FRAMES))).
Proof.
  intros Hframe Hcur Hseek Hthread Hroom landed decoder p' Hland ->.
  destruct (SeekToFrame_current p frame i s Hcur Hseek) as (-> & Hi & Hr). simpl.
  set (s1 := State.set_mFrameToSeek frame s).
  set (p1 := emit _ _).
  assert (Hi1 : mActiveDecoders p1 !! i = Some (Some s1)).
  { simpl. apply list_lookup_insert_eq. by eapply lookup_lt_Some. }
  rewrite (FileReader_step_live p1 i s1 bufferList Hi1 Hthread).
  pose proof (FileReader_iteration_state p1 s1 bufferList Hroom) as Hit.
  assert (Hpending : State.mFrameToSeek s1 <> -1) by (simpl; lia).
  pose proof (FileReader_seek_pending p1 s1 Hpending) as Hsk.
  simpl in Hsk. rewrite Hland in Hsk.
  destruct (FileReader_seek p1 s1) as [p2 s2].
  destruct Hsk as [Hdec Hsk]. rewrite Hdec in Hit. cbv zeta in Hit.
  destruct (ReadAudio decoder _ _) as [[framesDecoded bufferList'] decoder'].
  destruct (FileReader_iteration p1 s1 bufferList) as [[[p3 s3] b3] outcome].
  destruct Hit as (Hts & Hrd & Hnone & Hfr & _ & Hpr & Hpd & Ha & _). simpl.
  assert (Hcur3 : GetCurrentDecoderState
                    (set_mActiveDecoders (<[i := Some s3]> (mActiveDecoders p3)) p3)
                  = Some (i, s3)).
  { eapply GetCurrentDecoderState_insert; [exact Hcur| |done|done].
    simpl. rewrite Ha. simpl. by rewrite list_insert_insert_eq. }
  split; [|split].
  - unfold GetCurrentFrame. rewrite Hcur3, Hnone. simpl. rewrite Hfr.
    destruct (bool_decide (landed = -1)); [by destruct Hsk|by destruct Hsk as [-> _]].
  - unfold seek_pending. simpl. rewrite list_lookup_insert_eq.
    + by rewrite Hnone.
    + rewrite Ha. simpl. rewrite length_insert. by eapply lookup_lt_Some.
  - intros Hl. simpl. rewrite Hpr, Hpd.
    rewrite bool_decide_eq_false_2 in Hsk by done. destruct Hsk as (_ & _ & ->). lia.
Qed.

(** X5. With less than a chunk (2048 frames) of room in the ring, a pass of
    a reader changes nothing: nothing is read or stored, and a requested
    seek stays requested until Render has made room. *)
Theorem FileReader_step_without_room (p : Player) (slot : nat) bufferList :
  ring_within_capacity p ->
  RING_BUFFER_SIZE_FRAMES - RING_BUFFER_WRITE_CHUNK_SIZE_FRAMES
  < mFramesDecoded p - mFramesRendered p ->
  fst (FileReader_step p slot bufferList) = p
  /\ (forall outcome, snd (FileReader_step p slot bufferList) = Some outcome ->
        outcome = NoSpace)
  /\ seek_pending (mActiveDecoders (fst (FileReader_step p slot bufferList))) slot
     = seek_pending (mActiveDecoders p) slot.
Proof.
  unfold ring_within_capacity, RING_BUFFER_SIZE_FRAMES, RING_BUFFER_WRITE_CHUNK_SIZE_FRAMES.
  intros Hcap Hfull.
  assert (Hstep : fst (FileReader_step p slot bufferList) = p
                  /\ forall outcome, snd (FileReader_step p slot bufferList) = Some outcome ->
                       outcome = NoSpace).
  { unfold FileReader_step.
    destruct (mActiveDecoders p !! slot) as [[s|]|] eqn:Hs; simpl; try done.
    destruct (State.mDecodingThread s =? 0); simpl; [done|].
    unfold FileReader_iteration.
    rewrite to_UInt32_small by (unfold RING_BUFFER_SIZE_FRAMES; lia).
    destruct (Z.leb_spec RING_BUFFER_WRITE_CHUNK_SIZE_FRAMES
                (RING_BUFFER_SIZE_FRAMES - (mFramesDecoded p - mFramesRendered p)))
      as [Hroom|_].
    { unfold RING_BUFFER_SIZE_FRAMES, RING_BUFFER_WRITE_CHUNK_SIZE_FRAMES in Hroom. lia. }
    simpl. rewrite list_insert_id by done. split; [by destruct p|]. intros ?. congruence. }
  destruct Hstep as [Hp Ho]. split; [done|]. split; [done|]. by rewrite Hp.
Qed.

(** X6. A pass of a reader with room for a chunk and no seek requested, in
    which the decoder returns n <> 0 frames: the frames are stored in the
    ring at the decoder's frame number shifted by the time stamp of the
    state, mFramesDecoded grows by n whether or not the ring accepted them
    (the status of Store is only logged), and mFramesRendered, the time
    stamp for the next decoder, the queue and the other slots stay as they
    were. *)
Theorem FileReader_step_decodes_a_chunk (p : Player) (slot : nat) (s : DecoderStateData D)
    bufferList :
  mActiveDecoders p !! slot = Some (Some s) ->
  State.mDecodingThread s <> 0 ->
  State.mFrameToSeek s = -1 ->
  room_for_a_chunk p = true ->
  forall n bufferList' decoder,
    ReadAudio (State.mDecoder s) bufferList RING_BUFFER_WRITE_CHUNK_SIZE_FRAMES
    = (n, bufferList', decoder) ->
    n <> 0 ->
    exists p',
      FileReader_step p slot bufferList = (p', Some (DecodedChunk n))
      /\ mFramesDecoded p' = mFramesDecoded p + n
      /\ mFramesRendered p' = mFramesRendered p
      /\ mRingBuffer p'
         = snd (Store (mRingBuffer p) bufferList' n
                  (GetCurrentFrame_ (State.mDecoder s) + State.mTimeStamp s))
      /\ mActiveDecoders p' = <[slot := Some (State.set_mDecoder decoder s)]> (mActiveDecoders p)
      /\ mNextDecoderStartingTimeStamp p' = mNextDecoderStartingTimeStamp p
      /\ mDecoderQueue p' = mDecoderQueue p.
Proof.
  intros Hs Hthread Hnone Hroom n bufferList' decoder Hread Hn.
  rewrite (FileReader_step_live p slot s bufferList Hs Hthread).
  pose proof (FileReader_iteration_state p s bufferList Hroom) as Hit.
  pose proof (FileReader_seek_members p s) as Hmem.
  destruct (FileReader_seek p s) as [p1 s1].
  destruct Hmem as (_ & _ & _ & _ & _ & Hid). destruct (Hid Hnone) as [-> ->].
  cbv zeta in Hit. rewrite Hread in Hit.
  destruct (FileReader_iteration p s bufferList) as [[[p3 s3] b3] outcome].
  destruct (Z.eqb_spec 0 n) as [|_]; [congruence|].
  destruct Hit as (_ & _ & _ & _ & _ & Hpr & Hpd & Ha & (-> & -> & _ & _ & Hring & Hq & Hnext) & _).
  eexists. split; [reflexivity|]. simpl. rewrite Ha. done.
Qed.

(** X7. In a pass with room for a chunk, the decoding-started callback of
    the decoder is performed exactly when the decoder stands at frame 0
    when it is read, after the seek of the pass if there is one: at the
    first pass of a fresh decoder, and again after every seek that lands on
    frame 0. *)
Theorem FileReader_decoding_started (p : Player) (s : DecoderStateData D) bufferList :
  room_for_a_chunk p = true ->
  forall p' s' out outcome,
    FileReader_iteration p s bufferList = (p', s', out, outcome) ->
    exists es,
      events p' = events p ++ es
      /\ (In (PerformDecodingStartedCallback (State.mDecoder s')) es
          <-> GetCurrentFrame_ (State.mDecoder (snd (FileReader_seek p s))) = 0).
Proof.
  intros Hroom p' s' out outcome Hcall.
  pose proof (FileReader_iteration_state p s bufferList Hroom) as Hit.
  pose proof (FileReader_seek_members p s) as Hmem.
  destruct (FileReader_seek p s) as [p1 s1]. destruct Hmem as (_ & _ & _ & Hev & _).
  cbv zeta in Hit.
  destruct (ReadAudio _ _ _) as [[framesDecoded bufferList'] decoder].
  rewrite Hcall in Hit.
  destruct Hit as (_ & _ & _ & _ & -> & _ & _ & _ & _ & es & Hes & Hstarted).
  exists es. rewrite Hes, Hev. done.
Qed.

(** X8. When the reader of the current decoder, with room for a chunk and no
    seek requested, reads no frame, the decoder's frame number at that
    point becomes the total: right after that pass GetTotalFrames returns
    it, whatever the decoder had declared, the state is still the current
    one and GetCurrentFrame is unchanged. *)
Theorem GetTotalFrames_after_end_of_stream (p : Player) i (s : DecoderStateData D)
    bufferList :
  GetCurrentDecoderState p = Some (i, s) ->
  State.mDecodingThread s <> 0 ->
  State.mFrameToSeek s = -1 ->
  room_for_a_chunk p = true ->
  fst (fst (ReadAudio (State.mDecoder s) bufferList RING_BUFFER_WRITE_CHUNK_SIZE_FRAMES)) = 0 ->
  forall p', p' = fst (FileReader_step p i bufferList) ->
    AudioPlayer.GetTotalFrames p' = GetCurrentFrame_ (State.mDecoder s)
    /\ GetCurrentFrame p' = GetCurrentFrame p
    /\ exists s', GetCurrentDecoderState p' = Some (i, s')
                  /\ State.mKeepDecoding s' = false /\ State.mDecodingThread s' = 0.
Proof.
  intros Hcur Hthread Hnone Hroom Hread p' ->.
  pose proof (GetCurrentDecoderState_earliest_live p) as He.
  rewrite Hcur in He. destruct He as [[Hi Hr] _].
  rewrite (FileReader_step_live p i s bufferList Hi Hthread).
  pose proof (FileReader_iteration_state p s bufferList Hroom) as Hit.
  pose proof (FileReader_seek_members p s) as Hmem.
  destruct (FileReader_seek p s) as [p1 s1].
  destruct Hmem as (_ & _ & _ & _ & _ & Hid). destruct (Hid Hnone) as [-> ->].
  cbv zeta in Hit.
  destruct (ReadAudio _ _ _) as [[framesDecoded bufferList'] decoder]. simpl in Hread.
  subst framesDecoded.
  destruct (FileReader_iteration p s bufferList) as [[[p3 s3] b3] outcome].
  rewrite Z.eqb_refl in Hit.
  destruct Hit as (Hts & Hrd & Hno & Hfr & _ & _ & _ & Ha & (_ & Htot & _) & _). simpl.
  assert (Hcur3 : GetCurrentDecoderState
                    (set_mActiveDecoders (<[i := Some s3]> (mActiveDecoders p3)) p3)
                  = Some (i, s3)).
  { eapply GetCurrentDecoderState_insert; [exact Hcur| |done|done]. simpl. by rewrite Ha. }
  unfold AudioPlayer.GetTotalFrames, GetCurrentFrame. rewrite Hcur3, Hcur, Hno, Hnone. simpl.
  split; [by rewrite Htot|]. split; [done|]. exists s3. by rewrite Htot.
Qed.

(** ** A reader enters *)

(** The state goes to the first empty slot; with no empty slot the table is
    left as it is. *)
Lemma FileReader_install_first_empty (st : DecoderStateData D) (slots : list Slot) i :
  slots !! i = Some None ->
  (forall j, (j < i)%nat -> slots !! j <> Some None) ->
  FileReader_install st slots = <[i := Some st]> slots.
Proof.
  revert i. induction slots as [|x rest IH]; intros i Hi Hfirst; [done|].
  destruct i as [|i]; simpl in *.
  - by simplify_eq.
  - destruct x as [s|].
    + f_equal. apply IH; [done|]. intros j Hj. apply (Hfirst (S j)). lia.
    + by destruct (Hfirst 0%nat ltac:(lia)).
Qed.

Lemma FileReader_install_full (st : DecoderStateData D) (slots : list Slot) :
  (forall i, slots !! i <> Some None) -> FileReader_install st slots = slots.
Proof.
  induction slots as [|x rest IH]; intros Hfull; [done|].
  destruct x as [s|]; simpl.
  - f_equal. apply IH. intros i. apply (Hfull (S i)).
  - by destruct (Hfull 0%nat).
Qed.

(** There is a first empty slot when there is an empty one. *)
Lemma first_empty_slot (slots : list Slot) i :
  slots !! i = Some None ->
  exists k, (k <= i)%nat /\ slots !! k = Some None
            /\ forall j, (j < k)%nat -> slots !! j <> Some None.
Proof.
  revert i. induction slots as [|x rest IH]; intros i Hi; [done|].
  destruct x as [s|].
  - destruct i as [|i]; [done|]. simpl in Hi.
    destruct (IH i Hi) as (k & Hk & Hnone & Hfirst).
    exists (S k). split; [lia|]. split; [done|].
    intros [|j] Hj; [done|]. simpl. apply Hfirst. lia.
  - exists 0%nat. split; [lia|]. split; [done|]. intros j Hj. lia.
Qed.

Lemma FileReaderThreadEntry_enter_head p decoder queue :
  fst (pthread_mutex_lock (host p)) = 0 ->
  mDecoderQueue p = decoder :: queue ->
  FileReaderThreadEntry_enter p
  = set_mActiveDecoders
      (FileReader_install (entering_state p decoder) (mActiveDecoders p))
      (set_mDecoderQueue queue (queue_inspected p)).
Proof.
  unfold FileReaderThreadEntry_enter, entering_state, queue_inspected, DecoderStateData_new.
  destruct (pthread_mutex_lock (host p)) as [lockResult h]. simpl. intros -> ->. done.
Qed.

(** X9. A reader that enters with the queue mutex taken removes the decoder
    at the head of the queue and puts a state for it in the first empty
    slot: a state with the time stamp mNextDecoderStartingTimeStamp, the
    total frames the decoder declares, no frames rendered and no seek
    requested.  No other slot changes.  When no slot is empty the table is
    left as it is: the decoder has left the queue and its state is in no
    slot. *)
Theorem FileReaderThreadEntry_enter_effect (p : Player) (decoder : D) (queue : list D) :
  fst (pthread_mutex_lock (host p)) = 0 ->
  mDecoderQueue p = decoder :: queue ->
  mDecoderQueue (FileReaderThreadEntry_enter p) = queue
  /\ (forall i, mActiveDecoders p !! i = Some None ->
        (forall j, (j < i)%nat -> mActiveDecoders p !! j <> Some None) ->
        mActiveDecoders (FileReaderThreadEntry_enter p)
        = <[i := Some (entering_state p decoder)]> (mActiveDecoders p))
  /\ ((forall i, mActiveDecoders p !! i <> Some None) ->
      mActiveDecoders (FileReaderThreadEntry_enter p) = mActiveDecoders p)
  /\ State.mDecoder (entering_state p decoder) = decoder
  /\ State.mTimeStamp (entering_state p decoder) = mNextDecoderStartingTimeStamp p
  /\ State.mTotalFrames (entering_state p decoder) = GetTotalFrames decoder
  /\ State.mFramesRendered (entering_state p decoder) = 0
  /\ State.mFrameToSeek (entering_state p decoder) = -1
  /\ State.mReadyForCollection (entering_state p decoder) = false.
Proof.
  intros Hlock Hqueue. rewrite (FileReaderThreadEntry_enter_head p decoder queue Hlock Hqueue).
  simpl. split; [done|]. split; [|split; [|done]].
  - intros i Hi Hfirst. by apply FileReader_install_first_empty.
  - apply FileReader_install_full.
Qed.

(** ** Play(decoder) *)

Lemma PlayDecoder_queue p decoder :
  (fst (PlayDecoder p decoder) = true ->
   mDecoderQueue (snd (PlayDecoder p decoder)) = decoder :: mDecoderQueue p
   /\ exists es, events (snd (PlayDecoder p decoder)) = events p ++ es
                 /\ In fileReaderEntry_started es)
  /\ (mDecoderQueue (snd (PlayDecoder p decoder)) = decoder :: mDecoderQueue p
      \/ mDecoderQueue (snd (PlayDecoder p decoder)) = mDecoderQueue p).
Proof.
  unfold PlayDecoder.
  assert (Hq : mDecoderQueue (if IsPlaying p then Pause p else p) = mDecoderQueue p
               /\ events (if IsPlaying p then Pause p else p) = events p).
  { destruct (IsPlaying p); [|done]. rewrite Pause_only_host. done. }
  destruct Hq as [Hq He].
  set (p0 := if IsPlaying p then Pause p else p) in *. simpl.
  destruct (pthread_mutex_lock _) as [lockResult h]. simpl.
  destruct (lockResult =? 0); simpl; [|split; [done|by right]].
  destruct (SetAUGraphFormat _ _) as [result h']. simpl.
  destruct (result =? noErr); simpl; [|split; [done|left; congruence]].
  destruct (pthread_create _) as [creationResult h'']. simpl.
  destruct (creationResult =? 0); simpl; [|split; [done|left; congruence]].
  split; [|left; destruct (IsPlaying p); [rewrite Play_only_host|]; simpl; congruence].
  intros _.
  split; [destruct (IsPlaying p); [rewrite Play_only_host|]; simpl; congruence|].
  exists [semaphore_signal_mDecoderSemaphore; semaphore_signal_mCollectorSemaphore;
          fileReaderEntry_started].
  split; [|right; right; by left].
  destruct (IsPlaying p); [rewrite Play_only_host|]; simpl; rewrite He, <- app_assoc; done.
Qed.

(** X10. Play(decoder) and its failures.  When the queue mutex cannot be
    taken the call returns false and the queue is as before.  Once the
    mutex is taken the decoder is in front of the decoders already queued,
    and it stays there whatever follows: the call returns true, and has
    started a reader, exactly when SetAUGraphFormat and pthread_create both
    succeed; when one of them fails it returns false with the decoder
    still queued and no reader started.  In every case the active decoders
    have been stopped and the counters are zero. *)
Theorem PlayDecoder_effect (p : Player) (decoder : D) :
  (fst (pthread_mutex_lock (host (stopped_for_Play p))) <> 0 ->
   PlayDecoder p decoder
   = (false, set_host (snd (pthread_mutex_lock (host (stopped_for_Play p))))
               (stopped_for_Play p))
   /\ mDecoderQueue (snd (PlayDecoder p decoder)) = mDecoderQueue p)
  /\ (fst (pthread_mutex_lock (host (stopped_for_Play p))) = 0 ->
      mDecoderQueue (snd (PlayDecoder p decoder)) = decoder :: mDecoderQueue p
      /\ (fst (PlayDecoder p decoder) = true <->
          fst (SetAUGraphFormat (host (queue_inspected (stopped_for_Play p)))
                 (GetFormat decoder)) = noErr
          /\ fst (pthread_create
                    (snd (SetAUGraphFormat (host (queue_inspected (stopped_for_Play p)))
                            (GetFormat decoder)))) = 0)
      /\ exists es,
           events (snd (PlayDecoder p decoder)) = events (stopped_for_Play p) ++ es
           /\ (In fileReaderEntry_started es <-> fst (PlayDecoder p decoder) = true))
  /\ mActiveDecoders (snd (PlayDecoder p decoder))
     = map StopActiveDecoders_slot (mActiveDecoders p)
  /\ mFramesDecoded (snd (PlayDecoder p decoder)) = 0
  /\ mFramesRendered (snd (PlayDecoder p decoder)) = 0
  /\ mNextDecoderStartingTimeStamp (snd (PlayDecoder p decoder)) = 0.
Proof.
  split; [|split; [|apply PlayDecoder_members]].
  - unfold PlayDecoder, stopped_for_Play.
    assert (Hq : mDecoderQueue (if IsPlaying p then Pause p else p) = mDecoderQueue p).
    { destruct (IsPlaying p); [|done]. by rewrite Pause_only_host. }
    destruct (pthread_mutex_lock _) as [lockResult h]. simpl. intros Hlock.
    destruct (Z.eqb_spec lockResult 0); done.
  - unfold PlayDecoder, stopped_for_Play, queue_inspected.
    assert (Hq : mDecoderQueue (if IsPlaying p then Pause p else p) = mDecoderQueue p).
    { destruct (IsPlaying p); [|done]. by rewrite Pause_only_host. }
    destruct (pthread_mutex_lock _) as [lockResult h]. simpl. intros ->. simpl.
    destruct (SetAUGraphFormat _ _) as [result h']. simpl.
    destruct (Z.eqb_spec result noErr) as [->|Hres]; simpl.
    + destruct (pthread_create _) as [creationResult h'']. simpl.
      destruct (Z.eqb_spec creationResult 0) as [->|Hcre]; simpl.
      * split; [destruct (IsPlaying p); [rewrite Play_only_host|]; simpl; congruence|].
        split; [done|]. exists [fileReaderEntry_started].
        split; [destruct (IsPlaying p); [rewrite Play_only_host|]; done|].
        split; [done|]. intros _. by left.
      * split; [simpl; congruence|]. split; [split; [done|by intros [_ ?]]|].
        exists []. rewrite app_nil_r. done.
    + split; [simpl; congruence|]. split; [split; [done|by intros [? _]]|].
      exists []. rewrite app_nil_r. done.
Qed.

(** X11. Play(decoder) followed by the entry of its reader.  When
    Play(decoder) returns true it has put the decoder in front of the
    decoders already queued and started a reader; once that reader has
    entered, with a slot free for it, the decoder is the current one: its
    state has time stamp 0, GetCurrentFrame is 0, GetTotalFrames is what
    the decoder declares, and the queue is as it was before the call. *)
Theorem PlayDecoder_then_reader_enters (p : Player) (decoder : D) (i : nat) :
  fst (PlayDecoder p decoder) = true ->
  fst (pthread_mutex_lock (host (snd (PlayDecoder p decoder)))) = 0 ->
  mActiveDecoders p !! i = Some None ->
  forall p1 p2,
    p1 = snd (PlayDecoder p decoder) ->
    p2 = FileReaderThreadEntry_enter p1 ->
    mDecoderQueue p1 = decoder :: mDecoderQueue p
    /\ mDecoderQueue p2 = mDecoderQueue p
    /\ (exists k, GetCurrentDecoderState p2 = Some (k, entering_state p1 decoder)
                  /\ (k <= i)%nat)
    /\ State.mTimeStamp (entering_state p1 decoder) = 0
    /\ GetCurrentFrame p2 = 0
    /\ AudioPlayer.GetTotalFrames p2 = GetTotalFrames decoder.
Proof.
  intros Hok Hlock Hi p1 p2 -> ->.
  destruct (PlayDecoder_queue p decoder) as [Hq _]. destruct (Hq Hok) as [Hqueue _].
  destruct (PlayDecoder_members p decoder) as (Ha & _ & _ & Hnext).
  set (p1 := snd (PlayDecoder p decoder)) in *.
  rewrite (FileReaderThreadEntry_enter_head p1 decoder _ Hlock Hqueue).
  set (st := entering_state p1 decoder).
  set (p2 := set_mActiveDecoders _ _).
  assert (Hi1 : mActiveDecoders p1 !! i = Some None).
  { rewrite Ha, lookup_map, Hi. done. }
  destruct (first_empty_slot _ _ Hi1) as (k & Hk & Hnone & Hfirst).
  assert (Ha2 : mActiveDecoders p2 = <[k := Some st]> (mActiveDecoders p1)).
  { simpl. by apply FileReader_install_first_empty. }
  assert (Hlive : live (mActiveDecoders p2) k st).
  { split; [|done]. rewrite Ha2. apply list_lookup_insert_eq. by eapply lookup_lt_Some. }
  assert (Hcur : GetCurrentDecoderState p2 = Some (k, st)).
  { pose proof (GetCurrentDecoderState_earliest_live p2) as He.
    destruct (GetCurrentDecoderState p2) as [[j c]|]; [|by apply He in Hlive].
    destruct He as [[Hj Hr] _].
    destruct (decide (j = k)) as [->|Hne].
    - destruct Hlive as [Hl _]. congruence.
    - rewrite Ha2, list_lookup_insert_ne, Ha, lookup_map in Hj by done.
      destruct (mActiveDecoders p !! j) as [[s0|]|]; simpl in Hj; simplify_eq;
        simpl in Hr; done. }
  split; [done|]. split; [done|]. split; [by exists k|].
  split; [done|].
  unfold GetCurrentFrame, AudioPlayer.GetTotalFrames. rewrite Hcur. done.
Qed.

Lemma session_run_run (p : Player) (reached : list SInt64) (actions : list (Action D)) :
  fst (session_run p reached actions) = run p actions.
Proof.
  revert p reached. induction actions as [|a rest IH]; intros p reached; simpl; [done|].
  apply IH.
Qed.

(** X12. The time line is gapless.  Along every run from a player whose
    time stamp for the next decoder is 0, a reader that enters next (the
    queue mutex taken, a decoder queued, a slot empty) gives its decoder a
    state whose time stamp is the sum of the total frames of the decoders
    that reached the end of their stream in the session in progress. *)
Theorem entering_decoder_starts_where_the_others_ended (p : Player)
    (actions : list (Action D)) (decoder : D) (queue : list D) (i : nat) :
  mNextDecoderStartingTimeStamp p = 0 ->
  fst (pthread_mutex_lock (host (run p actions))) = 0 ->
  mDecoderQueue (run p actions) = decoder :: queue ->
  mActiveDecoders (run p actions) !! i = Some None ->
  exists k s,
    mActiveDecoders (run p actions) !! k = Some None
    /\ mActiveDecoders (FileReaderThreadEntry_enter (run p actions)) !! k = Some (Some s)
    /\ State.mDecoder s = decoder
    /\ State.mTimeStamp s = sum_frames (snd (session_run p [] actions)).
Proof.
  intros Hp Hlock Hqueue Hi.
  pose proof (session_run_next_time_stamp actions p [] Hp) as Hs.
  pose proof (session_run_run p [] actions) as Hrun.
  destruct (session_run p [] actions) as [p' reached]. simpl in *. subst p'.
  destruct (first_empty_slot _ _ Hi) as (k & _ & Hnone & Hfirst).
  exists k, (entering_state (run p actions) decoder).
  rewrite (FileReaderThreadEntry_enter_head _ decoder queue Hlock Hqueue). simpl.
  rewrite (FileReader_install_first_empty _ _ k Hnone Hfirst).
  split; [done|]. split; [|done].
  apply list_lookup_insert_eq. by eapply lookup_lt_Some.
Qed.

(** ** The life of a slot *)

Lemma slot_evolves_refl (a : Action D) (slots : list Slot) :
  Forall2 (slot_evolves a) slots slots.
Proof. apply Forall_Forall2_diag, Forall_forall. intros [s|] _; done. Qed.

Lemma slot_evolves_stopped (a : Action D) (before after : list Slot) :
  Forall2 (slot_evolves a) before after ->
  Forall2 (slot_evolves a) before (map StopActiveDecoders_slot after).
Proof.
  induction 1 as [|x y before after Hxy _ IH]; simpl; constructor; [|done].
  destruct x as [s|], y as [s'|]; simpl in *; try done.
  destruct Hxy as (-> & _ & _). done.
Qed.

Lemma slot_evolves_insert (a : Action D) (slots : list Slot) i s s' :
  slots !! i = Some (Some s) ->
  slot_evolves a (Some s) (Some s') ->
  Forall2 (slot_evolves a) slots (<[i := Some s']> slots).
Proof.
  intros Hi Hs. rewrite <- (list_insert_id slots i (Some s)) at 1 by done.
  apply Forall2_insert; [apply slot_evolves_refl|done].
Qed.

Lemma slot_evolves_install (st : DecoderStateData D) (slots : list Slot) :
  Forall2 (slot_evolves ReaderEnters) slots (FileReader_install st slots).
Proof.
  induction slots as [|[s|] rest IH]; simpl; constructor; try done.
  apply slot_evolves_refl.
Qed.

Lemma slot_evolves_collected (slots : list Slot) :
  Forall2 (slot_evolves CollectorSweeps) slots (map Collector_slot slots).
Proof.
  induction slots as [|[s|] rest IH]; simpl; constructor; try done.
  destruct (State.mReadyForCollection s) eqn:Hr; simpl; done.
Qed.

Lemma DidRender_visit_state last (s : DecoderStateData D) :
  let '(s', es, give) := DidRender_visit last s in
  give = Z.min (State.mTotalFrames s - State.mFramesRendered s) last
  /\ State.mFramesRendered s' = State.mFramesRendered s + give
  /\ State.mReadyForCollection s'
     = (State.mReadyForCollection s
        || (State.mFramesRendered s + give =? State.mTotalFrames s))
  /\ s' = State.set_mReadyForCollection (State.mReadyForCollection s')
            (State.set_mFramesRendered (State.mFramesRendered s') s)
  /\ (In (PerformRenderingFinishedCallback (State.mDecoder s)) es
      <-> State.mFramesRendered s + give = State.mTotalFrames s).
Proof.
  unfold DidRender_visit, OSAtomicAdd64Barrier. simpl.
  destruct (State.mFramesRendered s
            + Z.min (State.mTotalFrames s - State.mFramesRendered s) last
            =? State.mTotalFrames s) eqn:E; simpl; rewrite E.
  - apply Z.eqb_eq in E. rewrite orb_true_r.
    repeat split; try done. intros _. apply in_or_app. right. by left.
  - apply Z.eqb_neq in E. rewrite orb_false_r. repeat split; try done;
      try (by destruct s);
      destruct (0 =? State.mFramesRendered s); simpl; intuition discriminate.
Qed.

Lemma slot_evolves_DidRender_scan (a : Action D) last remaining (slots : list Slot) :
  Forall2 (slot_evolves a) slots (fst (DidRender_scan last remaining slots)).
Proof.
  revert remaining. induction slots as [|[s|] rest IH]; intros remaining; simpl; [done| |].
  - destruct (State.mReadyForCollection s) eqn:Hr.
    + specialize (IH remaining). destruct (DidRender_scan last remaining rest) as [rest' es].
      constructor; done.
    + pose proof (DidRender_visit_state last s) as Hv.
      destruct (DidRender_visit last s) as [[s' es] give].
      destruct Hv as (_ & _ & _ & Hs & _).
      assert (Hev : slot_evolves a (Some s) (Some s')).
      { simpl. rewrite Hs. simpl. rewrite Hr. done. }
      destruct (0 =? remaining - give); simpl.
      * constructor; [done|apply slot_evolves_refl].
      * specialize (IH (remaining - give)).
        destruct (DidRender_scan last (remaining - give) rest) as [rest' es'].
        constructor; done.
  - specialize (IH remaining). destruct (DidRender_scan last remaining rest) as [rest' es].
    constructor; done.
Qed.

Lemma FileReader_iteration_evolves p (s : DecoderStateData D) bufferList :
  let '(p', s', _, _) := FileReader_iteration p s bufferList in
  mActiveDecoders p' = mActiveDecoders p
  /\ State.mTimeStamp s' = State.mTimeStamp s
  /\ State.mReadyForCollection s' = State.mReadyForCollection s
  /\ (State.mKeepDecoding s = false -> State.mKeepDecoding s' = false).
Proof.
  destruct (room_for_a_chunk p) eqn:Hroom.
  - pose proof (FileReader_iteration_state p s bufferList Hroom) as Hit.
    pose proof (FileReader_seek_state p s) as Hseek.
    destruct (FileReader_seek p s) as [p1 s1]. cbv zeta in Hit.
    destruct Hseek as (_ & _ & Hkeep & _).
    destruct (ReadAudio _ _ _) as [[framesDecoded bufferList'] decoder].
    destruct (FileReader_iteration p s bufferList) as [[[p' s'] b'] outcome].
    destruct Hit as (Hts & Hrd & _ & _ & _ & _ & _ & Ha & Hcase & _).
    split; [done|]. split; [done|]. split; [done|].
    destruct (0 =? framesDecoded).
    + destruct Hcase as (_ & -> & _). done.
    + destruct Hcase as (_ & _ & -> & _). done.
  - unfold FileReader_iteration. unfold room_for_a_chunk in Hroom. rewrite Hroom. done.
Qed.

(** X13. What a step of any thread does to the table of active decoders.
    The table keeps its length.  An empty slot is taken only by a reader
    that enters.  A slot is emptied only by a sweep of the collector, and
    only when its state is ready for collection: a state that is not ready
    is never dropped.  A state that stays keeps its time stamp; once ready
    for collection it stays ready, and once told to stop decoding it is
    never told to decode again.  The same holds along every run for the
    length of the table. *)
Theorem step_slot_evolves (p : Player) (a : Action D) :
  Forall2 (slot_evolves a) (mActiveDecoders p) (mActiveDecoders (step p a))
  /\ forall actions : list (Action D),
       length (mActiveDecoders (run p actions)) = length (mActiveDecoders p).
Proof.
  assert (Hstep : forall (q : Player) (b : Action D),
            Forall2 (slot_evolves b) (mActiveDecoders q) (mActiveDecoders (step q b))).
  { clear p a. intros p a.
    destruct a as [| | |decoder|decoder| |frame| |slot bufferList|flags n ioData|flags|];
      simpl.
    - rewrite (Play_only_host p). apply slot_evolves_refl.
    - rewrite (Pause_only_host p). apply slot_evolves_refl.
    - rewrite Stop_members. destruct (IsPlaying p); [|apply slot_evolves_refl].
      apply slot_evolves_stopped, slot_evolves_refl.
    - destruct (PlayDecoder_members p decoder) as (-> & _).
      apply slot_evolves_stopped, slot_evolves_refl.
    - destruct (Enqueue_members p decoder) as [[_ ->] | [_ (-> & _)]];
        [|apply slot_evolves_refl].
      destruct (PlayDecoder_members (queue_inspected p) decoder) as (-> & _).
      apply slot_evolves_stopped, slot_evolves_refl.
    - destruct (ClearQueuedDecoders_members p) as (-> & _). apply slot_evolves_refl.
    - unfold SeekToFrame.
      pose proof (GetCurrentDecoderState_earliest_live p) as He.
      destruct (GetCurrentDecoderState p) as [[i s]|]; [|apply slot_evolves_refl].
      destruct He as [[Hi _] _].
      destruct (negb (SupportsSeeking _)); [apply slot_evolves_refl|].
      destruct (OSAtomicCompareAndSwap64Barrier _ _ _) as [swapped frameToSeek].
      destruct (negb swapped); [apply slot_evolves_refl|]. simpl.
      by eapply slot_evolves_insert.
    - unfold FileReaderThreadEntry_enter.
      destruct (pthread_mutex_lock (host p)) as [lockResult h]. simpl.
      destruct (negb (lockResult =? 0)); [apply slot_evolves_refl|]. simpl.
      destruct (mDecoderQueue p); [apply slot_evolves_refl|]. simpl.
      apply slot_evolves_install.
    - unfold FileReader_step.
      destruct (mActiveDecoders p !! slot) as [[s|]|] eqn:Hs; simpl;
        try apply slot_evolves_refl.
      destruct (State.mDecodingThread s =? 0); simpl; [apply slot_evolves_refl|].
      pose proof (FileReader_iteration_evolves p s bufferList) as Hit.
      destruct (FileReader_iteration p s bufferList) as [[[p' s'] b'] outcome].
      destruct Hit as (-> & Hts & Hrd & Hkeep). simpl.
      eapply slot_evolves_insert; [exact Hs|]. simpl. rewrite Hrd. done.
    - destruct (Render_members p flags n ioData) as (-> & _). apply slot_evolves_refl.
    - unfold DidRender.
      destruct (negb (Z.land _ _ =? 0)); simpl; [|apply slot_evolves_refl].
      destruct (0 =? mFramesRenderedLastPass p); simpl; [apply slot_evolves_refl|].
      pose proof (slot_evolves_DidRender_scan (HostDidRender flags)
                    (mFramesRenderedLastPass p) (mFramesRenderedLastPass p)
                    (mActiveDecoders p)) as Hscan.
      destruct (DidRender_scan _ _ _) as [slots es]. simpl in *.
      destruct (GetCurrentDecoderState _); simpl; [done|].
      rewrite Stop_members. destruct (IsPlaying _); simpl; [|done].
      by apply slot_evolves_stopped.
    - apply slot_evolves_collected. }
  split; [apply Hstep|].
  intros actions. revert p. induction actions as [|b rest IH]; intros p; [done|].
  change (run p (b :: rest)) with (run (step p b) rest).
  rewrite IH. symmetry. eapply Forall2_length, Hstep.
Qed.

(** ** DidRender, state by state *)

Lemma DidRender_scan_pointwise last remaining (slots : list Slot) :
  0 <= last ->
  Forall2 (fun x y =>
             accounted x y
             /\ forall s s', x = Some s -> y = Some s' ->
                  (State.mReadyForCollection s = true -> s' = s)
                  /\ (State.mFramesRendered s <= State.mTotalFrames s ->
                      State.mFramesRendered s <= State.mFramesRendered s'
                      <= State.mTotalFrames s
                      /\ State.mFramesRendered s' <= State.mFramesRendered s + last)
                  /\ (State.mReadyForCollection s' = true ->
                      State.mReadyForCollection s = true
                      \/ State.mFramesRendered s' = State.mTotalFrames s))
    slots (fst (DidRender_scan last remaining slots)).
Proof.
  intros Hlast.
  assert (Hsame : forall l : list Slot,
            Forall2 (fun x y =>
                       accounted x y
                       /\ forall s s', x = Some s -> y = Some s' ->
                            (State.mReadyForCollection s = true -> s' = s)
                            /\ (State.mFramesRendered s <= State.mTotalFrames s ->
                                State.mFramesRendered s <= State.mFramesRendered s'
                                <= State.mTotalFrames s
                                /\ State.mFramesRendered s' <= State.mFramesRendered s + last)
                            /\ (State.mReadyForCollection s' = true ->
                                State.mReadyForCollection s = true
                                \/ State.mFramesRendered s' = State.mTotalFrames s))
              l l).
  { intros l. apply Forall_Forall2_diag, Forall_forall. intros [s|] _; simpl.
    - split; [by destruct s|]. intros ? ? ? ?. simplify_eq. repeat split; try lia. by left.
    - split; [done|]. intros ? ? ?. done. }
  revert remaining. induction slots as [|[s|] rest IH]; intros remaining; simpl; [done| |].
  - destruct (State.mReadyForCollection s) eqn:Hr.
    + specialize (IH remaining). destruct (DidRender_scan last remaining rest) as [rest' es].
      constructor; [|done]. split; [by destruct s|]. intros ? ? ? ?. simplify_eq.
      repeat split; try lia. by left.
    + pose proof (DidRender_visit_state last s) as Hv.
      destruct (DidRender_visit last s) as [[s' es] give].
      destruct Hv as (Hgive & Hfr & Hrd & Hs & _).
      assert (Hhead : accounted (Some s) (Some s')
                      /\ forall s0 s0', Some s = Some s0 -> Some s' = Some s0' ->
                           (State.mReadyForCollection s0 = true -> s0' = s0)
                           /\ (State.mFramesRendered s0 <= State.mTotalFrames s0 ->
                               State.mFramesRendered s0 <= State.mFramesRendered s0'
                               <= State.mTotalFrames s0
                               /\ State.mFramesRendered s0' <= State.mFramesRendered s0 + last)
                           /\ (State.mReadyForCollection s0' = true ->
                               State.mReadyForCollection s0 = true
                               \/ State.mFramesRendered s0' = State.mTotalFrames s0)).
      { split; [done|]. intros ? ? ? ?. simplify_eq. split; [congruence|]. split.
        - intros Hle. rewrite Hfr. lia.
        - rewrite Hrd, Hr. simpl. intros Heq%Z.eqb_eq. right. lia. }
      destruct (0 =? remaining - give); simpl.
      * constructor; [done|apply Hsame].
      * specialize (IH (remaining - give)).
        destruct (DidRender_scan last (remaining - give) rest) as [rest' es'].
        constructor; done.
  - specialize (IH remaining). destruct (DidRender_scan last remaining rest) as [rest' es].
    constructor; [|done]. split; [done|]. intros ? ? ?. done.
Qed.

(** X14. What the loop of DidRender does to the table, for a pass that
    rendered mFramesRenderedLastPass >= 0 frames.  Every slot keeps its
    state, of which only mFramesRendered and mReadyForCollection may change.
    A state that is ready for collection is not touched.  A state that has
    rendered no more than its total never goes back, never gets more than
    the frames of the pass, and never passes its total; and a state is
    flagged ready for collection only when its mFramesRendered has reached
    mTotalFrames. *)
Theorem DidRender_scan_within_totals (last remaining : Z) (slots : list Slot) :
  0 <= last ->
  forall slots' es,
    DidRender_scan last remaining slots = (slots', es) ->
    Forall2 accounted slots slots'
    /\ forall i s s',
         slots !! i = Some (Some s) -> slots' !! i = Some (Some s') ->
         (State.mReadyForCollection s = true -> s' = s)
         /\ (State.mFramesRendered s <= State.mTotalFrames s ->
             State.mFramesRendered s <= State.mFramesRendered s' <= State.mTotalFrames s
             /\ State.mFramesRendered s' <= State.mFramesRendered s + last)
         /\ (State.mReadyForCollection s' = true ->
             State.mReadyForCollection s = true
             \/ State.mFramesRendered s' = State.mTotalFrames s).
Proof.
  intros Hlast slots' es Hscan.
  pose proof (DidRender_scan_pointwise last remaining slots Hlast) as Hall.
  rewrite Hscan in Hall. simpl in Hall. split.
  - eapply Forall2_impl; [exact Hall|]. intros x y [Hacc _]. done.
  - intros i s s' Hi Hi'.
    destruct (Forall2_lookup_lr _ _ _ _ _ _ Hall Hi Hi') as [_ Hp]. by apply Hp.
Qed.

(** The loop when no state is live, and when one state is. *)
Lemma DidRender_scan_none_live last remaining (slots : list Slot) :
  (forall j s', ~ live slots j s') ->
  DidRender_scan last remaining slots = (slots, []).
Proof.
  induction slots as [|[s|] rest IH]; intros Hnone; simpl; [done| |].
  - destruct (State.mReadyForCollection s) eqn:Hr.
    + rewrite IH; [done|]. intros j s' Hl. by apply (Hnone (S j) s').
    + by destruct (Hnone 0%nat s).
  - rewrite IH; [done|]. intros j s' Hl. by apply (Hnone (S j) s').
Qed.

Lemma DidRender_scan_only_live last remaining (slots : list Slot) i s :
  live slots i s ->
  (forall j s', live slots j s' -> j = i) ->
  DidRender_scan last remaining slots
  = (<[i := Some (fst (fst (DidRender_visit last s)))]> slots,
     snd (fst (DidRender_visit last s))).
Proof.
  revert i. induction slots as [|x rest IH]; intros i [Hi Hr] Honly; [done|].
  destruct i as [|i]; simpl in Hi.
  - simplify_eq. rewrite (DidRender_scan_live _ _ _ _ Hr).
    destruct (DidRender_visit last s) as [[s' es] give]. simpl.
    destruct (0 =? remaining - give); [done|].
    rewrite DidRender_scan_none_live; [by rewrite app_nil_r|].
    intros j s0 Hl. by specialize (Honly (S j) s0 Hl).
  - assert (Hrest : DidRender_scan last remaining rest
                    = (<[i := Some (fst (fst (DidRender_visit last s)))]> rest,
                       snd (fst (DidRender_visit last s)))).
    { apply IH; [done|]. intros j s0 Hl. by specialize (Honly (S j) s0 Hl); simplify_eq. }
    destruct x as [s0|]; simpl.
    + destruct (State.mReadyForCollection s0) eqn:Hr0; [by rewrite Hrest|].
      by specialize (Honly 0%nat s0 (conj eq_refl Hr0)).
    + by rewrite Hrest.
Qed.

(** The loop passes over the slots that hold no live state. *)
Lemma DidRender_scan_skip last remaining (pre rest : list Slot) :
  (forall k u, ~ live pre k u) ->
  DidRender_scan last remaining (pre ++ rest)
  = (pre ++ fst (DidRender_scan last remaining rest),
     snd (DidRender_scan last remaining rest)).
Proof.
  induction pre as [|[s|] pre IH]; intros Hnone; simpl.
  - by destruct (DidRender_scan last remaining rest).
  - destruct (State.mReadyForCollection s) eqn:Hr.
    + rewrite IH; [done|]. intros k u Hl. by apply (Hnone (S k) u).
    + by destruct (Hnone 0%nat s).
  - rewrite IH; [done|]. intros k u Hl. by apply (Hnone (S k) u).
Qed.

(** The visit of a state that has rendered nothing yet starts with its
    rendering-started callback. *)
Lemma DidRender_scan_fresh last remaining (t : DecoderStateData D) (post : list Slot) :
  State.mReadyForCollection t = false ->
  State.mFramesRendered t = 0 ->
  exists rest' after,
    DidRender_scan last remaining (Some t :: post)
    = (rest', PerformRenderingStartedCallback (State.mDecoder t) :: after)
    /\ length rest' = S (length post).
Proof.
  intros Ht Hfresh.
  pose proof (slot_evolves_DidRender_scan CollectorSweeps last remaining (Some t :: post))
    as Hlen%Forall2_length.
  rewrite (DidRender_scan_live _ _ _ _ Ht) in *.
  unfold DidRender_visit in *. rewrite Hfresh in *. simpl in *.
  destruct (Z.min _ _ =? State.mTotalFrames t); simpl in *;
    destruct (0 =? _ - _); simpl in *;
    try (destruct (DidRender_scan last _ post) as [post' es']; simpl in *);
    eexists _, _; (split; [reflexivity|]); simpl; lia.
Qed.

(** X15. The handoff from one decoder to the next within a pass.  When the
    first state that is not ready for collection has fewer frames left than
    the pass rendered, and the next such state has rendered nothing yet, the
    loop of DidRender performs the rendering-finished callback of the
    first, signals the collector, and performs the rendering-started
    callback of the next right after, in this order; the first state is
    flagged ready for collection with mFramesRendered at mTotalFrames. *)
Theorem DidRender_scan_hands_over (last : Z) (pre mid post : list Slot)
    (s t : DecoderStateData D) :
  (forall k u, ~ live pre k u) ->
  (forall k u, ~ live mid k u) ->
  State.mReadyForCollection s = false ->
  State.mReadyForCollection t = false ->
  State.mTotalFrames s - State.mFramesRendered s < last ->
  State.mFramesRendered t = 0 ->
  exists s' rest' started after,
    DidRender_scan last last (pre ++ Some s :: mid ++ Some t :: post)
    = (pre ++ Some s' :: mid ++ rest',
       started
       ++ [PerformRenderingFinishedCallback (State.mDecoder s);
           semaphore_signal_mCollectorSemaphore;
           PerformRenderingStartedCallback (State.mDecoder t)]
       ++ after)
    /\ (started = [] \/ started = [PerformRenderingStartedCallback (State.mDecoder s)])
    /\ State.mFramesRendered s' = State.mTotalFrames s
    /\ State.mReadyForCollection s' = true
    /\ length rest' = S (length post).
Proof.
  intros Hpre Hmid Hs Ht Hleft Hfresh.
  rewrite (DidRender_scan_skip _ _ _ _ Hpre), (DidRender_scan_live _ _ _ _ Hs).
  unfold DidRender_visit, OSAtomicAdd64Barrier. simpl.
  rewrite Z.min_l by lia.
  replace (State.mFramesRendered s + (State.mTotalFrames s - State.mFramesRendered s))
    with (State.mTotalFrames s) by lia.
  rewrite Z.eqb_refl. simpl.
  destruct (Z.eqb_spec 0 (last - (State.mTotalFrames s - State.mFramesRendered s)));
    [lia|].
  rewrite (DidRender_scan_skip _ _ _ _ Hmid).
  destruct (DidRender_scan_fresh last
              (last - (State.mTotalFrames s - State.mFramesRendered s)) t post Ht Hfresh)
    as (rest' & after & -> & Hlen).
  simpl.
  exists (State.set_mReadyForCollection true
            (State.set_mFramesRendered (State.mTotalFrames s) s)),
    rest',
    (if 0 =? State.mFramesRendered s
     then [PerformRenderingStartedCallback (State.mDecoder s)] else []),
    after.
  split; [by rewrite <- app_assoc|].
  split; [by destruct (0 =? State.mFramesRendered s); [right|left]|done].
Qed.

(** X16. The end of playback.  When the graph runs, one state is left that
    is not ready for collection, and the pass rendered at least the frames
    that state has left, DidRender brings its mFramesRendered to
    mTotalFrames, performs its rendering-finished callback, flags it ready
    for collection, finds no current decoder any more and stops the
    player: the three counters are zero afterwards. *)
Theorem DidRender_last_frames_stop_the_player (p : Player) (ioActionFlags : UInt32)
    (i : nat) (s : DecoderStateData D) :
  Z.land kAudioUnitRenderAction_PostRender ioActionFlags <> 0 ->
  mFramesRenderedLastPass p <> 0 ->
  IsPlaying p = true ->
  live (mActiveDecoders p) i s ->
  (forall j s', live (mActiveDecoders p) j s' -> j = i) ->
  State.mTotalFrames s - State.mFramesRendered s <= mFramesRenderedLastPass p ->
  forall p', p' = snd (DidRender p ioActionFlags) ->
    (exists es, events p' = events p ++ es
                /\ In (PerformRenderingFinishedCallback (State.mDecoder s)) es
                /\ In semaphore_signal_mCollectorSemaphore es)
    /\ GetCurrentDecoderState p' = None
    /\ mFramesDecoded p' = 0 /\ mFramesRendered p' = 0
    /\ mNextDecoderStartingTimeStamp p' = 0
    /\ exists s', mActiveDecoders p' !! i = Some (Some s')
                  /\ State.mFramesRendered s' = State.mTotalFrames s
                  /\ State.mReadyForCollection s' = true
                  /\ State.mKeepDecoding s' = false.
Proof.
  intros Hpost Hlast Hplaying Hlive Honly Hleft p' ->.
  unfold DidRender.
  destruct (Z.eqb_spec (Z.land kAudioUnitRenderAction_PostRender ioActionFlags) 0); [done|].
  destruct (Z.eqb_spec 0 (mFramesRenderedLastPass p)); [congruence|]. simpl.
  rewrite (DidRender_scan_only_live _ _ _ i s Hlive Honly).
  pose proof (DidRender_visit_state (mFramesRenderedLastPass p) s) as Hv.
  destruct (DidRender_visit (mFramesRenderedLastPass p) s) as [[s1 es] give].
  destruct Hv as (Hgive & Hfr & Hrd & Hs & Hfin). simpl.
  rewrite Z.min_l in Hgive by lia. subst give.
  replace (State.mFramesRendered s + (State.mTotalFrames s - State.mFramesRendered s))
    with (State.mTotalFrames s) in * by lia.
  rewrite Z.eqb_refl, orb_true_r in Hrd.
  set (p1 := emit es _).
  assert (Hi1 : mActiveDecoders p1 !! i = Some (Some s1)).
  { simpl. apply list_lookup_insert_eq. destruct Hlive as [Hi _]. by eapply lookup_lt_Some. }
  assert (Hnone : GetCurrentDecoderState p1 = None).
  { pose proof (GetCurrentDecoderState_earliest_live p1) as He.
    destruct (GetCurrentDecoderState p1) as [[j c]|]; [|done].
    destruct He as [[Hj Hr] _]. simpl in Hj.
    destruct (decide (j = i)) as [->|Hne].
    - simpl in Hi1. congruence.
    - rewrite list_lookup_insert_ne in Hj by done.
      by specialize (Honly j c (conj Hj Hr)). }
  rewrite Hnone, Stop_members.
  change (IsPlaying p1) with (IsPlaying p). rewrite Hplaying. simpl.
  split; [|split; [apply GetCurrentDecoderState_scan_stopped|]].
  - exists (es ++ [semaphore_signal_mDecoderSemaphore; semaphore_signal_mCollectorSemaphore]).
    rewrite app_assoc. split; [done|]. split.
    + apply in_or_app. left. by apply Hfin.
    + apply in_or_app. right. right. by left.
  - repeat split.
    eexists. split; [by rewrite lookup_map, list_lookup_insert_eq
                       by (destruct Hlive as [Hi _]; by eapply lookup_lt_Some)|].
    simpl. done.
Qed.

(** X17. A Render that renders nothing, because the ring is empty or because
    the fetch fails, leaves mFramesRenderedLastPass at the count of an
    earlier pass, and the DidRender that follows accounts for those frames
    once more: with a first live state that has more frames left than that
    count, the frames rendered by the live states grow by it while
    mFramesRendered stays where it was. *)
Theorem DidRender_after_a_Render_without_frames (p : Player)
    (ioActionFlags inNumberFrames postFlags : UInt32) (ioData : AudioBufferList)
    (s : DecoderStateData D) :
  mFramesDecoded p - mFramesRendered p = 0
  \/ fst (Fetch (mRingBuffer p) ioData
            (Z.min (to_UInt32 (mFramesDecoded p - mFramesRendered p)) inNumberFrames)
            (mFramesRendered p) false) <> kCARingBufferError_OK ->
  Z.land kAudioUnitRenderAction_PostRender postFlags <> 0 ->
  mFramesRenderedLastPass p <> 0 ->
  first_live (mActiveDecoders p) = Some s ->
  mFramesRenderedLastPass p < State.mTotalFrames s - State.mFramesRendered s ->
  forall p',
    p' = snd (DidRender (snd (Render p ioActionFlags inNumberFrames ioData)) postFlags) ->
    snd (Render p ioActionFlags inNumberFrames ioData) = p
    /\ mFramesRendered p' = mFramesRendered p
    /\ mFramesRenderedLastPass p' = mFramesRenderedLastPass p
    /\ live_framesRendered (mActiveDecoders p')
       = live_framesRendered (mActiveDecoders p) + mFramesRenderedLastPass p.
Proof.
  intros Hnothing Hpost Hlast Hfirst Hleft p' ->.
  assert (Hrender : snd (Render p ioActionFlags inNumberFrames ioData) = p).
  { unfold Render. destruct Hnothing as [-> | Hfail]; [done|].
    destruct (0 =? to_UInt32 _); [done|].
    destruct (Fetch _ _ _ _ _) as [result fetched]. simpl in Hfail.
    destruct (Z.eqb_spec result kCARingBufferError_OK); done. }
  rewrite Hrender. split; [done|]. unfold DidRender.
  destruct (Z.eqb_spec (Z.land kAudioUnitRenderAction_PostRender postFlags) 0); [done|].
  destruct (Z.eqb_spec 0 (mFramesRenderedLastPass p)); [congruence|]. simpl.
  destruct (DidRender_scan_single _ _ _ Hfirst Hleft) as (slots' & es & j & c & -> & Hsum & Hl).
  pose proof (GetCurrentDecoderState_earliest_live (emit es (set_mActiveDecoders slots' p)))
    as He.
  destruct (GetCurrentDecoderState _) as [[k c']|]; simpl in *; [done|].
  by apply He in Hl.
Qed.

(** ** The ring stays within its capacity *)

(** X18. For decoders that read no more frames than they are asked for, and
    a player on which what is decoded and not yet rendered is between 0 and
    the 16384 frames of the ring: the two conversions to UInt32 of Render
    and of the reader (the frames available to read and to write) are
    exact, and every call and every pass of a reader, from its test of the
    room to the update of the counters, that runs to its end with no other
    thread in between leaves a player within the same bounds. *)
Theorem ring_within_capacity_kept (p : Player) :
  reads_within_request ->
  ring_within_capacity p ->
  to_UInt32 (mFramesDecoded p - mFramesRendered p) = mFramesDecoded p - mFramesRendered p
  /\ to_UInt32 (RING_BUFFER_SIZE_FRAMES - (mFramesDecoded p - mFramesRendered p))
     = RING_BUFFER_SIZE_FRAMES - (mFramesDecoded p - mFramesRendered p)
  /\ (forall ioActionFlags inNumberFrames ioData,
        0 <= inNumberFrames < 2 ^ 32 ->
        ring_within_capacity (snd (Render p ioActionFlags inNumberFrames ioData)))
  /\ (forall slot bufferList, ring_within_capacity (fst (FileReader_step p slot bufferList)))
  /\ (forall ioActionFlags, ring_within_capacity (snd (DidRender p ioActionFlags)))
  /\ ring_within_capacity (Stop p)
  /\ (forall decoder, ring_within_capacity (snd (PlayDecoder p decoder)))
  /\ (forall decoder, ring_within_capacity (snd (Enqueue p decoder)))
  /\ (forall frame, ring_within_capacity (snd (SeekToFrame p frame)))
  /\ ring_within_capacity (FileReaderThreadEntry_enter p)
  /\ ring_within_capacity (CollectorThreadEntry_sweep p)
  /\ ring_within_capacity (Play p)
  /\ ring_within_capacity (Pause p)
  /\ ring_within_capacity (snd (ClearQueuedDecoders p)).
Proof.
  intros Hread Hp.
  split; [|split].
  { unfold ring_within_capacity, RING_BUFFER_SIZE_FRAMES in Hp. apply to_UInt32_small. lia. }
  { unfold ring_within_capacity, RING_BUFFER_SIZE_FRAMES in *. apply to_UInt32_small. lia. }
  split.
  { intros flags n ioData Hn.
    exact (ring_within_capacity_step p (HostRenders flags n ioData) Hread Hn Hp). }
  split.
  { intros slot bufferList.
    exact (ring_within_capacity_step p (ReaderIterates slot bufferList) Hread I Hp). }
  split.
  { intros flags. exact (ring_within_capacity_step p (HostDidRender flags) Hread I Hp). }
  split; [exact (ring_within_capacity_step p CallStop Hread I Hp)|].
  split.
  { intros decoder. exact (ring_within_capacity_step p (CallPlayDecoder decoder) Hread I Hp). }
  split.
  { intros decoder. exact (ring_within_capacity_step p (CallEnqueue decoder) Hread I Hp). }
  split.
  { intros frame. exact (ring_within_capacity_step p (CallSeekToFrame frame) Hread I Hp). }
  split; [exact (ring_within_capacity_step p ReaderEnters Hread I Hp)|].
  split; [exact (ring_within_capacity_step p CollectorSweeps Hread I Hp)|].
  split; [exact (ring_within_capacity_step p CallPlay Hread I Hp)|].
  split; [exact (ring_within_capacity_step p CallPause Hread I Hp)|].
  exact (ring_within_capacity_step p CallClearQueuedDecoders Hread I Hp).
Qed.

(** ** The queue is cleared *)

(** X19. ClearQueuedDecoders with the queue mutex taken empties the queue
    and returns true; the active decoders, the counters and the events are
    as before, so the decoder that plays keeps playing.  With the queue it
    leaves, a reader that meets the end of its stream starts no further
    reader.  When the mutex cannot be taken the call returns false and the
    queue is as before. *)
Theorem ClearQueuedDecoders_effect (p : Player) :
  (fst (pthread_mutex_lock (host p)) = 0 ->
   exists p',
     ClearQueuedDecoders p = (true, p')
     /\ mDecoderQueue p' = []
     /\ mActiveDecoders p' = mActiveDecoders p
     /\ GetCurrentDecoderState p' = GetCurrentDecoderState p
     /\ mFramesDecoded p' = mFramesDecoded p
     /\ mFramesRendered p' = mFramesRendered p
     /\ mNextDecoderStartingTimeStamp p' = mNextDecoderStartingTimeStamp p
     /\ events p' = events p
     /\ forall (s : DecoderStateData D) n,
          exists es, events (fst (FileReader_finish p' s n)) = events p' ++ es
                     /\ ~ In fileReaderEntry_started es)
  /\ (fst (pthread_mutex_lock (host p)) <> 0 ->
      exists p', ClearQueuedDecoders p = (false, p')
                 /\ mDecoderQueue p' = mDecoderQueue p
                 /\ mActiveDecoders p' = mActiveDecoders p
                 /\ events p' = events p).
Proof.
  unfold ClearQueuedDecoders.
  destruct (pthread_mutex_lock (host p)) as [lockResult h]. simpl. split.
  - intros ->. simpl. eexists. split; [reflexivity|]. repeat split.
    intros s n.
    match goal with
    | |- context [FileReader_finish ?q s n] =>
        pose proof (FileReader_finish_events q s n) as Hev;
        destruct (FileReader_finish q s n) as [p2 s2]
    end.
    cbv zeta in Hev. destruct Hev as (es & Hes & Hstarted & _).
    exists (PerformDecodingFinishedCallback (State.mDecoder s) :: es). split; [done|].
    intros [?|Hin]; [done|]. apply Hstarted in Hin. by destruct Hin as [? _].
  - intros Hlock. destruct (Z.eqb_spec lockResult 0); [done|]. simpl. eexists. done.
Qed.

End Properties.

(** ** Seeking by time *)

Section SeekingByTimeProperties.

Context {H D R T : Type} `{Host H} `{AudioDecoder D} `{CARingBuffer R} `{CFTimeInterval T}.

#[local] Arguments Z.eqb : simpl never.
#[local] Arguments Z.min : simpl never.
#[local] Arguments Z.max : simpl never.
#[local] Arguments Z.add : simpl never.
#[local] Arguments Z.sub : simpl never.

Implicit Type p : AudioPlayer H D R.

(** A successful SeekToFrame to a frame that is not negative, as the seeks
    by time perform it. *)
Lemma SeekToFrame_lands p (frame : SInt64) i (s : DecoderStateData D) :
  GetCurrentDecoderState p = Some (i, s) ->
  SupportsSeeking (State.mDecoder s) = true ->
  0 <= frame ->
  exists p', SeekToFrame p frame = (true, p') /\ GetCurrentFrame p' = frame.
Proof.
  intros Hcur Hseek Hframe.
  destruct (SeekToFrame_current p frame i s Hcur Hseek) as (Hcall & Hi & Hr).
  eexists. split; [exact Hcall|].
  assert (Hcur' : GetCurrentDecoderState
                    (emit [semaphore_signal_mDecoderSemaphore]
                       (set_mActiveDecoders
                          (<[i := Some (State.set_mFrameToSeek frame s)]> (mActiveDecoders p)) p))
                  = Some (i, State.set_mFrameToSeek frame s)).
  { by eapply GetCurrentDecoderState_insert. }
  unfold GetCurrentFrame. rewrite Hcur'. simpl.
  destruct (Z.eqb_spec (-1) frame); [lia|done].
Qed.

Lemma is_SInt64_true (z : Z) : SInt64_MIN <= z <= SInt64_MAX -> is_SInt64 z = true.
Proof.
  intros [Hlo Hhi]. unfold is_SInt64.
  apply andb_true_iff. split; by apply Z.leb_le.
Qed.

Lemma is_SInt64_false (z : Z) : ~ (SInt64_MIN <= z <= SInt64_MAX) -> is_SInt64 z = false.
Proof.
  intros Hout. unfold is_SInt64. apply andb_false_iff.
  destruct (Z.leb_spec SInt64_MIN z); [|by left].
  destruct (Z.leb_spec z SInt64_MAX); [|by right]. by destruct Hout.
Qed.

(** X20. SeekToTime and SeekBackward never hand SeekToFrame a negative
    frame.  With a current decoder that supports seeking and a time that
    converts to a frame count: SeekToTime succeeds, and GetCurrentFrame
    asked right after it is that frame clamped to [0, mTotalFrames] (0 when
    mTotalFrames is negative); SeekBackward, when the current frame less the
    frame count is an SInt64, succeeds, and GetCurrentFrame asked right
    after it is that difference, or 0 when it is negative; when that
    difference overflows SInt64 the call has no defined result.  Without a
    current decoder both return false and leave the player as it is. *)
Theorem SeekToTime_and_SeekBackward_stay_in_range p (t : T) :
  match GetCurrentDecoderState p with
  | None => SeekToTime p t = Some (false, p) /\ SeekBackward p t = Some (false, p)
  | Some (i, s) =>
      SupportsSeeking (State.mDecoder s) = true ->
      forall frames,
        to_frames t (mSampleRate (GetFormat (State.mDecoder s))) = Some frames ->
        (exists p', SeekToTime p t = Some (true, p')
           /\ GetCurrentFrame p' = Z.max 0 (Z.min frames (State.mTotalFrames s))
           /\ 0 <= GetCurrentFrame p'
           /\ (0 <= State.mTotalFrames s -> GetCurrentFrame p' <= State.mTotalFrames s)
           /\ (0 <= frames <= State.mTotalFrames s -> GetCurrentFrame p' = frames))
        /\ (SInt64_MIN <= GetCurrentFrame p <= SInt64_MAX ->
            SInt64_MIN <= frames <= SInt64_MAX ->
            SInt64_MIN <= GetCurrentFrame p - frames <= SInt64_MAX ->
            exists p', SeekBackward p t = Some (true, p')
              /\ GetCurrentFrame p' = Z.max 0 (GetCurrentFrame p - frames)
              /\ 0 <= GetCurrentFrame p'
              /\ (0 <= frames <= GetCurrentFrame p ->
                  GetCurrentFrame p' = GetCurrentFrame p - frames))
        /\ (~ (SInt64_MIN <= GetCurrentFrame p - frames <= SInt64_MAX) ->
            SeekBackward p t = None)
  end.
Proof.
  unfold SeekToTime, SeekBackward.
  destruct (GetCurrentDecoderState p) as [[i s]|] eqn:Hcur; [|done].
  intros Hseek frames ->. cbv zeta. split; [|split].
  - destruct (SeekToFrame_lands p (Z.max 0 (Z.min frames (State.mTotalFrames s))) i s
                Hcur Hseek ltac:(lia)) as (p' & Hcall & Hframe).
    exists p'. rewrite Hcall, Hframe. repeat split; try done; lia.
  - intros Hc Hf Hd. unfold SInt64_sub.
    rewrite !is_SInt64_true by done. simpl.
    destruct (SeekToFrame_lands p (Z.max 0 (GetCurrentFrame p - frames)) i s
                Hcur Hseek ltac:(lia)) as (p' & Hcall & Hframe).
    exists p'. rewrite Hcall, Hframe. repeat split; try done; lia.
  - intros Hout. unfold SInt64_sub.
    rewrite (is_SInt64_false _ Hout), !andb_false_r. done.
Qed.

(** X21. SeekForward asks for the current frame plus the frames of the
    interval, but for no more than mTotalFrames of the current decoder.
    For a current frame and a frame count that are SInt64 values: when
    their sum is an SInt64 and is not negative (as SeekToFrame asserts),
    mTotalFrames is not negative and the decoder supports seeking, the
    call succeeds and GetCurrentFrame asked right after it is that frame,
    at most mTotalFrames; when the sum overflows SInt64 the call has no
    defined result. *)
Theorem SeekForward_stops_at_the_total p (t : T) i (s : DecoderStateData D) :
  GetCurrentDecoderState p = Some (i, s) ->
  SupportsSeeking (State.mDecoder s) = true ->
  forall frames,
    to_frames t (mSampleRate (GetFormat (State.mDecoder s))) = Some frames ->
    SInt64_MIN <= GetCurrentFrame p <= SInt64_MAX ->
    SInt64_MIN <= frames <= SInt64_MAX ->
    (0 <= GetCurrentFrame p + frames <= SInt64_MAX ->
     0 <= State.mTotalFrames s ->
     exists p', SeekForward p t = Some (true, p')
       /\ GetCurrentFrame p' = Z.min (GetCurrentFrame p + frames) (State.mTotalFrames s)
       /\ GetCurrentFrame p' <= State.mTotalFrames s)
    /\ (SInt64_MAX < GetCurrentFrame p + frames -> SeekForward p t = None).
Proof.
  intros Hcur Hseek frames Hconv Hc Hf. unfold SeekForward. rewrite Hcur, Hconv. cbv zeta.
  unfold SInt64_add. rewrite (is_SInt64_true _ Hc), (is_SInt64_true _ Hf). simpl. split.
  - intros Hsum Htotal.
    rewrite is_SInt64_true by (unfold SInt64_MIN, SInt64_MAX in *; lia).
    destruct (SeekToFrame_lands p (Z.min (GetCurrentFrame p + frames) (State.mTotalFrames s))
                i s Hcur Hseek ltac:(lia)) as (p' & Hcall & Hframe).
    exists p'. rewrite Hcall, Hframe. repeat split; try done; lia.
  - intros Hover. rewrite is_SInt64_false by lia. done.
Qed.

End SeekingByTimeProperties.

(** ** Channel layouts *)

Section ChannelLayouts.

#[local] Arguments Z.eqb : simpl never.
#[local] Arguments Z.mul : simpl never.

Lemma Byte_to_N_inj (x y : byte) : Byte.to_N x = Byte.to_N y -> x = y.
Proof.
  intros Heq. pose proof (Byte.of_to_N x) as Hx. pose proof (Byte.of_to_N y) as Hy.
  rewrite Heq in Hx. congruence.
Qed.

Lemma memcmp_equal (s1 s2 : list byte) (n : nat) :
  memcmp s1 s2 n = 0 <-> take n s1 = take n s2.
Proof.
  revert s1 s2. induction n as [|n IH]; intros s1 s2; simpl; [done|].
  destruct s1 as [|x r1], s2 as [|y r2]; simpl; try done.
  destruct (N.ltb_spec (Byte.to_N x) (Byte.to_N y)) as [Hlt|Hge].
  { split; [done|]. intros Heq. simplify_eq. lia. }
  destruct (N.ltb_spec (Byte.to_N y) (Byte.to_N x)) as [Hlt|Hle].
  { split; [done|]. intros Heq. simplify_eq. lia. }
  assert (x = y) as -> by (apply Byte_to_N_inj; lia).
  rewrite IH. split; [congruence|]. intros Heq. by simplify_eq.
Qed.

(** X22. channelLayoutsAreEqual answers true exactly when the tags are
    equal and, for the tag UseChannelBitmap, the bitmaps are equal, and,
    for the tag UseChannelDescriptions, the numbers of descriptions are
    equal and so are the bytes of that many descriptions; for every other
    tag nothing else is compared.  It is an equivalence relation on
    layouts. *)
Theorem channelLayoutsAreEqual_equivalence :
  (forall lhs rhs,
     channelLayoutsAreEqual lhs rhs = true <->
     mChannelLayoutTag lhs = mChannelLayoutTag rhs
     /\ (mChannelLayoutTag lhs = kAudioChannelLayoutTag_UseChannelBitmap ->
         mChannelBitmap lhs = mChannelBitmap rhs)
     /\ (mChannelLayoutTag lhs = kAudioChannelLayoutTag_UseChannelDescriptions ->
         mNumberChannelDescriptions lhs = mNumberChannelDescriptions rhs
         /\ take (Z.to_nat (mNumberChannelDescriptions lhs * sizeof_AudioChannelDescription))
              (mChannelDescriptions lhs)
            = take (Z.to_nat (mNumberChannelDescriptions lhs * sizeof_AudioChannelDescription))
                (mChannelDescriptions rhs)))
  /\ (forall a, channelLayoutsAreEqual a a = true)
  /\ (forall a b, channelLayoutsAreEqual a b = channelLayoutsAreEqual b a)
  /\ (forall a b c,
        channelLayoutsAreEqual a b = true -> channelLayoutsAreEqual b c = true ->
        channelLayoutsAreEqual a c = true).
Proof.
  assert (Hspec : forall lhs rhs,
     channelLayoutsAreEqual lhs rhs = true <->
     mChannelLayoutTag lhs = mChannelLayoutTag rhs
     /\ (mChannelLayoutTag lhs = kAudioChannelLayoutTag_UseChannelBitmap ->
         mChannelBitmap lhs = mChannelBitmap rhs)
     /\ (mChannelLayoutTag lhs = kAudioChannelLayoutTag_UseChannelDescriptions ->
         mNumberChannelDescriptions lhs = mNumberChannelDescriptions rhs
         /\ take (Z.to_nat (mNumberChannelDescriptions lhs * sizeof_AudioChannelDescription))
              (mChannelDescriptions lhs)
            = take (Z.to_nat (mNumberChannelDescriptions lhs * sizeof_AudioChannelDescription))
                (mChannelDescriptions rhs))).
  { intros lhs rhs. unfold channelLayoutsAreEqual.
    assert (Hdiff : kAudioChannelLayoutTag_UseChannelBitmap
                    <> kAudioChannelLayoutTag_UseChannelDescriptions) by done.
    destruct (Z.eqb_spec (mChannelLayoutTag lhs) (mChannelLayoutTag rhs)) as [Htag|Htag];
      simpl; [|split; [done|by intros [? _]]].
    destruct (Z.eqb_spec kAudioChannelLayoutTag_UseChannelBitmap (mChannelLayoutTag lhs))
      as [Hb|Hb].
    { rewrite Z.eqb_eq. split.
      - intros Hbits. split; [done|]. split; [done|]. intros Hd. congruence.
      - intros (_ & Hbits & _). by apply Hbits. }
    destruct (Z.eqb_spec kAudioChannelLayoutTag_UseChannelDescriptions (mChannelLayoutTag lhs))
      as [Hd|Hd].
    { destruct (Z.eqb_spec (mNumberChannelDescriptions lhs) (mNumberChannelDescriptions rhs))
        as [Hn|Hn]; simpl.
      - rewrite Z.eqb_eq. split.
        + intros Hcmp. split; [done|]. split; [congruence|]. intros _. split; [done|].
          by apply memcmp_equal.
        + intros (_ & _ & Hdesc). symmetry. apply memcmp_equal. by apply Hdesc.
      - split; [done|]. intros (_ & _ & Hdesc). by destruct (Hdesc (eq_sym Hd)). }
    split; [|done]. intros _. split; [done|]. split; congruence. }
  split; [exact Hspec|]. split; [|split].
  - intros a. apply Hspec. done.
  - intros a b. apply eq_true_iff_eq. rewrite !Hspec. split.
    + intros (Ht & Hb & Hd). split; [done|]. rewrite <- Ht. split.
      * intros Hx. symmetry. by apply Hb.
      * intros Hx. destruct (Hd Hx) as [Hn Hdesc]. rewrite <- Hn. done.
    + intros (Ht & Hb & Hd). split; [done|]. rewrite <- Ht. split.
      * intros Hx. symmetry. by apply Hb.
      * intros Hx. destruct (Hd Hx) as [Hn Hdesc]. rewrite <- Hn. done.
  - intros a b c. rewrite !Hspec. intros (Ht1 & Hb1 & Hd1) (Ht2 & Hb2 & Hd2).
    split; [congruence|]. split.
    + intros Hx. rewrite Hb1 by done. apply Hb2. congruence.
    + intros Hx. destruct (Hd1 Hx) as [Hn1 Hdesc1].
      destruct Hd2 as [Hn2 Hdesc2]; [congruence|].
      split; [congruence|]. rewrite Hdesc1, Hn1. done.
Qed.

End ChannelLayouts.

(** * The pipeline on concrete runs *)

Import Sample.

(** Closed goals are settled by evaluation. *)
Ltac evaluate := vm_compute; repeat split; first [reflexivity | discriminate].

(** The players of the scenarios are where their runs end. *)
Lemma scenario_players :
  playing = run new_player one_track_decoded
  /\ playing_three_frames = run new_player three_frames_decoded
  /\ paused = run new_player decoded_while_paused
  /\ first_decoded = run new_player first_of_two_decoded
  /\ handoff = run new_player handoff_within_a_pass
  /\ first_rendered = run new_player first_track_rendered
  /\ seeking_beyond = run new_player seek_beyond_the_end
  /\ seeking_back = run new_player seek_backwards.
Proof. evaluate. Qed.

(** C1. A pass of 512 frames over a decoder with 100 frames left followed by
    one with 1000, as reached by playing the first and enqueueing the second:
    the loop of DidRender gives 100 frames to the first and then 512, not
    the 412 that remain, to the second; 612 frames are attributed for 512
    rendered. *)
Theorem DidRender_attributes_more_than_rendered :
  handoff = run new_player handoff_within_a_pass
  /\ mFramesRenderedLastPass handoff = 512
  /\ State.mTotalFrames (state_in 0 handoff) - State.mFramesRendered (state_in 0 handoff) = 100
  /\ State.mTotalFrames (state_in 1 handoff) - State.mFramesRendered (state_in 1 handoff) = 1000
  /\ State.mFramesRendered
       (state_in 0 (snd (DidRender handoff kAudioUnitRenderAction_PostRender)))
     - State.mFramesRendered (state_in 0 handoff) = 100
  /\ State.mFramesRendered
       (state_in 1 (snd (DidRender handoff kAudioUnitRenderAction_PostRender)))
     - State.mFramesRendered (state_in 1 handoff) = 512
  /\ frames_attributed (mActiveDecoders handoff)
       (mActiveDecoders (snd (DidRender handoff kAudioUnitRenderAction_PostRender))) = 612.
Proof. evaluate. Qed.

(** C2 does not hold on the code.  Once the first of two decoders has been
    rendered to its end and collected, the only state left has rendered
    nothing while mFramesRendered stands at the 100 frames of the first. *)
Lemma frames_not_accounted_after_handoff :
  first_rendered = run new_player first_track_rendered
  /\ mFramesRendered first_rendered = 100
  /\ live_framesRendered (mActiveDecoders first_rendered) = 0
  /\ held_framesRendered (mActiveDecoders first_rendered) = 0
  /\ ~ frames_accounted first_rendered.
Proof. evaluate. Qed.

(** What is kept instead, on a run: one decoder, a pass of 512 frames with
    its accounting, a sweep of the collector. *)
Lemma frames_accounted_preserved_witness :
  frames_accounted playing
  /\ 0 < mFramesDecoded playing - mFramesRendered playing < 2 ^ 32
  /\ first_live (mActiveDecoders playing) = Some (state_in 0 playing)
  /\ frames_accounted
       (snd (DidRender (snd (Render playing 0 512 (output_buffers 512)))
               kAudioUnitRenderAction_PostRender))
  /\ mFramesRendered
       (snd (DidRender (snd (Render playing 0 512 (output_buffers 512)))
               kAudioUnitRenderAction_PostRender)) = 512
  /\ frames_accounted (step playing CollectorSweeps).
Proof.
  destruct (@frames_accounted_preserved SimpleHost Track Ring _ _ _)
    as (_ & Hquiet & Hpass).
  assert (H1 : frames_accounted playing) by evaluate.
  assert (H2 : 0 < mFramesDecoded playing - mFramesRendered playing < 2 ^ 32) by evaluate.
  assert (H3 : first_live (mActiveDecoders playing) = Some (state_in 0 playing))
    by evaluate.
  assert (H4 : fst (Fetch (mRingBuffer playing) (output_buffers 512)
                      (Z.min (mFramesDecoded playing - mFramesRendered playing) 512)
                      (mFramesRendered playing) false) = kCARingBufferError_OK)
    by evaluate.
  assert (H5 : Z.min (mFramesDecoded playing - mFramesRendered playing) 512
               < State.mTotalFrames (state_in 0 playing)
                 - State.mFramesRendered (state_in 0 playing)) by evaluate.
  assert (H6 : Z.land kAudioUnitRenderAction_PostRender kAudioUnitRenderAction_PostRender
               <> 0) by evaluate.
  assert (H7 : quiet playing CollectorSweeps = true) by evaluate.
  split; [exact H1|]. split; [exact H2|]. split; [exact H3|].
  destruct (Hpass playing 0 512 (output_buffers 512) kAudioUnitRenderAction_PostRender
              (state_in 0 playing) H1 H2 H4 H3 H5 H6) as [Ha Hf].
  split; [exact Ha|]. split; [rewrite Hf; evaluate|].
  exact (Hquiet playing CollectorSweeps H1 H7).
Defined.

(** C3 does not hold on the code for a player whose graph is not running,
    here one that has decoded 1000 frames: Stop leaves the counters and the
    decoder states as they are. *)
Lemma Stop_while_paused_changes_nothing :
  paused = run new_player decoded_while_paused
  /\ IsPlaying paused = false
  /\ mFramesDecoded (Stop paused) = 1000
  /\ State.mKeepDecoding (state_in 0 (Stop paused)) = true
  /\ State.mReadyForCollection (state_in 0 (Stop paused)) = false
  /\ ~ (mFramesDecoded (Stop paused) = 0 /\ mFramesRendered (Stop paused) = 0
        /\ mNextDecoderStartingTimeStamp (Stop paused) = 0
        /\ forall i s, mActiveDecoders (Stop paused) !! i = Some (Some s) ->
             State.mKeepDecoding s = false /\ State.mReadyForCollection s = true).
Proof.
  vm_compute. repeat split. intros [Hd _]. discriminate.
Qed.

(** Stop on a running and on a paused player. *)
Lemma Stop_effect_witness :
  IsPlaying playing = true
  /\ mFramesDecoded playing = 1000
  /\ mFramesDecoded (Stop playing) = 0
  /\ (exists s', mActiveDecoders (Stop playing) !! 0%nat = Some (Some s')
                 /\ State.mKeepDecoding s' = false /\ State.mReadyForCollection s' = true)
  /\ Stop paused = paused.
Proof.
  pose proof (Stop_effect playing) as H1.
  pose proof (Stop_effect paused) as H2.
  assert (E1 : IsPlaying playing = true) by evaluate.
  assert (E2 : IsPlaying paused = false) by evaluate.
  assert (E3 : mActiveDecoders playing !! 0%nat = Some (Some (state_in 0 playing)))
    by evaluate.
  rewrite E1 in H1. rewrite E2 in H2.
  destruct H1 as (Hd & _ & _ & _ & Hs).
  split; [exact E1|]. split; [evaluate|]. split; [exact Hd|].
  split; [exact (Hs 0%nat (state_in 0 playing) E3)|exact H2].
Defined.

(** Render of 4 frames on the new player, whose ring holds nothing. *)
Lemma Render_nothing_decoded_witness :
  mFramesDecoded new_player - mFramesRendered new_player = 0
  /\ 0 <= 4 * sizeof_float < 2 ^ 32
  /\ exists out,
       Render new_player 0 4 (output_buffers 4)
       = (noErr, Z.lor 0 kAudioUnitRenderAction_OutputIsSilence, out, new_player)
       /\ exists b', out !! 1%nat = Some b'
            /\ mDataByteSize b' = 4 * sizeof_float /\ mData b' !! 15%nat = Some x00.
Proof.
  assert (H1 : mFramesDecoded new_player - mFramesRendered new_player = 0) by evaluate.
  assert (H2 : 0 <= 4 * sizeof_float < 2 ^ 32) by evaluate.
  assert (H3 : output_buffers 4 !! 1%nat = Some (host_buffer 16)) by evaluate.
  assert (H4 : (15 < length (mData (host_buffer 16)))%nat)
    by (apply Nat.ltb_lt; evaluate).
  assert (H5 : Z.of_nat 15 < 4 * sizeof_float) by evaluate.
  split; [exact H1|]. split; [exact H2|].
  destruct (Render_nothing_decoded new_player 0 4 (output_buffers 4) H1 H2)
    as (out & Hr & _ & _ & Hb).
  exists out. split; [exact Hr|].
  destruct (Hb 1%nat (host_buffer 16) H3) as (b' & Hl & Hsize & _ & Hzero & _).
  exists b'. split; [exact Hl|]. split; [exact Hsize|].
  exact (Hzero 15%nat H4 H5).
Defined.

(** Render of 5 frames when 3 are decoded: the bytes of the last two frames
    are zeroed, and those 8 bytes are added to the size of the buffer. *)
Lemma Render_fetches_what_is_available_witness :
  0 < mFramesDecoded playing_three_frames - mFramesRendered playing_three_frames < 2 ^ 32
  /\ 0 <= 5 < 2 ^ 32
  /\ exists out p',
       Render playing_three_frames 0 5 (output_buffers 5) = (noErr, 0, out, p')
       /\ mFramesRendered p' = 3
       /\ exists b', out !! 0%nat = Some b'
            /\ mDataByteSize b' = 20 /\ mData b' !! 12%nat = Some x00.
Proof.
  assert (H1 : 0 < mFramesDecoded playing_three_frames
                   - mFramesRendered playing_three_frames < 2 ^ 32) by evaluate.
  assert (H2 : 0 <= 5 < 2 ^ 32) by evaluate.
  split; [exact H1|]. split; [exact H2|].
  pose proof (Render_fetches_what_is_available playing_three_frames 0 5
                (output_buffers 5) H1 H2) as T.
  cbv zeta in T.
  destruct (Fetch _ _ _ _ _) as [result fetched] eqn:Hf.
  vm_compute in Hf. injection Hf as <- <-.
  assert (E : (0 =? kCARingBufferError_OK) = true) by evaluate.
  rewrite E in T.
  destruct T as (out & p' & Hr & Hfr & _ & _ & _ & _ & Htail).
  exists out, p'. split; [exact Hr|]. split; [rewrite Hfr; evaluate|].
  destruct Htail as [_ Htail]; [evaluate|].
  destruct (Htail 0%nat _ eq_refl) as (b' & Hl & Hsize & _ & Hzero & _).
  exists b'. split; [exact Hl|]. split; [rewrite Hsize; evaluate|].
  apply Hzero; [apply Nat.ltb_lt|]; evaluate.
Defined.

(** The first of two decoders meets its end after 100 frames and a reader
    for the second is started; over the whole run the two decoders add 100
    and 1000 frames to the time stamp. *)
Lemma FileReader_end_of_stream_witness :
  RING_BUFFER_WRITE_CHUNK_SIZE_FRAMES
  <= to_UInt32 (RING_BUFFER_SIZE_FRAMES
                - (mFramesDecoded first_decoded - mFramesRendered first_decoded))
  /\ (exists p' s' bufferList,
        FileReader_iteration first_decoded (state_in 0 first_decoded) transfer_buffers
        = (p', s', bufferList, EndOfStream 100)
        /\ State.mTotalFrames s' = 100
        /\ State.mKeepDecoding s' = false
        /\ mNextDecoderStartingTimeStamp p' = 100
        /\ exists es, events p' = events first_decoded ++ es
             /\ In fileReaderEntry_started es)
  /\ mNextDecoderStartingTimeStamp (fst (session_run new_player [] both_to_their_end))
     = sum_frames (snd (session_run new_player [] both_to_their_end))
  /\ snd (session_run new_player [] both_to_their_end) = [100; 1000].
Proof.
  destruct (@FileReader_end_of_stream SimpleHost Track Ring _ _ _) as [Hend Hsession].
  assert (H1 : RING_BUFFER_WRITE_CHUNK_SIZE_FRAMES
               <= to_UInt32 (RING_BUFFER_SIZE_FRAMES
                             - (mFramesDecoded first_decoded
                                - mFramesRendered first_decoded))) by evaluate.
  assert (H2 : mNextDecoderStartingTimeStamp new_player = 0) by evaluate.
  split; [exact H1|]. split; [|split].
  - pose proof (Hend first_decoded (state_in 0 first_decoded) transfer_buffers H1) as T.
    destruct (FileReader_seek _ _) as [p1 s1] eqn:Hs. vm_compute in Hs.
    injection Hs as <- <-. cbv zeta in T.
    match type of T with
    | ?read -> _ => assert (H3 : read) by evaluate; specialize (T H3)
    end.
    destruct (FileReader_iteration _ _ _) as [[[p' s'] b'] outcome].
    destruct T as (-> & (es & Hes & _ & Hstarted) & Ht & Hk & Hn).
    exists p', s', b'. split; [evaluate|]. split; [rewrite Ht; evaluate|].
    split; [exact Hk|]. split; [rewrite Hn; evaluate|].
    exists es. split; [exact Hes|]. apply Hstarted. evaluate.
  - pose proof (Hsession new_player both_to_their_end H2) as T.
    destruct (session_run _ _ _) as [p' reached]. exact T.
  - evaluate.
Defined.

(** C7 does not hold on the code for a decoder whose failing seek answers a
    negative frame other than -1, here -2 for a seek to frame 5000 of 1000:
    the counters move to that frame. *)
Lemma failed_seek_moves_the_counters :
  seeking_beyond = run new_player seek_beyond_the_end
  /\ State.mFrameToSeek (state_in 0 seeking_beyond) = 5000
  /\ fst (SeekToFrame_ (State.mDecoder (state_in 0 seeking_beyond)) 5000) = -2
  /\ mFramesDecoded seeking_beyond = 1000
  /\ mFramesRendered seeking_beyond = 0
  /\ State.mFramesRendered (state_in 0 seeking_beyond) = 0
  /\ mFramesDecoded (fst (FileReader_seek seeking_beyond (state_in 0 seeking_beyond))) = -2
  /\ mFramesRendered (fst (FileReader_seek seeking_beyond (state_in 0 seeking_beyond))) = -2
  /\ State.mFramesRendered
       (snd (FileReader_seek seeking_beyond (state_in 0 seeking_beyond))) = -2
  /\ mFramesDecoded (fst (FileReader_seek seeking_beyond (state_in 0 seeking_beyond)))
     <> mFramesDecoded seeking_beyond.
Proof. evaluate. Qed.

(** A seek back to frame 500 of a decoder read up to frame 1000. *)
Lemma FileReader_seek_effect_witness :
  State.mFrameToSeek (state_in 0 seeking_back) <> -1
  /\ exists p' s',
       FileReader_seek seeking_back (state_in 0 seeking_back) = (p', s')
       /\ State.mFrameToSeek s' = -1
       /\ State.mFramesRendered s' = 500
       /\ mFramesDecoded p' = 500
       /\ mFramesRendered p' = 500.
Proof.
  assert (H1 : State.mFrameToSeek (state_in 0 seeking_back) <> -1) by evaluate.
  split; [exact H1|].
  pose proof (FileReader_seek_effect seeking_back (state_in 0 seeking_back) H1) as T.
  cbv zeta in T.
  destruct (SeekToFrame_ _ _) as [new decoder] eqn:Hs. vm_compute in Hs.
  injection Hs as <- <-.
  destruct (FileReader_seek _ _) as [p' s'].
  destruct T as (Hseek & _ & T).
  assert (E : bool_decide (500 = -1) = false) by evaluate.
  rewrite E in T.
  destruct T as (Hfr & Hfd & Hgl & _).
  exists p', s'. split; [reflexivity|]. split; [exact Hseek|]. split; [exact Hfr|].
  split; [rewrite Hfd; evaluate|]. rewrite Hgl, Hfd. evaluate.
Defined.

(** Enqueue behind a playing 44.1 kHz decoder, with a 48 kHz decoder, with a
    44.1 kHz decoder, and on the new player. *)
Lemma Enqueue_effect_witness :
  (exists p',
     Enqueue playing (track stereo_48000 500) = (false, p')
     /\ mDecoderQueue p' = mDecoderQueue playing)
  /\ (exists p',
        Enqueue playing (track stereo_44100 500) = (true, p')
        /\ mDecoderQueue p' = mDecoderQueue playing ++ [track stereo_44100 500])
  /\ Enqueue new_player (track stereo_44100 500)
     = PlayDecoder (queue_inspected new_player) (track stereo_44100 500).
Proof.
  pose proof (Enqueue_effect playing (track stereo_48000 500)) as (Hbad & _ & _).
  pose proof (Enqueue_effect playing (track stereo_44100 500)) as (_ & Hgood & _).
  pose proof (Enqueue_effect new_player (track stereo_44100 500)) as (_ & _ & Hidle).
  assert (H1 : bool_decide (GetCurrentDecoderState playing = None)
               && bool_decide (mDecoderQueue playing = []) = false) by evaluate.
  assert (H2 : graph_format (queue_inspected playing) = Some stereo_44100) by evaluate.
  assert (H3 : mSampleRate (GetFormat (track stereo_48000 500)) <> mSampleRate stereo_44100)
    by evaluate.
  assert (H4 : fst (pthread_mutex_lock (host playing)) = 0) by evaluate.
  assert (H5 : fst (pthread_mutex_lock (host (queue_inspected playing))) = 0) by evaluate.
  assert (H6 : mSampleRate (GetFormat (track stereo_44100 500)) = mSampleRate stereo_44100)
    by evaluate.
  assert (H7 : mChannelsPerFrame (GetFormat (track stereo_44100 500))
               = mChannelsPerFrame stereo_44100) by evaluate.
  assert (H8 : bool_decide (GetCurrentDecoderState new_player = None)
               && bool_decide (mDecoderQueue new_player = []) = true) by evaluate.
  assert (H9 : fst (pthread_mutex_lock (host new_player)) = 0) by evaluate.
  split; [|split].
  - destruct (Hbad stereo_44100 H1 H2 (or_introl H3)) as (p' & Hr & Hq & _).
    exists p'. split; [exact Hr|exact Hq].
  - destruct (Hgood stereo_44100 H1 H4 H5 H2 H6 H7) as (p' & Hr & Hq & _).
    exists p'. split; [exact Hr|exact Hq].
  - exact (Hidle H8 H9).
Defined.

(** C9 does not hold on the code for a decoder without frames: its
    rendering-started callback is performed although no frame is attributed
    to it. *)
Lemma rendering_started_without_frames :
  State.mFramesRendered empty_track_state = 0
  /\ State.mTotalFrames empty_track_state = 0
  /\ snd (DidRender_visit 512 empty_track_state) = 0
  /\ In (PerformRenderingStartedCallback (State.mDecoder empty_track_state))
       (snd (fst (DidRender_visit 512 empty_track_state)))
  /\ ~ (In (PerformRenderingStartedCallback (State.mDecoder empty_track_state))
          (snd (fst (DidRender_visit 512 empty_track_state)))
        <-> State.mFramesRendered empty_track_state = 0
            /\ 0 < snd (DidRender_visit 512 empty_track_state)).
Proof.
  vm_compute. split; [done|]. split; [done|]. split; [done|]. split; [by left|].
  intros [Hfire _]. destruct Hfire as [_ Hgive]; [by left|]. discriminate.
Qed.

(** The first visit of a decoder with 1000 frames in a pass of 512. *)
Lemma DidRender_rendering_started_witness :
  State.mReadyForCollection (state_in 0 playing) = false
  /\ State.mFramesRendered (state_in 0 playing) = 0
  /\ exists s' es give,
       DidRender_visit 512 (state_in 0 playing) = (s', es, give)
       /\ In (PerformRenderingStartedCallback (State.mDecoder (state_in 0 playing))) es.
Proof.
  assert (H1 : State.mReadyForCollection (state_in 0 playing) = false) by evaluate.
  assert (H2 : State.mFramesRendered (state_in 0 playing) = 0) by evaluate.
  split; [exact H1|]. split; [exact H2|].
  pose proof (DidRender_rendering_started 512 512 (state_in 0 playing) [] H1) as T.
  destruct (DidRender_visit 512 _) as [[s' es] give].
  destruct T as (_ & Hstarted).
  exists s', es, give. split; [reflexivity|]. apply Hstarted. exact H2.
Defined.

(** GetCurrentFrame with a seek to frame 500 requested, with none, and on
    the new player. *)
Lemma GetCurrentFrame_of_current_decoder_witness :
  GetCurrentFrame seeking_back = 500
  /\ GetCurrentFrame playing = 0
  /\ GetCurrentFrame new_player = -1.
Proof.
  pose proof (GetCurrentFrame_of_current_decoder seeking_back) as H1.
  pose proof (GetCurrentFrame_of_current_decoder playing) as H2.
  pose proof (GetCurrentFrame_of_current_decoder new_player) as H3.
  destruct (GetCurrentDecoderState seeking_back) as [[i1 s1]|] eqn:E1;
    vm_compute in E1; [|discriminate].
  destruct (GetCurrentDecoderState playing) as [[i2 s2]|] eqn:E2;
    vm_compute in E2; [|discriminate].
  destruct (GetCurrentDecoderState new_player) as [[i3 s3]|] eqn:E3;
    vm_compute in E3; [discriminate|].
  injection E1 as <- <-. injection E2 as <- <-.
  destruct H1 as [_ H1], H2 as [_ H2], H3 as [_ H3].
  split; [rewrite H1; evaluate|]. split; [rewrite H2; evaluate|exact H3].
Defined.

(** ** More concrete runs *)

Lemma more_scenario_players :
  queued = run new_player one_track_queued
  /\ entered = run new_player one_track_entered
  /\ full = run new_player ring_filled
  /\ first_ended = run new_player first_of_two_ended
  /\ three_rendered = run new_player three_frames_rendered
  /\ starved = run new_player first_chunk_played.
Proof. evaluate. Qed.

(** A seek to frame 500 on the playing decoder. *)
Lemma SeekToFrame_then_GetCurrentFrame_witness :
  0 <= 500
  /\ exists p', SeekToFrame playing 500 = (true, p')
                /\ GetCurrentFrame p' = 500
                /\ events p' = events playing ++ [semaphore_signal_mDecoderSemaphore].
Proof.
  assert (H1 : 0 <= 500) by evaluate.
  split; [exact H1|].
  pose proof (SeekToFrame_then_GetCurrentFrame playing 500 H1) as T.
  destruct (GetCurrentDecoderState playing) as [[i s]|] eqn:E;
    vm_compute in E; [|discriminate].
  injection E as <- <-.
  assert (E2 : SupportsSeeking (State.mDecoder (state_in 0 playing)) = true) by evaluate.
  change (State.mk (mkTrack (mkASBD 44100 2 4) 1000 1000 true (-1)) 0 1000 0 (-1) 1 true false)
    with (state_in 0 playing) in T.
  rewrite E2 in T.
  destruct T as (p' & Hcall & _ & Hframe & _ & Hev).
  exists p'. split; [exact Hcall|]. split; [exact Hframe|exact Hev].
Defined.

(** Stop on the playing decoder, and Play(decoder) on top of it. *)
Lemma no_current_decoder_after_a_stop_witness :
  IsPlaying playing = true
  /\ GetCurrentDecoderState (Stop playing) = None
  /\ GetCurrentFrame (Stop playing) = -1
  /\ SeekToFrame (Stop playing) 10 = (false, Stop playing)
  /\ mActiveDecoders (CollectorThreadEntry_sweep (Stop playing)) !! 0%nat = Some None.
Proof.
  assert (H1 : IsPlaying playing = true) by evaluate.
  assert (H2 : (0 < length (mActiveDecoders playing))%nat) by (apply Nat.ltb_lt; evaluate).
  split; [exact H1|].
  destruct (no_current_decoder_after_a_stop playing (track stereo_44100 500) (Stop playing)
              (or_introl (conj H1 eq_refl))) as (Hcur & Hframe & _ & Hseek & Hsweep).
  split; [exact Hcur|]. split; [exact Hframe|]. split; [exact (Hseek 10)|].
  exact (Hsweep 0%nat H2).
Defined.

(** The decoder stands at frame 1000 of 1000; a seek to frame 500 is
    requested and served by the next pass, which reads the 500 frames that
    follow. *)
Lemma seek_request_served_witness :
  0 <= 500
  /\ GetCurrentDecoderState playing = Some (0%nat, state_in 0 playing)
  /\ room_for_a_chunk playing = true
  /\ GetCurrentFrame
       (fst (FileReader_step (snd (SeekToFrame playing 500)) 0 transfer_buffers)) = 500
  /\ mFramesDecoded
       (fst (FileReader_step (snd (SeekToFrame playing 500)) 0 transfer_buffers))
     - mFramesRendered
         (fst (FileReader_step (snd (SeekToFrame playing 500)) 0 transfer_buffers)) = 500.
Proof.
  assert (H1 : 0 <= 500) by evaluate.
  assert (H2 : GetCurrentDecoderState playing = Some (0%nat, state_in 0 playing)) by evaluate.
  assert (H3 : SupportsSeeking (State.mDecoder (state_in 0 playing)) = true) by evaluate.
  assert (H4 : State.mDecodingThread (state_in 0 playing) <> 0) by evaluate.
  assert (H5 : room_for_a_chunk playing = true) by evaluate.
  assert (H6 : SeekToFrame_ (State.mDecoder (state_in 0 playing)) 500
               = (500, mkTrack stereo_44100 1000 500 true (-1))) by evaluate.
  assert (H7 : 500 <> -1) by evaluate.
  split; [exact H1|]. split; [exact H2|]. split; [exact H5|].
  destruct (seek_request_served playing 500 0%nat (state_in 0 playing) transfer_buffers
              H1 H2 H3 H4 H5 500 (mkTrack stereo_44100 1000 500 true (-1)) _ H6 eq_refl)
    as (Hframe & _ & Hring).
  split.
  - rewrite Hframe. evaluate.
  - rewrite (Hring H7). evaluate.
Defined.

(** The ring is full after eight chunks: the ninth pass changes nothing. *)
Lemma FileReader_step_without_room_witness :
  ring_within_capacity full
  /\ RING_BUFFER_SIZE_FRAMES - RING_BUFFER_WRITE_CHUNK_SIZE_FRAMES
     < mFramesDecoded full - mFramesRendered full
  /\ mFramesDecoded full = 16384
  /\ fst (FileReader_step full 0 transfer_buffers) = full.
Proof.
  assert (H1 : ring_within_capacity full) by evaluate.
  assert (H2 : RING_BUFFER_SIZE_FRAMES - RING_BUFFER_WRITE_CHUNK_SIZE_FRAMES
               < mFramesDecoded full - mFramesRendered full) by evaluate.
  split; [exact H1|]. split; [exact H2|]. split; [evaluate|].
  exact (proj1 (FileReader_step_without_room full 0 transfer_buffers H1 H2)).
Defined.

(** The first pass of the reader of a decoder of 1000 frames. *)
Lemma FileReader_step_decodes_a_chunk_witness :
  mActiveDecoders entered !! 0%nat = Some (Some (state_in 0 entered))
  /\ room_for_a_chunk entered = true
  /\ exists p', FileReader_step entered 0 transfer_buffers = (p', Some (DecodedChunk 1000))
                /\ mFramesDecoded p' = 1000
                /\ mFramesRendered p' = 0.
Proof.
  assert (H1 : mActiveDecoders entered !! 0%nat = Some (Some (state_in 0 entered)))
    by evaluate.
  assert (H2 : State.mDecodingThread (state_in 0 entered) <> 0) by evaluate.
  assert (H3 : State.mFrameToSeek (state_in 0 entered) = -1) by evaluate.
  assert (H4 : room_for_a_chunk entered = true) by evaluate.
  assert (H5 : ReadAudio (State.mDecoder (state_in 0 entered)) transfer_buffers
                 RING_BUFFER_WRITE_CHUNK_SIZE_FRAMES
               = (1000, transfer_buffers, mkTrack stereo_44100 1000 1000 true (-1)))
    by evaluate.
  assert (H6 : 1000 <> 0) by evaluate.
  split; [exact H1|]. split; [exact H4|].
  destruct (FileReader_step_decodes_a_chunk entered 0 (state_in 0 entered) transfer_buffers
              H1 H2 H3 H4 1000 transfer_buffers _ H5 H6)
    as (p' & Hcall & Hdec & Hren & _).
  exists p'. split; [exact Hcall|]. split; [rewrite Hdec; evaluate|rewrite Hren; evaluate].
Defined.

(** The decoding-started callback in that first pass. *)
Lemma FileReader_decoding_started_witness :
  room_for_a_chunk entered = true
  /\ exists es,
       events (fst (fst (fst (FileReader_iteration entered (state_in 0 entered)
                                transfer_buffers))))
       = events entered ++ es
       /\ In (PerformDecodingStartedCallback (mkTrack stereo_44100 1000 1000 true (-1))) es.
Proof.
  assert (H1 : room_for_a_chunk entered = true) by evaluate.
  split; [exact H1|].
  destruct (FileReader_iteration entered (state_in 0 entered) transfer_buffers)
    as [[[p' s'] out] outcome] eqn:Hcall.
  destruct (FileReader_decoding_started entered (state_in 0 entered) transfer_buffers H1
              p' s' out outcome Hcall) as (es & Hes & Hstarted).
  vm_compute in Hcall. injection Hcall as <- <- <- <-.
  exists es. split; [exact Hes|]. apply Hstarted. evaluate.
Defined.

(** The pass after the last frame of the playing decoder. *)
Lemma GetTotalFrames_after_end_of_stream_witness :
  GetCurrentDecoderState playing = Some (0%nat, state_in 0 playing)
  /\ room_for_a_chunk playing = true
  /\ AudioPlayer.GetTotalFrames (fst (FileReader_step playing 0 transfer_buffers)) = 1000
  /\ GetCurrentFrame (fst (FileReader_step playing 0 transfer_buffers)) = 0.
Proof.
  assert (H1 : GetCurrentDecoderState playing = Some (0%nat, state_in 0 playing)) by evaluate.
  assert (H2 : State.mDecodingThread (state_in 0 playing) <> 0) by evaluate.
  assert (H3 : State.mFrameToSeek (state_in 0 playing) = -1) by evaluate.
  assert (H4 : room_for_a_chunk playing = true) by evaluate.
  assert (H5 : fst (fst (ReadAudio (State.mDecoder (state_in 0 playing)) transfer_buffers
                           RING_BUFFER_WRITE_CHUNK_SIZE_FRAMES)) = 0) by evaluate.
  split; [exact H1|]. split; [exact H4|].
  destruct (GetTotalFrames_after_end_of_stream playing 0%nat (state_in 0 playing)
              transfer_buffers H1 H2 H3 H4 H5 _ eq_refl) as (Htotal & Hframe & _).
  split; [rewrite Htotal; evaluate|rewrite Hframe; evaluate].
Defined.

(** The reader of the decoder handed to Play(decoder) enters. *)
Lemma FileReaderThreadEntry_enter_effect_witness :
  fst (pthread_mutex_lock (host queued)) = 0
  /\ mDecoderQueue queued = [track stereo_44100 1000]
  /\ mDecoderQueue (FileReaderThreadEntry_enter queued) = []
  /\ mActiveDecoders (FileReaderThreadEntry_enter queued)
     = <[0%nat := Some (entering_state queued (track stereo_44100 1000))]>
         (mActiveDecoders queued).
Proof.
  assert (H1 : fst (pthread_mutex_lock (host queued)) = 0) by evaluate.
  assert (H2 : mDecoderQueue queued = [track stereo_44100 1000]) by evaluate.
  assert (H3 : mActiveDecoders queued !! 0%nat = Some None) by evaluate.
  split; [exact H1|]. split; [exact H2|].
  destruct (FileReaderThreadEntry_enter_effect queued (track stereo_44100 1000) [] H1 H2)
    as (Hq & Hfirst & _).
  split; [exact Hq|]. apply Hfirst; [exact H3|]. intros j Hj. inversion Hj.
Defined.

(** Play(decoder) on the new player, then the entry of the reader. *)
Lemma PlayDecoder_then_reader_enters_witness :
  fst (PlayDecoder new_player (track stereo_44100 1000)) = true
  /\ GetCurrentFrame
       (FileReaderThreadEntry_enter (snd (PlayDecoder new_player (track stereo_44100 1000))))
     = 0
  /\ AudioPlayer.GetTotalFrames
       (FileReaderThreadEntry_enter (snd (PlayDecoder new_player (track stereo_44100 1000))))
     = 1000.
Proof.
  assert (H1 : fst (PlayDecoder new_player (track stereo_44100 1000)) = true) by evaluate.
  assert (H2 : fst (pthread_mutex_lock
                      (host (snd (PlayDecoder new_player (track stereo_44100 1000))))) = 0)
    by evaluate.
  assert (H3 : mActiveDecoders new_player !! 0%nat = Some None) by evaluate.
  split; [exact H1|].
  destruct (PlayDecoder_then_reader_enters new_player (track stereo_44100 1000) 0%nat
              H1 H2 H3 _ _ eq_refl eq_refl) as (_ & _ & _ & _ & Hframe & Htotal).
  split; [exact Hframe|]. rewrite Htotal. evaluate.
Defined.

(** The second of two decoders enters after the 100 frames of the first. *)
Lemma entering_decoder_starts_where_the_others_ended_witness :
  mNextDecoderStartingTimeStamp new_player = 0
  /\ mDecoderQueue (run new_player first_of_two_ended) = [track stereo_44100 1000]
  /\ snd (session_run new_player [] first_of_two_ended) = [100]
  /\ exists k s,
       mActiveDecoders (FileReaderThreadEntry_enter (run new_player first_of_two_ended)) !! k
       = Some (Some s)
       /\ State.mDecoder s = track stereo_44100 1000
       /\ State.mTimeStamp s = 100.
Proof.
  assert (H1 : mNextDecoderStartingTimeStamp new_player = 0) by evaluate.
  assert (H2 : fst (pthread_mutex_lock (host (run new_player first_of_two_ended))) = 0)
    by evaluate.
  assert (H3 : mDecoderQueue (run new_player first_of_two_ended) = [track stereo_44100 1000])
    by evaluate.
  assert (H4 : mActiveDecoders (run new_player first_of_two_ended) !! 1%nat = Some None)
    by evaluate.
  assert (H5 : snd (session_run new_player [] first_of_two_ended) = [100]) by evaluate.
  split; [exact H1|]. split; [exact H3|]. split; [exact H5|].
  destruct (entering_decoder_starts_where_the_others_ended new_player first_of_two_ended
              (track stereo_44100 1000) [] 1%nat H1 H2 H3 H4)
    as (k & s & _ & Hk & Hd & Hts).
  exists k, s. split; [exact Hk|]. split; [exact Hd|]. rewrite Hts, H5. evaluate.
Defined.

(** The loop of DidRender over the two decoders of the handoff, for a pass
    of 512 frames: the first gets its 100 frames and is finished, the second
    stays within its total. *)
Lemma DidRender_scan_within_totals_witness :
  0 <= 512
  /\ State.mFramesRendered
       (state_in 0 (snd (DidRender handoff kAudioUnitRenderAction_PostRender))) <= 100
  /\ State.mReadyForCollection (state_in 0 handoff) = false
  /\ State.mFramesRendered (state_in 1 handoff)
     <= State.mFramesRendered
          (state_in 1 (snd (DidRender handoff kAudioUnitRenderAction_PostRender)))
     <= State.mTotalFrames (state_in 1 handoff).
Proof.
  assert (H1 : 0 <= 512) by evaluate.
  assert (H2 : DidRender_scan 512 512 (mActiveDecoders handoff)
               = (mActiveDecoders (snd (DidRender handoff kAudioUnitRenderAction_PostRender)),
                  skipn (length (events handoff))
                    (events (snd (DidRender handoff kAudioUnitRenderAction_PostRender)))))
    by evaluate.
  assert (H3 : mActiveDecoders handoff !! 0%nat = Some (Some (state_in 0 handoff)))
    by evaluate.
  assert (H4 : mActiveDecoders (snd (DidRender handoff kAudioUnitRenderAction_PostRender))
               !! 0%nat
               = Some (Some (state_in 0 (snd (DidRender handoff
                                                kAudioUnitRenderAction_PostRender)))))
    by evaluate.
  assert (H5 : mActiveDecoders handoff !! 1%nat = Some (Some (state_in 1 handoff)))
    by evaluate.
  assert (H6 : mActiveDecoders (snd (DidRender handoff kAudioUnitRenderAction_PostRender))
               !! 1%nat
               = Some (Some (state_in 1 (snd (DidRender handoff
                                                kAudioUnitRenderAction_PostRender)))))
    by evaluate.
  assert (H7 : State.mFramesRendered (state_in 0 handoff)
               <= State.mTotalFrames (state_in 0 handoff)) by evaluate.
  assert (H8 : State.mFramesRendered (state_in 1 handoff)
               <= State.mTotalFrames (state_in 1 handoff)) by evaluate.
  assert (H9 : State.mTotalFrames (state_in 0 handoff) = 100) by evaluate.
  destruct (DidRender_scan_within_totals 512 512 (mActiveDecoders handoff) H1 _ _ H2)
    as [_ Hslots].
  destruct (Hslots 0%nat _ _ H3 H4) as (_ & Hfirst & _).
  destruct (Hslots 1%nat _ _ H5 H6) as (_ & Hsecond & _).
  split; [exact H1|]. split; [rewrite <- H9; exact (proj2 (proj1 (Hfirst H7)))|].
  split; [evaluate|]. exact (proj1 (Hsecond H8)).
Defined.

(** The three frames of the only decoder are rendered: the accounting of
    that pass finishes the decoder and stops the player. *)
Lemma DidRender_last_frames_stop_the_player_witness :
  IsPlaying three_rendered = true
  /\ mFramesRenderedLastPass three_rendered = 3
  /\ mFramesRendered three_rendered = 3
  /\ mFramesRendered (snd (DidRender three_rendered kAudioUnitRenderAction_PostRender)) = 0
  /\ GetCurrentDecoderState (snd (DidRender three_rendered kAudioUnitRenderAction_PostRender))
     = None
  /\ exists es,
       events (snd (DidRender three_rendered kAudioUnitRenderAction_PostRender))
       = events three_rendered ++ es
       /\ In (PerformRenderingFinishedCallback (State.mDecoder (state_in 0 three_rendered))) es.
Proof.
  assert (H1 : Z.land kAudioUnitRenderAction_PostRender kAudioUnitRenderAction_PostRender
               <> 0) by evaluate.
  assert (H2 : mFramesRenderedLastPass three_rendered <> 0) by evaluate.
  assert (H3 : IsPlaying three_rendered = true) by evaluate.
  assert (H4 : live (mActiveDecoders three_rendered) 0 (state_in 0 three_rendered))
    by evaluate.
  assert (H5 : forall j s', live (mActiveDecoders three_rendered) j s' -> j = 0%nat).
  { intros j s' [Hj _]. destruct j as [|j]; [reflexivity|]. exfalso.
    do 7 (destruct j as [|j]; [vm_compute in Hj; discriminate Hj|]).
    vm_compute in Hj. discriminate Hj. }
  assert (H6 : State.mTotalFrames (state_in 0 three_rendered)
               - State.mFramesRendered (state_in 0 three_rendered)
               <= mFramesRenderedLastPass three_rendered) by evaluate.
  split; [exact H3|]. split; [evaluate|]. split; [evaluate|].
  destruct (DidRender_last_frames_stop_the_player three_rendered
              kAudioUnitRenderAction_PostRender 0%nat (state_in 0 three_rendered)
              H1 H2 H3 H4 H5 H6 _ eq_refl)
    as ((es & Hes & Hfin & _) & Hcur & _ & Hren & _).
  split; [exact Hren|]. split; [exact Hcur|]. exists es. split; [exact Hes|exact Hfin].
Defined.

(** The ring is empty after the first chunk of 2048 frames was rendered and
    accounted for.  A Render of 4 frames outputs silence; the DidRender
    that follows attributes the 2048 frames of the earlier pass once more. *)
Lemma DidRender_after_a_Render_without_frames_witness :
  mFramesDecoded starved - mFramesRendered starved = 0
  /\ mFramesRenderedLastPass starved = 2048
  /\ live_framesRendered (mActiveDecoders starved) = 2048
  /\ mFramesRendered
       (snd (DidRender (snd (Render starved 0 4 (output_buffers 4)))
               kAudioUnitRenderAction_PostRender)) = 2048
  /\ live_framesRendered
       (mActiveDecoders
          (snd (DidRender (snd (Render starved 0 4 (output_buffers 4)))
                  kAudioUnitRenderAction_PostRender))) = 4096.
Proof.
  assert (H1 : mFramesDecoded starved - mFramesRendered starved = 0) by evaluate.
  assert (H2 : Z.land kAudioUnitRenderAction_PostRender kAudioUnitRenderAction_PostRender
               <> 0) by evaluate.
  assert (H3 : mFramesRenderedLastPass starved <> 0) by evaluate.
  assert (H4 : first_live (mActiveDecoders starved) = Some (state_in 0 starved)) by evaluate.
  assert (H5 : mFramesRenderedLastPass starved
               < State.mTotalFrames (state_in 0 starved)
                 - State.mFramesRendered (state_in 0 starved)) by evaluate.
  assert (H6 : mFramesRenderedLastPass starved = 2048) by evaluate.
  assert (H7 : live_framesRendered (mActiveDecoders starved) = 2048) by evaluate.
  assert (H8 : mFramesRendered starved = 2048) by evaluate.
  split; [exact H1|]. split; [exact H6|]. split; [exact H7|].
  destruct (DidRender_after_a_Render_without_frames starved 0 4
              kAudioUnitRenderAction_PostRender (output_buffers 4) (state_in 0 starved)
              (or_introl H1) H2 H3 H4 H5 _ eq_refl) as (_ & Hren & _ & Hsum).
  split; [rewrite Hren; exact H8|]. rewrite Hsum, H6, H7. evaluate.
Defined.

(** The sample decoder reads no more than it is asked for.  With 1000
    frames decoded and none rendered, a Render of 512 frames and a further
    pass of the reader keep the ring within its capacity. *)
Lemma ring_within_capacity_kept_witness :
  ring_within_capacity playing
  /\ to_UInt32 (mFramesDecoded playing - mFramesRendered playing) = 1000
  /\ ring_within_capacity (snd (Render playing 0 512 (output_buffers 512)))
  /\ ring_within_capacity (fst (FileReader_step playing 0 transfer_buffers)).
Proof.
  assert (H1 : @reads_within_request Track _).
  { intros decoder bufferList frameCount Hcount. simpl. lia. }
  assert (H2 : ring_within_capacity playing) by evaluate.
  assert (H3 : 0 <= 512 < 2 ^ 32) by evaluate.
  destruct (ring_within_capacity_kept playing H1 H2)
    as (Hread & _ & Hrender & Hpass & _).
  split; [exact H2|]. split; [rewrite Hread; evaluate|].
  split; [exact (Hrender 0 512 (output_buffers 512) H3)|].
  exact (Hpass 0%nat transfer_buffers).
Defined.

(** Five seconds into, and back from, the start of a decoder of 1000 frames
    at 44100 Hz. *)
Lemma SeekToTime_and_SeekBackward_stay_in_range_witness :
  GetCurrentDecoderState playing = Some (0%nat, state_in 0 playing)
  /\ to_frames 5 44100 = Some 220500
  /\ (exists p', SeekToTime playing 5 = Some (true, p') /\ GetCurrentFrame p' = 1000)
  /\ (exists p', SeekBackward playing 5 = Some (true, p') /\ GetCurrentFrame p' = 0).
Proof.
  assert (H1 : GetCurrentDecoderState playing = Some (0%nat, state_in 0 playing)) by evaluate.
  assert (H2 : SupportsSeeking (State.mDecoder (state_in 0 playing)) = true) by evaluate.
  assert (H3 : to_frames 5 (mSampleRate (GetFormat (State.mDecoder (state_in 0 playing))))
               = Some 220500) by evaluate.
  assert (H4 : SInt64_MIN <= GetCurrentFrame playing <= SInt64_MAX) by evaluate.
  assert (H5 : SInt64_MIN <= 220500 <= SInt64_MAX) by evaluate.
  assert (H6 : SInt64_MIN <= GetCurrentFrame playing - 220500 <= SInt64_MAX) by evaluate.
  split; [exact H1|]. split; [evaluate|].
  pose proof (SeekToTime_and_SeekBackward_stay_in_range playing 5) as T.
  rewrite H1 in T.
  destruct (T H2 220500 H3) as ((p1 & Hcall1 & Hframe1 & _) & Hback & _).
  destruct (Hback H4 H5 H6) as (p2 & Hcall2 & Hframe2 & _).
  split.
  - exists p1. split; [exact Hcall1|]. rewrite Hframe1. evaluate.
  - exists p2. split; [exact Hcall2|]. rewrite Hframe2. evaluate.
Defined.

(** Five seconds forward on the same decoder stop at its 1000 frames. *)
Lemma SeekForward_stops_at_the_total_witness :
  GetCurrentDecoderState playing = Some (0%nat, state_in 0 playing)
  /\ 0 <= GetCurrentFrame playing + 220500 <= SInt64_MAX
  /\ exists p', SeekForward playing 5 = Some (true, p') /\ GetCurrentFrame p' = 1000.
Proof.
  assert (H1 : GetCurrentDecoderState playing = Some (0%nat, state_in 0 playing)) by evaluate.
  assert (H2 : SupportsSeeking (State.mDecoder (state_in 0 playing)) = true) by evaluate.
  assert (H3 : to_frames 5 (mSampleRate (GetFormat (State.mDecoder (state_in 0 playing))))
               = Some 220500) by evaluate.
  assert (H4 : SInt64_MIN <= GetCurrentFrame playing <= SInt64_MAX) by evaluate.
  assert (H5 : SInt64_MIN <= 220500 <= SInt64_MAX) by evaluate.
  assert (H6 : 0 <= GetCurrentFrame playing + 220500 <= SInt64_MAX) by evaluate.
  assert (H7 : 0 <= State.mTotalFrames (state_in 0 playing)) by evaluate.
  split; [exact H1|]. split; [exact H6|].
  destruct (SeekForward_stops_at_the_total playing 5 0%nat (state_in 0 playing) H1 H2
              220500 H3 H4 H5) as [Hok _].
  destruct (Hok H6 H7) as (p' & Hcall & Hframe & _).
  exists p'. split; [exact Hcall|]. rewrite Hframe. evaluate.
Defined.

(** The queue of the player whose first decoder is decoded and whose second
    waits is cleared: the first reaches its end without a reader being
    started for a second. *)
Lemma ClearQueuedDecoders_effect_witness :
  fst (pthread_mutex_lock (host first_decoded)) = 0
  /\ mDecoderQueue first_decoded = [track stereo_44100 1000]
  /\ exists p', ClearQueuedDecoders first_decoded = (true, p')
                /\ mDecoderQueue p' = []
                /\ GetCurrentDecoderState p' = GetCurrentDecoderState first_decoded.
Proof.
  assert (H1 : fst (pthread_mutex_lock (host first_decoded)) = 0) by evaluate.
  split; [exact H1|]. split; [evaluate|].
  destruct (proj1 (ClearQueuedDecoders_effect first_decoded) H1)
    as (p' & Hcall & Hq & _ & Hcur & _).
  exists p'. split; [exact Hcall|]. split; [exact Hq|exact Hcur].
Defined.

(** Play(decoder) on a graph that refuses the format: the call fails and
    the decoder is left in the queue; on the sample host it succeeds. *)
Lemma PlayDecoder_effect_witness :
  fst (pthread_mutex_lock (host (stopped_for_Play refused_player))) = 0
  /\ fst (PlayDecoder refused_player (track stereo_44100 1000)) = false
  /\ mDecoderQueue (snd (PlayDecoder refused_player (track stereo_44100 1000)))
     = [track stereo_44100 1000]
  /\ fst (PlayDecoder new_player (track stereo_44100 1000)) = true
  /\ mDecoderQueue (snd (PlayDecoder new_player (track stereo_44100 1000)))
     = [track stereo_44100 1000].
Proof.
  assert (H1 : fst (pthread_mutex_lock (host (stopped_for_Play refused_player))) = 0)
    by evaluate.
  assert (H2 : fst (pthread_mutex_lock (host (stopped_for_Play new_player))) = 0)
    by evaluate.
  assert (H3 : mDecoderQueue refused_player = []) by evaluate.
  assert (H4 : mDecoderQueue new_player = []) by evaluate.
  destruct (PlayDecoder_effect refused_player (track stereo_44100 1000)) as (_ & Hbad & _).
  destruct (PlayDecoder_effect new_player (track stereo_44100 1000)) as (_ & Hgood & _).
  destruct (Hbad H1) as (Hq1 & _). destruct (Hgood H2) as (Hq2 & Hok & _).
  split; [exact H1|]. split; [evaluate|]. split; [rewrite Hq1, H3; reflexivity|].
  split; [apply Hok; evaluate|]. rewrite Hq2, H4. reflexivity.
Defined.

(** The handoff of the pass of 512 frames: the first decoder, with 100
    frames left, is finished and the second is started right after. *)
Lemma DidRender_scan_hands_over_witness :
  mActiveDecoders handoff
  = [] ++ Some (state_in 0 handoff) :: [] ++ Some (state_in 1 handoff) :: replicate 6 None
  /\ State.mTotalFrames (state_in 0 handoff) - State.mFramesRendered (state_in 0 handoff) < 512
  /\ State.mFramesRendered (state_in 1 handoff) = 0
  /\ exists slots' started after,
       DidRender_scan 512 512 (mActiveDecoders handoff)
       = (slots',
          started
          ++ [PerformRenderingFinishedCallback (State.mDecoder (state_in 0 handoff));
              semaphore_signal_mCollectorSemaphore;
              PerformRenderingStartedCallback (State.mDecoder (state_in 1 handoff))]
          ++ after).
Proof.
  assert (H1 : mActiveDecoders handoff
               = [] ++ Some (state_in 0 handoff)
                 :: [] ++ Some (state_in 1 handoff) :: replicate 6 None) by evaluate.
  assert (H2 : forall k (u : DecoderStateData Track), ~ live [] k u).
  { intros k u [Hk _]. destruct k; discriminate Hk. }
  assert (H3 : State.mReadyForCollection (state_in 0 handoff) = false) by evaluate.
  assert (H4 : State.mReadyForCollection (state_in 1 handoff) = false) by evaluate.
  assert (H5 : State.mTotalFrames (state_in 0 handoff)
               - State.mFramesRendered (state_in 0 handoff) < 512) by evaluate.
  assert (H6 : State.mFramesRendered (state_in 1 handoff) = 0) by evaluate.
  split; [exact H1|]. split; [exact H5|]. split; [exact H6|].
  destruct (DidRender_scan_hands_over 512 [] [] (replicate 6 None)
              (state_in 0 handoff) (state_in 1 handoff) H2 H2 H3 H4 H5 H6)
    as (s' & rest' & started & after & Hscan & _).
  rewrite H1. eexists _, started, after. exact Hscan.
Defined.
